(** * Design canvas: coordinate transforms, persistence and agent-response
    normalisation

    A shallow embedding of [src/lib/utils.ts] (with its longer revision and
    the type declarations of [types.ts]) and of the handlers of
    [src/app/project/[id]/page.tsx] that mutate the project.

    Conventions of the embedding.
    - A JavaScript [number] is an IEEE 754 binary64 value.  The arithmetic of
      [CanvasUtils] is written once, over the interface [Number], and read
      twice: at [float] (Rocq's primitive binary64 floats, the arithmetic the
      code runs on) and at [Q] (exact rationals, the arithmetic the
      geometric contracts are phrased in).
    - Values typed [any] (the agent response, parsed JSON) are terms of
      [value], with JavaScript's truthiness and property lookup.
    - Objects that the code shares by reference (a template's [defaultSpecs])
      live in a heap and are named by locations.
    - The clock and the random source behind [generateId] are an explicit
      environment threaded through every call. *)

From Stdlib Require Import ZArith QArith Qminmax Lqa Floats.PrimFloat Uint63.
From Stdlib Require Import Ascii String.
From stdpp Require Import gmap strings list pretty.

Local Open Scope string_scope.
Set Warnings "-register-all".

(** ** Numbers *)

(** The operations [CanvasUtils] performs on numbers. *)
Class Number (num : Type) := {
  nlit : Z -> num;
  nadd : num -> num -> num;
  nsub : num -> num -> num;
  nmul : num -> num -> num;
  ndiv : num -> num -> num;
  Math_min : num -> num -> num;
  Math_max : num -> num -> num
}.

Declare Scope num_scope.
Delimit Scope num_scope with num.
Infix "+" := nadd : num_scope.
Infix "-" := nsub : num_scope.
Infix "*" := nmul : num_scope.
Infix "/" := ndiv : num_scope.

(** [Math.min(...xs)] and [Math.max(...xs)] on a non-empty argument list
    [x, ...xs]: the arguments are combined left to right. *)
Definition Math_min_list {num} `{Number num} (x : num) (xs : list num) : num :=
  foldl Math_min x xs.

Definition Math_max_list {num} `{Number num} (x : num) (xs : list num) : num :=
  foldl Math_max x xs.

(** Exact arithmetic. *)
#[export] Instance Q_exact : Number Q := {|
  nlit := inject_Z;
  nadd := Qplus;
  nsub := Qminus;
  nmul := Qmult;
  ndiv := Qdiv;
  Math_min := Qmin;
  Math_max := Qmax
|}.

(** Binary64 arithmetic.  [Math.min] and [Math.max] return NaN as soon as one
    argument is NaN and order [-0] below [+0]. *)
Definition f64_lit (z : Z) : float :=
  match z with
  | Zneg p => PrimFloat.opp (PrimFloat.of_uint63 (Uint63.of_Z (Zpos p)))
  | _ => PrimFloat.of_uint63 (Uint63.of_Z z)
  end.

Definition f64_min (a b : float) : float :=
  if PrimFloat.is_nan a || PrimFloat.is_nan b then PrimFloat.nan
  else if PrimFloat.ltb a b then a
  else if PrimFloat.ltb b a then b
  else if PrimFloat.get_sign a then a else b.

Definition f64_max (a b : float) : float :=
  if PrimFloat.is_nan a || PrimFloat.is_nan b then PrimFloat.nan
  else if PrimFloat.ltb a b then b
  else if PrimFloat.ltb b a then a
  else if PrimFloat.get_sign a then b else a.

#[export] Instance binary64 : Number float := {|
  nlit := f64_lit;
  nadd := PrimFloat.add;
  nsub := PrimFloat.sub;
  nmul := PrimFloat.mul;
  ndiv := PrimFloat.div;
  Math_min := f64_min;
  Math_max := f64_max
|}.

(** [Number.isFinite]. *)
Definition f64_isFinite (a : float) : bool :=
  negb (PrimFloat.is_nan a) && negb (PrimFloat.is_infinity a).

(** ** Data model ([types.ts]) *)

Module Point.
Record t (num : Type) := mk { x : num; y : num }.
Arguments mk {num}.
Arguments x {num}.
Arguments y {num}.
End Point.

(** A heap location; the objects kept in the heap are the open string-keyed
    [specifications] mappings. *)
Definition loc := positive.
Definition Specs := gmap string string.
Definition Heap := gmap loc Specs.

Inductive NodeType :=
| api_gateway | database | cache | queue | service | custom.

Inductive ConnectionType := sync | async | bidirectional.

Inductive Audience := technical | executive | adaptive.

Inductive Status := draft | generating | completed.

Module Scaling.
Record t := mk {
  horizontal : option bool;
  vertical : option bool;
  auto_scaling : option bool;
  details : option string
}.
End Scaling.

Module FaultTolerance.
Record t := mk {
  replication : option bool;
  backup : option bool;
  failover : option bool;
  details : option string
}.
End FaultTolerance.

Module SystemNode.
Record t (num : Type) := mk {
  id : string;
  type : NodeType;
  name : string;
  description : string;
  position : Point.t num;
  specifications : option loc;
  scaling : option Scaling.t;
  fault_tolerance : option FaultTolerance.t;
  connections : option (list string);
  icon : option string;
  color : option string
}.
Arguments mk {num}.
Arguments id {num}.
Arguments type {num}.
Arguments name {num}.
Arguments description {num}.
Arguments position {num}.
Arguments specifications {num}.
Arguments scaling {num}.
Arguments fault_tolerance {num}.
Arguments connections {num}.
Arguments icon {num}.
Arguments color {num}.
End SystemNode.

Module NodeConnection.
Record t := mk {
  id : string;
  source : string;
  target : string;
  type : ConnectionType;
  label : option string;
  description : option string;
  protocol : option string
}.
End NodeConnection.

Module ProjectVersion.
Record t (num : Type) := mk {
  id : string;
  version : Z;
  timestamp : string;
  nodes : list (SystemNode.t num);
  connections : list NodeConnection.t;
  snapshot_name : option string
}.
Arguments mk {num}.
Arguments id {num}.
Arguments version {num}.
Arguments timestamp {num}.
Arguments nodes {num}.
Arguments connections {num}.
Arguments snapshot_name {num}.
End ProjectVersion.

Module Project.
Record t (num : Type) := mk {
  id : string;
  name : string;
  requirements : string;
  audience : Audience;
  nodes : list (SystemNode.t num);
  connections : list NodeConnection.t;
  status : Status;
  created_at : string;
  updated_at : string;
  versions : list (ProjectVersion.t num)
}.
Arguments mk {num}.
Arguments id {num}.
Arguments name {num}.
Arguments requirements {num}.
Arguments audience {num}.
Arguments nodes {num}.
Arguments connections {num}.
Arguments status {num}.
Arguments created_at {num}.
Arguments updated_at {num}.
Arguments versions {num}.
End Project.

Module ComponentTemplate.
Record t := mk {
  id : string;
  type : NodeType;
  name : string;
  description : string;
  icon : string;
  defaultSpecs : option loc
}.
End ComponentTemplate.

(** A node with the given id and position and nothing else. *)
Definition node_at {num : Type} (id : string) (x y : num) : SystemNode.t num :=
  {| SystemNode.id := id;
     SystemNode.type := service;
     SystemNode.name := "";
     SystemNode.description := "";
     SystemNode.position := {| Point.x := x; Point.y := y |};
     SystemNode.specifications := None;
     SystemNode.scaling := None;
     SystemNode.fault_tolerance := None;
     SystemNode.connections := None;
     SystemNode.icon := None;
     SystemNode.color := None |}.

(** ** [CanvasUtils] *)

Module CanvasUtils.

Record View (num : Type) := mkView { zoom : num; pan : Point.t num }.
Arguments mkView {num}.
Arguments zoom {num}.
Arguments pan {num}.

(** The locals of [fitToView] that later lines read. *)
Record Content (num : Type) := mkContent {
  minX : num;
  minY : num;
  contentWidth : num;
  contentHeight : num
}.
Arguments mkContent {num}.
Arguments minX {num}.
Arguments minY {num}.
Arguments contentWidth {num}.
Arguments contentHeight {num}.

Section Generic.
Context {num : Type} `{Number num}.
Local Open Scope num_scope.

Definition screenToCanvas (screenX screenY : num) (pan : Point.t num) (zoom : num)
  : Point.t num :=
  {| Point.x := (screenX - Point.x pan) / zoom;
     Point.y := (screenY - Point.y pan) / zoom |}.

Definition canvasToScreen (canvasX canvasY : num) (pan : Point.t num) (zoom : num)
  : Point.t num :=
  {| Point.x := canvasX * zoom + Point.x pan;
     Point.y := canvasY * zoom + Point.y pan |}.

(** [fitToView] from [const xs] to [const contentHeight], for the non-empty
    node list [n :: ns]: [x0 :: xs] and [y0 :: ys] are the arrays [xs] and
    [ys] of the code. *)
Definition content (n : SystemNode.t num) (ns : list (SystemNode.t num))
    (padding : num) : Content num :=
  let x0 := Point.x (SystemNode.position n) in
  let xs := map (fun n => Point.x (SystemNode.position n)) ns in
  let y0 := Point.y (SystemNode.position n) in
  let ys := map (fun n => Point.y (SystemNode.position n)) ns in
  let minX := Math_min_list x0 xs - padding in
  let maxX := Math_max_list x0 xs + padding + nlit 300 in
  let minY := Math_min_list y0 ys - padding in
  let maxY := Math_max_list y0 ys + padding + nlit 150 in
  {| minX := minX; minY := minY;
     contentWidth := maxX - minX; contentHeight := maxY - minY |}.

Definition fitToView (nodes : list (SystemNode.t num))
    (containerWidth containerHeight : num) (padding : num) : View num :=
  match nodes with
  | [] => {| zoom := nlit 1; pan := {| Point.x := nlit 0; Point.y := nlit 0 |} |}
  | n :: ns =>
      let c := content n ns padding in
      let zoomX := containerWidth / contentWidth c in
      let zoomY := containerHeight / contentHeight c in
      let zoom := Math_min (Math_min zoomX zoomY) (nlit 1) in
      {| zoom := zoom;
         pan := {| Point.x := (containerWidth - contentWidth c * zoom) / nlit 2
                              - minX c * zoom;
                   Point.y := (containerHeight - contentHeight c * zoom) / nlit 2
                              - minY c * zoom |} |}
  end.

(** The default value of the [padding] parameter. *)
Definition default_padding : num := nlit 50.

End Generic.
End CanvasUtils.

(** Equality of points in exact arithmetic. *)
Definition point_Qeq (p q : Point.t Q) : Prop :=
  (Point.x p == Point.x q)%Q /\ (Point.y p == Point.y q)%Q.

(** ** JavaScript values and errors *)

Inductive JsError := TypeError | SyntaxError | OtherError.

(** The result of running code that may throw. *)
Inductive outcome (A : Type) :=
| Returned (a : A)
| Thrown (e : JsError).
Arguments Returned {A}.
Arguments Thrown {A}.

(** [try { body } catch (error) { handler }]. *)
Definition try_catch {A} (body : outcome A) (handler : JsError -> A) : A :=
  match body with
  | Returned a => a
  | Thrown e => handler e
  end.

(** A value of type [any]: what [JSON.parse] builds, and [undefined]. *)
Inductive value :=
| VUndefined
| VNull
| VBool (b : bool)
| VNumber (f : float)
| VString (s : string)
| VArray (items : list value)
| VObject (fields : list (string * value)).

Definition nullish (v : value) : bool :=
  match v with
  | VUndefined | VNull => true
  | _ => false
  end.

(** JavaScript's [ToBoolean]. *)
Definition truthy (v : value) : bool :=
  match v with
  | VUndefined | VNull => false
  | VBool b => b
  | VNumber f => negb (PrimFloat.is_zero f || PrimFloat.is_nan f)
  | VString s => negb (String.eqb s "")
  | VArray _ | VObject _ => true
  end.

Fixpoint assoc (k : string) (fields : list (string * value)) : option value :=
  match fields with
  | [] => None
  | (k', v) :: rest => if String.eqb k k' then Some v else assoc k rest
  end.

(** [a || b]. *)
Definition js_or (a b : value) : value := if truthy a then a else b.

(** [v === s] for a string [s]. *)
Definition strict_eq_string (v : value) (s : string) : bool :=
  match v with
  | VString s' => String.eqb s' s
  | _ => false
  end.

(** [v.k] for a value [v] that is neither [null] nor [undefined], and a key
    [k] that no prototype defines (the code reads [result], [data],
    [response], [status], [nodes], [connections] and [id]). *)
Definition member (k : string) (v : value) : value :=
  match v with
  | VObject fields => default VUndefined (assoc k fields)
  | _ => VUndefined
  end.

(** [v?.k]. *)
Definition opt_member (k : string) (v : value) : value :=
  if nullish v then VUndefined else member k v.

(** The decimal spelling of the indices the code uses. *)
Definition index_key (i : nat) : string :=
  match i with
  | 0 => "0" | 1 => "1" | 2 => "2" | 3 => "3"
  | _ => "4"
  end.

(** [v?.[i]] for [i <= 3]. *)
Definition opt_index (i : nat) (v : value) : value :=
  match v with
  | VArray items => nth i items VUndefined
  | VString s =>
      match String.get i s with
      | Some c => VString (String c EmptyString)
      | None => VUndefined
      end
  | VObject fields => default VUndefined (assoc (index_key i) fields)
  | _ => VUndefined
  end.

(** [v.length === 0] for a truthy [v]: the length of an array or of a
    string, or an own property [length] of an object. *)
Definition length_is_0 (v : value) : bool :=
  match v with
  | VArray items => match items with [] => true | _ => false end
  | VString s => String.eqb s ""
  | VObject fields =>
      match assoc "length" fields with
      | Some (VNumber f) => PrimFloat.eqb f 0
      | _ => false
      end
  | _ => false
  end.

(** ** Text: the string methods and the regular expression of the
    normaliser.  A string is a sequence of 8-bit characters. *)

(** The class [\s] on 8-bit characters: tab, line feed, vertical tab, form
    feed, carriage return, space and no-break space. *)
Definition is_space (c : ascii) : bool :=
  let n := nat_of_ascii c in
  (Nat.leb 9 n && Nat.leb n 13) || Nat.eqb n 32 || Nat.eqb n 160.

Fixpoint skip_space (s : string) : string :=
  match s with
  | String c s' => if is_space c then skip_space s' else s
  | EmptyString => s
  end.

Fixpoint drop_chars (n : nat) (s : string) : string :=
  match n, s with
  | S n', String _ s' => drop_chars n' s'
  | _, _ => s
  end.

(** The text that follows the leftmost occurrence of [p] in [s]. *)
Fixpoint after_first (p s : string) : option string :=
  if String.prefix p s then Some (drop_chars (String.length p) s)
  else match s with
       | String _ s' => after_first p s'
       | EmptyString => None
       end.

(** The lazy group [([\s\S]*?)] followed by [\s*```]: the shortest prefix of
    [s] after which optional white space and a closing fence follow. *)
Fixpoint lazy_until_close (s : string) : option string :=
  if String.prefix "```" (skip_space s) then Some EmptyString
  else match s with
       | String c s' => option_map (String c) (lazy_until_close s')
       | EmptyString => None
       end.

(** [text.match(/```json\s*([\s\S]*?)\s*```/)], reduced to its group 1.  The
    match starts at the leftmost opening fence (a later opening fence would
    itself close the first one), the first [\s*] takes all the white space
    there is, and the group then stops at the first closing position. *)
Definition fence_match (text : string) : option string :=
  match after_first "```json" text with
  | Some rest => lazy_until_close (skip_space rest)
  | None => None
  end.

(** [text.indexOf(c)] and [text.lastIndexOf(c)] for a one-character [c];
    [None] stands for [-1]. *)
Fixpoint indexOf (c : ascii) (s : string) : option nat :=
  match s with
  | EmptyString => None
  | String c' s' =>
      if Ascii.eqb c c' then Some 0 else option_map S (indexOf c s')
  end.

Fixpoint lastIndexOf (c : ascii) (s : string) : option nat :=
  match s with
  | EmptyString => None
  | String c' s' =>
      match lastIndexOf c s' with
      | Some i => Some (S i)
      | None => if Ascii.eqb c c' then Some 0 else None
      end
  end.

(** [text.substring(a, b)]: the arguments are swapped when [a > b]. *)
Definition js_substring (a b : nat) (s : string) : string :=
  String.substring (Nat.min a b) (Nat.max a b - Nat.min a b) s.

(** The substring that step 3 hands to [JSON.parse]. *)
Definition brace_candidate (text : string) : option string :=
  match indexOf "{" text, lastIndexOf "}" text with
  | Some jsonStart, Some jsonEnd =>
      Some (js_substring jsonStart (jsonEnd + 1) text)
  | _, _ => None
  end.

(** [s.trim()]. *)
Definition trim (s : string) : string :=
  String.rev (skip_space (String.rev (skip_space s))).

(** ** Identifiers *)

(** The clock and the random source, as [generateId] observes them: the
    decimal spelling of [Date.now()] and the string
    [Math.random().toString(36).substr(2, 9)] at the [n]-th call. *)
Record Env := mkEnv {
  calls : nat;
  Date_now : nat -> string;
  random36 : nat -> string
}.

Definition tick (e : Env) : Env :=
  {| calls := S (calls e); Date_now := Date_now e; random36 := random36 e |}.

Definition generateId (e : Env) : string * Env :=
  (Date_now e (calls e) ++ "-" ++ random36 e (calls e), tick e).

(** The id [generateId] returns at its [k]-th call from [e] on. *)
Definition nth_id (e : Env) (k : nat) : string :=
  fst (generateId (Nat.iter k tick e)).

(** ** The heap of shared objects *)

Definition heap_read (h : Heap) (l : loc) : option Specs := h !! l.

(** [o[k] = v] on the object at [l]. *)
Definition heap_write_field (l : loc) (k v : string) (h : Heap) : Heap :=
  alter (fun o : Specs => <[k := v]> o) l h.

(** [ref?.[k]]: the field [k] of the object a reference points to. *)
Definition read_field (h : Heap) (ref : option loc) (k : string) : option string :=
  match ref with
  | Some l =>
      match heap_read h l with
      | Some o => o !! k
      | None => None
      end
  | None => None
  end.

(** ** Component templates and the template instantiator *)

Definition specs_of (technology capacity latency : string) : Specs :=
  <["technology" := technology]>
    (<["capacity" := capacity]> (<["latency" := latency]> ∅)).

(** The [defaultSpecs] object literals of [componentTemplates], in the
    order of the table. *)
Definition template_heap : Heap :=
  <[1%positive := specs_of "NGINX / Kong" "10K requests/sec" "<50ms"]>
  (<[2%positive := specs_of "PostgreSQL / MySQL" "1TB storage" "<10ms reads"]>
  (<[3%positive := specs_of "Redis / Memcached" "100GB memory" "<1ms"]>
  (<[4%positive := specs_of "RabbitMQ / Kafka" "100K messages/sec" "<5ms"]>
  (<[5%positive := specs_of "Node.js / Python" "Auto-scaling" "<100ms"]> ∅)))).

Definition componentTemplates : list ComponentTemplate.t :=
  [ ComponentTemplate.mk "api-gateway" api_gateway "API Gateway"
      "Entry point for client requests with routing and load balancing"
      "FaServer" (Some 1%positive);
    ComponentTemplate.mk "database" database "Database"
      "Persistent data storage with ACID guarantees"
      "FaDatabase" (Some 2%positive);
    ComponentTemplate.mk "cache" cache "Cache Layer"
      "In-memory cache for fast data access"
      "FaBolt" (Some 3%positive);
    ComponentTemplate.mk "queue" queue "Message Queue"
      "Async message processing and task distribution"
      "FaStream" (Some 4%positive);
    ComponentTemplate.mk "service" service "Microservice"
      "Independent service handling specific business logic"
      "FaCube" (Some 5%positive) ].

Definition default_scaling : Scaling.t :=
  {| Scaling.horizontal := Some true;
     Scaling.vertical := Some false;
     Scaling.auto_scaling := Some true;
     Scaling.details := Some "Scales based on CPU/memory usage" |}.

Definition default_fault_tolerance : FaultTolerance.t :=
  {| FaultTolerance.replication := Some true;
     FaultTolerance.backup := Some true;
     FaultTolerance.failover := Some true;
     FaultTolerance.details :=
       Some "Multi-region deployment with automated failover" |}.

(** [createNodeFromTemplate] neither reads nor writes the heap: the new
    node's [specifications] is the location the template holds. *)
Definition createNodeFromTemplate {num : Type} (e : Env)
    (template : ComponentTemplate.t) (position : Point.t num)
  : SystemNode.t num * Env :=
  let '(id, e') := generateId e in
  ({| SystemNode.id := id;
      SystemNode.type := ComponentTemplate.type template;
      SystemNode.name := ComponentTemplate.name template;
      SystemNode.description := ComponentTemplate.description template;
      SystemNode.position := position;
      SystemNode.specifications := ComponentTemplate.defaultSpecs template;
      SystemNode.scaling := Some default_scaling;
      SystemNode.fault_tolerance := Some default_fault_tolerance;
      SystemNode.connections := Some [];
      SystemNode.icon := Some (ComponentTemplate.icon template);
      SystemNode.color := None |}, e').

(** ** The agent response normaliser *)

(** The object [parseAgentResponse] returns. *)
Record Parsed := mkParsed { nodes : value; connections : value }.

(** [{ nodes: data.nodes || [], connections: data.connections || [] }]. *)
Definition result_of (data : value) : Parsed :=
  {| nodes := js_or (member "nodes" data) (VArray []);
     connections := js_or (member "connections" data) (VArray []) |}.

(** The ids of the elements of an array, and the endpoints of its
    connections. *)
Definition ids_of (v : value) : list value :=
  match v with
  | VArray items => map (member "id") items
  | _ => []
  end.

Definition endpoints_of (v : value) : list (value * value) :=
  match v with
  | VArray items => map (fun c => (member "source" c, member "target" c)) items
  | _ => []
  end.

Definition types_of (v : value) : list value :=
  match v with
  | VArray items => map (member "type") items
  | _ => []
  end.

(** [src/lib/utils.ts]. *)
Module LibUtils.

Definition parseAgentResponse (response : value) : Parsed :=
  let data :=
    js_or (opt_member "data" (opt_member "result" response)) (VObject []) in
  result_of data.

End LibUtils.

(** The node and connection object literals of the default architecture. *)
Definition node_literal (id type name description : string) (x y : float)
    (technology capacity latency : string)
    (horizontal vertical auto_scaling : bool)
    (scaling_details fault_details icon : string) : value :=
  VObject
    [ ("id", VString id);
      ("type", VString type);
      ("name", VString name);
      ("description", VString description);
      ("position", VObject [("x", VNumber x); ("y", VNumber y)]);
      ("specifications",
        VObject [ ("technology", VString technology);
                  ("capacity", VString capacity);
                  ("latency", VString latency) ]);
      ("scaling",
        VObject [ ("horizontal", VBool horizontal);
                  ("vertical", VBool vertical);
                  ("auto_scaling", VBool auto_scaling);
                  ("details", VString scaling_details) ]);
      ("fault_tolerance",
        VObject [ ("replication", VBool true);
                  ("backup", VBool true);
                  ("failover", VBool true);
                  ("details", VString fault_details) ]);
      ("connections", VArray []);
      ("icon", VString icon) ].

Definition connection_literal (id : string) (source target : value)
    (label protocol : string) : value :=
  VObject
    [ ("id", VString id);
      ("source", source);
      ("target", target);
      ("type", VString "sync");
      ("label", VString label);
      ("protocol", VString protocol) ].

(** The longer revision of [utils.ts]. *)
Module Normalizer.
Section WithParser.

(** [JSON.parse]; [None] when it throws a [SyntaxError]. *)
Variable JSON_parse : string -> option value.

Definition js_parse (s : string) : outcome value :=
  match JSON_parse s with
  | Some v => Returned v
  | None => Thrown SyntaxError
  end.

(** Path 1: [let data = {}; if (response?.result?.data) data = ...]. *)
Definition structured_data (response : value) : value :=
  if truthy (opt_member "data" (opt_member "result" response))
  then member "data" (member "result" response)
  else VObject [].

(** The body of the [try] block: the value [data] holds when the block
    ends, or what the block throws.  A [responseText] that is not a string
    has no callable [match]. *)
Definition text_payload (data : value) (response : value) : outcome value :=
  match member "response" (member "result" response) with
  | VString responseText =>
      match fence_match responseText with
      | Some inner => js_parse inner
      | None =>
          match brace_candidate responseText with
          | Some candidate => js_parse candidate
          | None => Returned data
          end
      end
  | _ => Thrown TypeError
  end.

(** Paths 1 and 2: the value of [data] when the fallback test is reached.
    The [catch] clause logs the error and leaves [data] as it was. *)
Definition resolved_data (response : value) : value :=
  let data := structured_data response in
  if negb (truthy (member "nodes" data))
     && truthy (opt_member "response" (opt_member "result" response))
  then try_catch (text_payload data response) (fun _error => data)
  else data.

(** The body of [if (!data.nodes || data.nodes.length === 0)]: the object
    literal (whose connections read the previous [data]), then the
    reassignment of [data.connections] from [nodeIds]. *)
Definition default_architecture (data : value) (e0 : Env) : value * Env :=
  let '(n1, e1) := generateId e0 in
  let '(n2, e2) := generateId e1 in
  let '(n3, e3) := generateId e2 in
  let '(n4, e4) := generateId e3 in
  let new_nodes :=
    [ node_literal n1 "api-gateway" "API Gateway"
        "Entry point for all client requests" 100 100
        "NGINX / Kong" "10K requests/sec" "<50ms"
        true false true "Auto-scales based on request volume"
        "Multi-region deployment with health checks" "FaServer";
      node_literal n2 "service" "Application Service"
        "Core business logic processing" 500 100
        "Node.js / Python" "Auto-scaling 10-100 instances" "<100ms"
        true false true "Kubernetes HPA based on CPU/memory"
        "Circuit breaker pattern with fallback" "FaCube";
      node_literal n3 "database" "Primary Database"
        "Persistent data storage" 500 400
        "PostgreSQL" "1TB storage" "<10ms reads"
        false true false "Vertical scaling with read replicas"
        "Multi-AZ deployment with automated backups" "FaDatabase";
      node_literal n4 "cache" "Cache Layer"
        "In-memory caching for performance" 900 250
        "Redis" "100GB memory" "<1ms"
        true true true "Redis cluster with automatic sharding"
        "Redis Sentinel for high availability" "FaBolt" ] in
  let old i :=
    js_or (opt_member "id" (opt_index i (member "nodes" data))) (VString "") in
  let '(c1, e5) := generateId e4 in
  let '(c2, e6) := generateId e5 in
  let '(c3, e7) := generateId e6 in
  let literal_connections :=
    [ connection_literal c1 (old 0) (old 1) "HTTP/REST" "HTTPS";
      connection_literal c2 (old 1) (old 2) "Database queries" "PostgreSQL";
      connection_literal c3 (old 1) (old 3) "Cache access" "Redis" ] in
  let data :=
    VObject [ ("nodes", VArray new_nodes);
              ("connections", VArray literal_connections) ] in
  let nodeIds :=
    match member "nodes" data with
    | VArray ns => map (member "id") ns
    | _ => []
    end in
  let at_ i := nth i nodeIds VUndefined in
  let '(k1, e8) := generateId e7 in
  let '(k2, e9) := generateId e8 in
  let '(k3, e10) := generateId e9 in
  (VObject
     [ ("nodes", member "nodes" data);
       ("connections",
         VArray
           [ connection_literal k1 (at_ 0) (at_ 1) "HTTP/REST" "HTTPS";
             connection_literal k2 (at_ 1) (at_ 2)
               "Database queries" "PostgreSQL";
             connection_literal k3 (at_ 1) (at_ 3) "Cache access" "Redis" ]) ],
   e10).

(** [!data.nodes || data.nodes.length === 0]. *)
Definition lacks_nodes (data : value) : bool :=
  negb (truthy (member "nodes" data)) || length_is_0 (member "nodes" data).

(** [JSON.parse] may return [null]; reading [data.nodes] then throws. *)
Definition parseAgentResponse (e : Env) (response : value)
  : outcome (Parsed * Env) :=
  let data := resolved_data response in
  if nullish data then Thrown TypeError
  else if lacks_nodes data then
    let '(data', e') := default_architecture data e in
    Returned (result_of data', e')
  else Returned (result_of data, e).

(** The result of step 4. *)
Definition fallback (e : Env) : outcome (Parsed * Env) :=
  Returned (result_of (fst (default_architecture (VObject []) e)),
            snd (default_architecture (VObject []) e)).

(** No structured data: path 1 leaves no non-empty [nodes] array.  No
    parseable text: there is no text, or the [try] block throws (the text is
    not a string, or [JSON.parse] rejects the fenced block or the brace
    substring), or the text holds neither a fenced block nor braces. *)
Definition no_structured_nodes (response : value) : Prop :=
  lacks_nodes (structured_data response) = true.

Definition no_parseable_text (response : value) : Prop :=
  truthy (opt_member "response" (opt_member "result" response)) = false
  \/ (exists err, text_payload (structured_data response) response = Thrown err)
  \/ (exists text,
        member "response" (member "result" response) = VString text /\
        fence_match text = None /\ brace_candidate text = None).

(** The resolution order as section 4.5 and the design notes of the
    specification word it: the structured data, the fenced block and the
    brace substring are attempts made in this order; an attempt that finds
    nothing, or whose text [JSON.parse] rejects, yields nothing and the next
    attempt is made; the first attempt to yield a non-empty [nodes] wins,
    and step 4 applies when none does. *)
Definition parsed_opt (s : option string) : option value :=
  match s with
  | Some s => JSON_parse s
  | None => None
  end.

Definition attempts (response : value) : list (option value) :=
  let text :=
    match member "response" (member "result" response) with
    | VString text => Some text
    | _ => None
    end in
  [ Some (structured_data response);
    parsed_opt (match text with Some t => fence_match t | None => None end);
    parsed_opt (match text with Some t => brace_candidate t | None => None end) ].

Definition yields_nodes (attempt : option value) : bool :=
  match attempt with
  | Some data => negb (nullish data) && negb (lacks_nodes data)
  | None => false
  end.

Definition resolution_order_spec (e : Env) (response : value)
  : outcome (Parsed * Env) :=
  match find yields_nodes (attempts response) with
  | Some (Some data) => Returned (result_of data, e)
  | _ => fallback e
  end.

End WithParser.
End Normalizer.

(** ** [ProjectStorage]

    The page runs in the browser, where [window] is defined.  The
    [localStorage] item under [STORAGE_KEY] is kept as the project list it
    decodes to ([JSON.stringify] and [JSON.parse] are inverse on the lists
    [save] writes); [None] is the absent item.  The [now] arguments are the
    strings [new Date().toISOString()] evaluates to. *)

Module ProjectStorage.
Section Storage.
Context {num : Type}.

Definition LocalStorage : Type := option (list (Project.t num)).

Definition getAll (ls : LocalStorage) : list (Project.t num) := default [] ls.

(** [projects.find(p => p.id === id) || null]. *)
Definition getById (id : string) (ls : LocalStorage) : option (Project.t num) :=
  snd <$> list_find (fun p => Project.id p = id) (getAll ls).

(** [projects.findIndex(p => p.id === id)]; [None] stands for [-1]. *)
Definition findIndex (id : string) (projects : list (Project.t num)) : option nat :=
  fst <$> list_find (fun p => Project.id p = id) projects.

(** [{ ...project, updated_at: now }]. *)
Definition with_updated_at (project : Project.t num) (now : string) : Project.t num :=
  {| Project.id := Project.id project;
     Project.name := Project.name project;
     Project.requirements := Project.requirements project;
     Project.audience := Project.audience project;
     Project.nodes := Project.nodes project;
     Project.connections := Project.connections project;
     Project.status := Project.status project;
     Project.created_at := Project.created_at project;
     Project.updated_at := now;
     Project.versions := Project.versions project |}.

Definition save (now : string) (project : Project.t num) (ls : LocalStorage)
  : LocalStorage :=
  let projects := getAll ls in
  match findIndex (Project.id project) projects with
  | Some index => Some (<[index := with_updated_at project now]> projects)
  | None => Some (projects ++ [project])%list
  end.

Definition delete (id : string) (ls : LocalStorage) : LocalStorage :=
  Some (filter (fun p => Project.id p <> id) (getAll ls)).

(** [create] reads the clock twice for the new record ([created],
    [updated]); [saved] is the reading [save] would make. *)
Definition create (e : Env) (created updated saved : string) (name : string)
    (ls : LocalStorage) : Project.t num * Env * LocalStorage :=
  let '(id, e') := generateId e in
  let project :=
    {| Project.id := id;
       Project.name := name;
       Project.requirements := "";
       Project.audience := technical;
       Project.nodes := [];
       Project.connections := [];
       Project.status := draft;
       Project.created_at := created;
       Project.updated_at := updated;
       Project.versions := [] |} in
  (project, e', save saved project ls).

End Storage.
End ProjectStorage.

(** ** The design canvas page: the handlers that replace the project *)

Module DesignCanvas.

Record CanvasState (num : Type) := mkCanvasState {
  zoom : num;
  pan : Point.t num;
  selectedNodeId : option string;
  isDragging : bool;
  showGrid : bool;
  showMinimap : bool
}.
Arguments mkCanvasState {num}.
Arguments zoom {num}.
Arguments pan {num}.
Arguments selectedNodeId {num}.
Arguments isDragging {num}.
Arguments showGrid {num}.
Arguments showMinimap {num}.

(** The component's state and the storage it writes through. *)
Record State (num : Type) := mkState {
  project : option (Project.t num);
  requirements : string;
  audience : Audience;
  canvasState : CanvasState num;
  rightPanelOpen : bool;
  isGenerating : bool;
  generationError : option string;
  localStorage : @ProjectStorage.LocalStorage num
}.
Arguments mkState {num}.
Arguments project {num}.
Arguments requirements {num}.
Arguments audience {num}.
Arguments canvasState {num}.
Arguments rightPanelOpen {num}.
Arguments isGenerating {num}.
Arguments generationError {num}.
Arguments localStorage {num}.

(** What [callAIAgent] resolves to. *)
Record AgentResult := mkAgentResult {
  success : bool;
  response : value;
  error : option string
}.

Section Handlers.
Context {num : Type}.

Definition set_selectedNodeId (sel : option string) (c : CanvasState num)
  : CanvasState num :=
  {| zoom := zoom c; pan := pan c; selectedNodeId := sel;
     isDragging := isDragging c; showGrid := showGrid c;
     showMinimap := showMinimap c |}.

(** [handleNodeClick] outside connection mode: select the node and open the
    right panel. *)
Definition handleNodeClick (nodeId : string) (st : State num) : State num :=
  {| project := project st;
     requirements := requirements st;
     audience := audience st;
     canvasState := set_selectedNodeId (Some nodeId) (canvasState st);
     rightPanelOpen := true;
     isGenerating := isGenerating st;
     generationError := generationError st;
     localStorage := localStorage st |}.

(** [{ ...project, nodes: ..., connections: ... }] of [deleteSelectedNode]. *)
Definition without_node (sel : string) (p : Project.t num) : Project.t num :=
  {| Project.id := Project.id p;
     Project.name := Project.name p;
     Project.requirements := Project.requirements p;
     Project.audience := Project.audience p;
     Project.nodes := filter (fun n => SystemNode.id n <> sel) (Project.nodes p);
     Project.connections :=
       filter (fun c => NodeConnection.source c <> sel
                        /\ NodeConnection.target c <> sel)
              (Project.connections p);
     Project.status := Project.status p;
     Project.created_at := Project.created_at p;
     Project.updated_at := Project.updated_at p;
     Project.versions := Project.versions p |}.

(** [!canvasState.selectedNodeId]: [null] and the empty string are falsy. *)
Definition no_selection (sel : option string) : bool :=
  match sel with
  | None => true
  | Some s => String.eqb s ""
  end.

Definition deleteSelectedNode (now : string) (st : State num) : State num :=
  match selectedNodeId (canvasState st), project st with
  | Some sel, Some p =>
      if no_selection (Some sel) then st
      else
        let updatedProject := without_node sel p in
        {| project := Some updatedProject;
           requirements := requirements st;
           audience := audience st;
           canvasState := set_selectedNodeId None (canvasState st);
           rightPanelOpen := false;
           isGenerating := isGenerating st;
           generationError := generationError st;
           localStorage :=
             ProjectStorage.save now updatedProject (localStorage st) |}
  | _, _ => st
  end.

(** [{ ...project, nodes, connections, status: 'completed' }]. *)
Definition with_generated (p : Project.t num) (nodes : list (SystemNode.t num))
    (connections : list NodeConnection.t) : Project.t num :=
  {| Project.id := Project.id p;
     Project.name := Project.name p;
     Project.requirements := Project.requirements p;
     Project.audience := Project.audience p;
     Project.nodes := nodes;
     Project.connections := connections;
     Project.status := completed;
     Project.created_at := Project.created_at p;
     Project.updated_at := Project.updated_at p;
     Project.versions := Project.versions p |}.

Definition set_generation (generating : bool) (err : option string)
    (st : State num) : State num :=
  {| project := project st;
     requirements := requirements st;
     audience := audience st;
     canvasState := canvasState st;
     rightPanelOpen := rightPanelOpen st;
     isGenerating := generating;
     generationError := err;
     localStorage := localStorage st |}.

(** [handleGenerateDesign] up to [await callAIAgent(...)]: the new state,
    and whether the call was made. *)
Definition handleGenerateDesign_begin (st : State num) : State num * bool :=
  if String.eqb (trim (requirements st)) ""
  then (set_generation (isGenerating st)
          (Some "Please enter system requirements first") st, false)
  else (set_generation true None st, true).

(** [result.error || 'Failed to generate design. Please try again.']. *)
Definition error_message (err : option string) : string :=
  match err with
  | Some s => if String.eqb s "" then "Failed to generate design. Please try again."
              else s
  | None => "Failed to generate design. Please try again."
  end.

(** [parseAgentResponse] as the page imports it, at its declared type. *)
Variable parseAgentResponse :
  value -> outcome (list (SystemNode.t num) * list NodeConnection.t).

(** [result.success && result.response.status === 'success']. *)
Definition agent_succeeded (result : AgentResult) : outcome bool :=
  if success result then
    if nullish (response result) then Thrown TypeError
    else Returned (strict_eq_string (member "status" (response result)) "success")
  else Returned false.

(** The rest of the [try] block, run when the call settles: the state
    updates it requests, or what it throws.  [p] is the project captured by
    the handler's closure ([project!]); [st] is the state at that time. *)
Definition generate_body (now : string) (p : Project.t num)
    (result : AgentResult) (st : State num) : outcome (State num) :=
  match agent_succeeded result with
  | Thrown e => Thrown e
  | Returned true =>
      match parseAgentResponse (response result) with
      | Thrown e => Thrown e
      | Returned (nodes, connections) =>
          if Nat.ltb 0 (length nodes) then
            let updatedProject := with_generated p nodes connections in
            Returned
              {| project := Some updatedProject;
                 requirements := requirements st;
                 audience := audience st;
                 canvasState := canvasState st;
                 rightPanelOpen := rightPanelOpen st;
                 isGenerating := isGenerating st;
                 generationError := generationError st;
                 localStorage :=
                   ProjectStorage.save now updatedProject (localStorage st) |}
          else
            Returned
              (set_generation (isGenerating st)
                 (Some "Agent response received but no architecture components were generated. Please try refining your requirements.")
                 st)
      end
  | Returned false =>
      Returned (set_generation (isGenerating st)
                  (Some (error_message (error result))) st)
  end.

(** [handleGenerateDesign] after the [await]: [try], [catch], [finally].
    A rejected call is [Thrown]. *)
Definition handleGenerateDesign_settle (now : string) (p : Project.t num)
    (settled : outcome AgentResult) (st : State num) : State num :=
  let after_try :=
    try_catch
      (match settled with
       | Returned result => generate_body now p result st
       | Thrown e => Thrown e
       end)
      (fun _error =>
         set_generation (isGenerating st)
           (Some "An error occurred while generating the design.") st) in
  set_generation false (generationError after_try) after_try.

End Handlers.
End DesignCanvas.

(** ** The design canvas page: pointer, zoom, connection and template
    handlers

    The state cells of the component that [DesignCanvas.State] leaves out
    stand beside it.  A handler that reads [project!] on a project that is
    not loaded throws. *)

Module Interaction.

(** What [getBoundingClientRect()] returns. *)
Record Rect (num : Type) := mkRect {
  left : num;
  top : num;
  width : num;
  height : num
}.
Arguments mkRect {num}.
Arguments left {num}.
Arguments top {num}.
Arguments width {num}.
Arguments height {num}.

Record Cells (num : Type) := mkCells {
  page : DesignCanvas.State num;
  projectName : string;
  connectionMode : bool;
  connectionSource : option string;
  selectedConnection : option NodeConnection.t;
  connectionEditOpen : bool;
  draggedNode : option (SystemNode.t num);
  dragOffset : Point.t num;
  isPanning : bool;
  panStart : Point.t num
}.
Arguments mkCells {num}.
Arguments page {num}.
Arguments projectName {num}.
Arguments connectionMode {num}.
Arguments connectionSource {num}.
Arguments selectedConnection {num}.
Arguments connectionEditOpen {num}.
Arguments draggedNode {num}.
Arguments dragOffset {num}.
Arguments isPanning {num}.
Arguments panStart {num}.

Section Handlers.
Context {num : Type} `{Number num}.
Local Open Scope num_scope.

(** State setters: each replaces one cell. *)
Definition setProject (p : option (Project.t num)) (st : DesignCanvas.State num)
  : DesignCanvas.State num :=
  {| DesignCanvas.project := p;
     DesignCanvas.requirements := DesignCanvas.requirements st;
     DesignCanvas.audience := DesignCanvas.audience st;
     DesignCanvas.canvasState := DesignCanvas.canvasState st;
     DesignCanvas.rightPanelOpen := DesignCanvas.rightPanelOpen st;
     DesignCanvas.isGenerating := DesignCanvas.isGenerating st;
     DesignCanvas.generationError := DesignCanvas.generationError st;
     DesignCanvas.localStorage := DesignCanvas.localStorage st |}.

Definition setCanvasState (cs : DesignCanvas.CanvasState num)
    (st : DesignCanvas.State num) : DesignCanvas.State num :=
  {| DesignCanvas.project := DesignCanvas.project st;
     DesignCanvas.requirements := DesignCanvas.requirements st;
     DesignCanvas.audience := DesignCanvas.audience st;
     DesignCanvas.canvasState := cs;
     DesignCanvas.rightPanelOpen := DesignCanvas.rightPanelOpen st;
     DesignCanvas.isGenerating := DesignCanvas.isGenerating st;
     DesignCanvas.generationError := DesignCanvas.generationError st;
     DesignCanvas.localStorage := DesignCanvas.localStorage st |}.

Definition setLocalStorage (ls : @ProjectStorage.LocalStorage num)
    (st : DesignCanvas.State num) : DesignCanvas.State num :=
  {| DesignCanvas.project := DesignCanvas.project st;
     DesignCanvas.requirements := DesignCanvas.requirements st;
     DesignCanvas.audience := DesignCanvas.audience st;
     DesignCanvas.canvasState := DesignCanvas.canvasState st;
     DesignCanvas.rightPanelOpen := DesignCanvas.rightPanelOpen st;
     DesignCanvas.isGenerating := DesignCanvas.isGenerating st;
     DesignCanvas.generationError := DesignCanvas.generationError st;
     DesignCanvas.localStorage := ls |}.

Definition setPage (st : DesignCanvas.State num) (c : Cells num) : Cells num :=
  {| page := st;
     projectName := projectName c;
     connectionMode := connectionMode c;
     connectionSource := connectionSource c;
     selectedConnection := selectedConnection c;
     connectionEditOpen := connectionEditOpen c;
     draggedNode := draggedNode c;
     dragOffset := dragOffset c;
     isPanning := isPanning c;
     panStart := panStart c |}.

Definition setConnecting (mode : bool) (source : option string) (c : Cells num)
  : Cells num :=
  {| page := page c;
     projectName := projectName c;
     connectionMode := mode;
     connectionSource := source;
     selectedConnection := selectedConnection c;
     connectionEditOpen := connectionEditOpen c;
     draggedNode := draggedNode c;
     dragOffset := dragOffset c;
     isPanning := isPanning c;
     panStart := panStart c |}.

Definition setConnectionEdit (selected : option NodeConnection.t) (open : bool)
    (c : Cells num) : Cells num :=
  {| page := page c;
     projectName := projectName c;
     connectionMode := connectionMode c;
     connectionSource := connectionSource c;
     selectedConnection := selected;
     connectionEditOpen := open;
     draggedNode := draggedNode c;
     dragOffset := dragOffset c;
     isPanning := isPanning c;
     panStart := panStart c |}.

Definition setDrag (dragged : option (SystemNode.t num)) (offset : Point.t num)
    (c : Cells num) : Cells num :=
  {| page := page c;
     projectName := projectName c;
     connectionMode := connectionMode c;
     connectionSource := connectionSource c;
     selectedConnection := selectedConnection c;
     connectionEditOpen := connectionEditOpen c;
     draggedNode := dragged;
     dragOffset := offset;
     isPanning := isPanning c;
     panStart := panStart c |}.

Definition setPanning (panning : bool) (start : Point.t num) (c : Cells num)
  : Cells num :=
  {| page := page c;
     projectName := projectName c;
     connectionMode := connectionMode c;
     connectionSource := connectionSource c;
     selectedConnection := selectedConnection c;
     connectionEditOpen := connectionEditOpen c;
     draggedNode := draggedNode c;
     dragOffset := dragOffset c;
     isPanning := panning;
     panStart := start |}.

Definition project_of (c : Cells num) : option (Project.t num) :=
  DesignCanvas.project (page c).

Definition view_zoom (c : Cells num) : num :=
  DesignCanvas.zoom (DesignCanvas.canvasState (page c)).

Definition view_pan (c : Cells num) : Point.t num :=
  DesignCanvas.pan (DesignCanvas.canvasState (page c)).

Definition set_view (zoom : num) (pan : Point.t num)
    (cs : DesignCanvas.CanvasState num) : DesignCanvas.CanvasState num :=
  {| DesignCanvas.zoom := zoom;
     DesignCanvas.pan := pan;
     DesignCanvas.selectedNodeId := DesignCanvas.selectedNodeId cs;
     DesignCanvas.isDragging := DesignCanvas.isDragging cs;
     DesignCanvas.showGrid := DesignCanvas.showGrid cs;
     DesignCanvas.showMinimap := DesignCanvas.showMinimap cs |}.

(** [{ ...project, name: projectName, requirements, audience }]. *)
Definition with_form (p : Project.t num) (name requirements : string)
    (audience : Audience) : Project.t num :=
  {| Project.id := Project.id p;
     Project.name := name;
     Project.requirements := requirements;
     Project.audience := audience;
     Project.nodes := Project.nodes p;
     Project.connections := Project.connections p;
     Project.status := Project.status p;
     Project.created_at := Project.created_at p;
     Project.updated_at := Project.updated_at p;
     Project.versions := Project.versions p |}.

Definition with_nodes (p : Project.t num) (nodes : list (SystemNode.t num))
  : Project.t num :=
  {| Project.id := Project.id p;
     Project.name := Project.name p;
     Project.requirements := Project.requirements p;
     Project.audience := Project.audience p;
     Project.nodes := nodes;
     Project.connections := Project.connections p;
     Project.status := Project.status p;
     Project.created_at := Project.created_at p;
     Project.updated_at := Project.updated_at p;
     Project.versions := Project.versions p |}.

Definition with_connections (p : Project.t num)
    (connections : list NodeConnection.t) : Project.t num :=
  {| Project.id := Project.id p;
     Project.name := Project.name p;
     Project.requirements := Project.requirements p;
     Project.audience := Project.audience p;
     Project.nodes := Project.nodes p;
     Project.connections := connections;
     Project.status := Project.status p;
     Project.created_at := Project.created_at p;
     Project.updated_at := Project.updated_at p;
     Project.versions := Project.versions p |}.

(** [{ ...n, position }]. *)
Definition with_position (n : SystemNode.t num) (position : Point.t num)
  : SystemNode.t num :=
  {| SystemNode.id := SystemNode.id n;
     SystemNode.type := SystemNode.type n;
     SystemNode.name := SystemNode.name n;
     SystemNode.description := SystemNode.description n;
     SystemNode.position := position;
     SystemNode.specifications := SystemNode.specifications n;
     SystemNode.scaling := SystemNode.scaling n;
     SystemNode.fault_tolerance := SystemNode.fault_tolerance n;
     SystemNode.connections := SystemNode.connections n;
     SystemNode.icon := SystemNode.icon n;
     SystemNode.color := SystemNode.color n |}.

(** [saveProject]: the form fields are written into the project, which is
    saved and becomes the component's project. *)
Definition saveProject (now : string) (c : Cells num) : Cells num :=
  match project_of c with
  | None => c
  | Some project =>
      let updatedProject :=
        with_form project (projectName c)
          (DesignCanvas.requirements (page c)) (DesignCanvas.audience (page c)) in
      setPage
        (setProject (Some updatedProject)
           (setLocalStorage
              (ProjectStorage.save now updatedProject
                 (DesignCanvas.localStorage (page c)))
              (page c)))
        c
  end.

(** The connection a second click in connection mode creates. *)
Definition new_connection (id source target : string) : NodeConnection.t :=
  {| NodeConnection.id := id;
     NodeConnection.source := source;
     NodeConnection.target := target;
     NodeConnection.type := sync;
     NodeConnection.label := Some "Connection";
     NodeConnection.description := None;
     NodeConnection.protocol := Some "HTTP" |}.

(** [handleNodeClick]. *)
Definition handleNodeClick (e : Env) (now : string) (nodeId : string)
    (c : Cells num) : outcome (Cells num * Env) :=
  if connectionMode c then
    if DesignCanvas.no_selection (connectionSource c) then
      Returned (setConnecting (connectionMode c) (Some nodeId) c, e)
    else if bool_decide (connectionSource c = Some nodeId) then
      Returned (c, e)
    else
      let '(id, e') := generateId e in
      match connectionSource c, project_of c with
      | Some source, Some project =>
          let newConnection := new_connection id source nodeId in
          let updatedProject :=
            with_connections project
              (Project.connections project ++ [newConnection])%list in
          Returned
            (setConnecting false None
               (setPage
                  (setProject (Some updatedProject)
                     (setLocalStorage
                        (ProjectStorage.save now updatedProject
                           (DesignCanvas.localStorage (page c)))
                        (page c)))
                  c),
             e')
      | _, _ => Thrown TypeError
      end
  else
    Returned (setPage (DesignCanvas.handleNodeClick nodeId (page c)) c, e).

(** The connection-mode button: toggle the mode, forget the source. *)
Definition toggleConnectionMode (c : Cells num) : Cells num :=
  setConnecting (negb (connectionMode c)) None c.

(** [handleNodeDragStart]: [target] is the bounding rectangle of the
    element under the pointer. *)
Definition handleNodeDragStart (clientX clientY : num) (target : Rect num)
    (node : SystemNode.t num) (c : Cells num) : Cells num :=
  setDrag (Some node)
    {| Point.x := clientX - left target; Point.y := clientY - top target |} c.

(** [handleNodeDragMove]: [canvas] is [canvasRef.current]'s bounding
    rectangle, [None] when the ref is not attached. *)
Definition handleNodeDragMove (clientX clientY : num)
    (canvas : option (Rect num)) (c : Cells num) : outcome (Cells num) :=
  match draggedNode c, canvas with
  | Some dragged, Some rect =>
      let canvasPos :=
        CanvasUtils.screenToCanvas
          (clientX - left rect - Point.x (dragOffset c))
          (clientY - top rect - Point.y (dragOffset c))
          (view_pan c) (view_zoom c) in
      match project_of c with
      | None => Thrown TypeError
      | Some project =>
          let updatedNodes :=
            map (fun n =>
                   if bool_decide (SystemNode.id n = SystemNode.id dragged)
                   then with_position n canvasPos else n)
                (Project.nodes project) in
          Returned
            (setPage (setProject (Some (with_nodes project updatedNodes)) (page c)) c)
      end
  | _, _ => Returned c
  end.

Definition handleNodeDragEnd (now : string) (c : Cells num) : Cells num :=
  match draggedNode c with
  | Some _ => setDrag None (dragOffset c) (saveProject now c)
  | None => c
  end.

(** [handleCanvasMouseDown]: only the primary button pans, and only when no
    node is being dragged. *)
Definition handleCanvasMouseDown (button : nat) (clientX clientY : num)
    (c : Cells num) : Cells num :=
  match button, draggedNode c with
  | 0, None =>
      setPanning true
        {| Point.x := clientX - Point.x (view_pan c);
           Point.y := clientY - Point.y (view_pan c) |} c
  | _, _ => c
  end.

Definition handleCanvasMouseMove (clientX clientY : num)
    (canvas : option (Rect num)) (c : Cells num) : outcome (Cells num) :=
  if isPanning c then
    Returned
      (setPage
         (setCanvasState
            (set_view (view_zoom c)
               {| Point.x := clientX - Point.x (panStart c);
                  Point.y := clientY - Point.y (panStart c) |}
               (DesignCanvas.canvasState (page c)))
            (page c))
         c)
  else
    match draggedNode c with
    | Some _ => handleNodeDragMove clientX clientY canvas c
    | None => Returned c
    end.

Definition handleCanvasMouseUp (now : string) (c : Cells num) : Cells num :=
  handleNodeDragEnd now (setPanning false (panStart c) c).

(** The bounds of the zoom clamp: [0.1] is the double nearest to one tenth,
    which is what the correctly rounded quotient [1 / 10] is. *)
Definition zoom_min : num := nlit 1 / nlit 10.
Definition zoom_max : num := nlit 2.

(** [Math.max(0.1, Math.min(2, zoom + delta))]. *)
Definition clamp_zoom (zoom delta : num) : num :=
  Math_max zoom_min (Math_min zoom_max (zoom + delta)).

Definition handleZoom (delta : num) (c : Cells num) : Cells num :=
  setPage
    (setCanvasState
       (set_view (clamp_zoom (view_zoom c) delta) (view_pan c)
          (DesignCanvas.canvasState (page c)))
       (page c))
    c.

Definition handleFitToView (canvas : option (Rect num)) (c : Cells num)
  : Cells num :=
  match project_of c, canvas with
  | Some project, Some rect =>
      let v :=
        CanvasUtils.fitToView (Project.nodes project) (width rect) (height rect)
          CanvasUtils.default_padding in
      setPage
        (setCanvasState
           (set_view (CanvasUtils.zoom v) (CanvasUtils.pan v)
              (DesignCanvas.canvasState (page c)))
           (page c))
        c
  | _, _ => c
  end.

Definition handleTemplateDrop (e : Env) (now : string)
    (template : ComponentTemplate.t) (clientX clientY : num)
    (canvas : option (Rect num)) (c : Cells num) : Cells num * Env :=
  match canvas, project_of c with
  | Some rect, Some project =>
      let position :=
        CanvasUtils.screenToCanvas (clientX - left rect) (clientY - top rect)
          (view_pan c) (view_zoom c) in
      let '(newNode, e') := createNodeFromTemplate e template position in
      let updatedProject :=
        with_nodes project (Project.nodes project ++ [newNode])%list in
      (setPage
         (setProject (Some updatedProject)
            (setLocalStorage
               (ProjectStorage.save now updatedProject
                  (DesignCanvas.localStorage (page c)))
               (page c)))
         c,
       e')
  | _, _ => (c, e)
  end.

Definition handleConnectionClick (connection : NodeConnection.t) (c : Cells num)
  : Cells num :=
  setConnectionEdit (Some connection) true c.

Definition deleteConnection (now : string) (c : Cells num) : Cells num :=
  match selectedConnection c, project_of c with
  | Some selected, Some project =>
      let updatedProject :=
        with_connections project
          (filter (fun k => NodeConnection.id k <> NodeConnection.id selected)
                  (Project.connections project)) in
      setConnectionEdit None false
        (setPage
           (setProject (Some updatedProject)
              (setLocalStorage
                 (ProjectStorage.save now updatedProject
                    (DesignCanvas.localStorage (page c)))
                 (page c)))
           c)
  | _, _ => c
  end.

(** The connections the canvas draws: those whose source and target are
    both found among the nodes. *)
Definition find_node (id : string) (p : Project.t num) : option (SystemNode.t num) :=
  snd <$> list_find (fun n => SystemNode.id n = id) (Project.nodes p).

Definition drawn (p : Project.t num) (k : NodeConnection.t) : bool :=
  match find_node (NodeConnection.source k) p,
        find_node (NodeConnection.target k) p with
  | Some _, Some _ => true
  | _, _ => false
  end.

End Handlers.
End Interaction.

(** ** The remaining helpers of [utils.ts] *)

(** [generateUUID].  [rnd k] is the integer [(Math.random() * 16) | 0] of the
    [k]-th call of the replacer, a value from 0 to 15; [hex_digit v] is
    [v.toString(16)] for such a value. *)
Definition hex_digit (v : Z) : ascii :=
  match String.get (Z.to_nat v) "0123456789abcdef" with
  | Some c => c
  | None => "?"%char
  end.

Fixpoint replace_xy (template : string) (rnd : nat -> Z) (k : nat) : string :=
  match template with
  | EmptyString => EmptyString
  | String c rest =>
      if Ascii.eqb c "x" then
        String (hex_digit (rnd k)) (replace_xy rest rnd (S k))
      else if Ascii.eqb c "y" then
        String (hex_digit (Z.lor (Z.land (rnd k) 3) 8)) (replace_xy rest rnd (S k))
      else String c (replace_xy rest rnd k)
  end.

Definition generateUUID (rnd : nat -> Z) : string :=
  replace_xy "xxxxxxxx-xxxx-4xxx-yxxx-xxxxxxxxxxxx" rnd 0.

(** [formatDate].  [d] is the time value of [new Date(date)], [None] when
    the date string does not parse (the time value is NaN, every comparison
    is false and [toLocaleDateString] answers [Invalid Date]); [now] is the
    time value of [new Date()].  Time values are integers, on which
    [Math.floor(a / b)] is the floor division. *)
Section FormatDate.
Variable toLocaleDateString : Z -> string.

Definition plural (n : Z) : string := if (1 <? n)%Z then "s" else "".

Definition formatDate (d : option Z) (now : Z) : string :=
  match d with
  | None => "Invalid Date"
  | Some t =>
      let diffMs := (now - t)%Z in
      let diffMins := (diffMs / 60000)%Z in
      let diffHours := (diffMs / 3600000)%Z in
      let diffDays := (diffMs / 86400000)%Z in
      if (diffMins <? 1)%Z then "Just now"
      else if (diffMins <? 60)%Z then
        (pretty diffMins ++ " min" ++ plural diffMins ++ " ago")%string
      else if (diffHours <? 24)%Z then
        (pretty diffHours ++ " hour" ++ plural diffHours ++ " ago")%string
      else if (diffDays <? 7)%Z then
        (pretty diffDays ++ " day" ++ plural diffDays ++ " ago")%string
      else toLocaleDateString t
  end.

End FormatDate.

(** [name.replace(/\s+/g, '-')]: every maximal run of white space becomes
    one dash.  [in_run] says that the previous character was white space. *)
Fixpoint dash_runs (in_run : bool) (s : string) : string :=
  match s with
  | EmptyString => EmptyString
  | String c s' =>
      if is_space c then
        if in_run then dash_runs true s' else String "-" (dash_runs true s')
      else String c (dash_runs false s')
  end.

(** [toLowerCase] on 8-bit characters: the letters A to Z and the
    upper-case letters of Latin-1 (192 to 222, the multiplication sign 215
    apart). *)
Definition lower_char (c : ascii) : ascii :=
  let n := nat_of_ascii c in
  if (Nat.leb 65 n && Nat.leb n 90)
     || (Nat.leb 192 n && Nat.leb n 222 && negb (Nat.eqb n 215))
  then ascii_of_nat (n + 32) else c.

Fixpoint toLowerCase (s : string) : string :=
  match s with
  | EmptyString => EmptyString
  | String c s' => String (lower_char c) (toLowerCase s')
  end.

(** The [download] attribute [exportProjectJSON] sets, in the shorter
    revision and (with the decimal spelling [stamp] of [Date.now()]) in the
    longer one. *)
Definition download_name (name : string) : string :=
  (toLowerCase (dash_runs false name) ++ ".json")%string.

Definition download_name_stamped (name stamp : string) : string :=
  (toLowerCase (dash_runs false name) ++ "-" ++ stamp ++ ".json")%string.

(** The interpolated part of the name,
    [project.name.replace(/\s+/g, '-').toLowerCase()]. *)
Definition download_stem (name : string) : string :=
  toLowerCase (dash_runs false name).


(** ** Shapes of text *)

Definition chars (s : string) : list ascii := list_ascii_of_string s.

Definition all_space (s : string) : bool := forallb is_space (chars s).

Definition no_space (s : string) : bool :=
  forallb (fun c => negb (is_space c)) (chars s).

Definition no_char (c : ascii) (s : string) : bool :=
  forallb (fun c' => negb (Ascii.eqb c c')) (chars s).

Definition starts_with_space (s : string) : bool :=
  match s with
  | String c _ => is_space c
  | EmptyString => false
  end.

Fixpoint ends_with_space (s : string) : bool :=
  match s with
  | EmptyString => false
  | String c EmptyString => is_space c
  | String _ s' => ends_with_space s'
  end.

(** The characters of a version-4 UUID. *)
Definition is_hex (c : ascii) : bool :=
  existsb (Ascii.eqb c) (chars "0123456789abcdef").

(** ** Loading a project, and the dashboard's search *)

(** The effect that loads the project of the route: [None] is the redirect
    to the dashboard when no project has the id. *)
Definition loadProject {num : Type} (projectId : string)
    (c : Interaction.Cells num) : option (Interaction.Cells num) :=
  match ProjectStorage.getById projectId
          (DesignCanvas.localStorage (Interaction.page c)) with
  | None => None
  | Some loadedProject =>
      Some
        {| Interaction.page :=
             {| DesignCanvas.project := Some loadedProject;
                DesignCanvas.requirements := Project.requirements loadedProject;
                DesignCanvas.audience := Project.audience loadedProject;
                DesignCanvas.canvasState :=
                  DesignCanvas.canvasState (Interaction.page c);
                DesignCanvas.rightPanelOpen :=
                  DesignCanvas.rightPanelOpen (Interaction.page c);
                DesignCanvas.isGenerating :=
                  DesignCanvas.isGenerating (Interaction.page c);
                DesignCanvas.generationError :=
                  DesignCanvas.generationError (Interaction.page c);
                DesignCanvas.localStorage :=
                  DesignCanvas.localStorage (Interaction.page c) |};
           Interaction.projectName := Project.name loadedProject;
           Interaction.connectionMode := Interaction.connectionMode c;
           Interaction.connectionSource := Interaction.connectionSource c;
           Interaction.selectedConnection := Interaction.selectedConnection c;
           Interaction.connectionEditOpen := Interaction.connectionEditOpen c;
           Interaction.draggedNode := Interaction.draggedNode c;
           Interaction.dragOffset := Interaction.dragOffset c;
           Interaction.isPanning := Interaction.isPanning c;
           Interaction.panStart := Interaction.panStart c |}
  end.

(** [hay.includes(needle)]. *)
Fixpoint includes (needle hay : string) : bool :=
  String.prefix needle hay
  || match hay with
     | String _ hay' => includes needle hay'
     | EmptyString => false
     end.

(** The test of the dashboard's filter on one project. *)
Definition search_hit {num : Type} (searchQuery : string) (p : Project.t num)
  : bool :=
  includes (toLowerCase searchQuery) (toLowerCase (Project.name p))
  || includes (toLowerCase searchQuery) (toLowerCase (Project.requirements p)).

(** The projects the dashboard lists for a search query. *)
Definition filteredProjects {num : Type} (searchQuery : string)
    (projects : list (Project.t num)) : list (Project.t num) :=
  if String.eqb (trim searchQuery) "" then projects
  else filter (fun p => search_hit searchQuery p = true) projects.

(** ** The JSON image of a stored project *)

(** [save] writes [JSON.stringify(projects)] and [getAll] reads it with
    [JSON.parse], so what is read back is the JSON image of what was saved.
    Strings, booleans and absent fields are carried as they are; a number is
    written in the shortest decimal that reads back as the same double,
    except that [-0] is written [0] and [NaN], [Infinity] and [-Infinity]
    are written [null].  [None] stands for [null]. *)
Definition JSON_number (x : float) : option float :=
  match PrimFloat.classify x with
  | FloatClass.NaN | FloatClass.PInf | FloatClass.NInf => None
  | FloatClass.NZero => Some 0%float
  | _ => Some x
  end.

Definition map_point {A B : Type} (f : A -> B) (pt : Point.t A) : Point.t B :=
  {| Point.x := f (Point.x pt); Point.y := f (Point.y pt) |}.

Definition map_node {A B : Type} (f : A -> B) (n : SystemNode.t A)
  : SystemNode.t B :=
  {| SystemNode.id := SystemNode.id n;
     SystemNode.type := SystemNode.type n;
     SystemNode.name := SystemNode.name n;
     SystemNode.description := SystemNode.description n;
     SystemNode.position := map_point f (SystemNode.position n);
     SystemNode.specifications := SystemNode.specifications n;
     SystemNode.scaling := SystemNode.scaling n;
     SystemNode.fault_tolerance := SystemNode.fault_tolerance n;
     SystemNode.connections := SystemNode.connections n;
     SystemNode.icon := SystemNode.icon n;
     SystemNode.color := SystemNode.color n |}.

Definition map_version {A B : Type} (f : A -> B) (v : ProjectVersion.t A)
  : ProjectVersion.t B :=
  {| ProjectVersion.id := ProjectVersion.id v;
     ProjectVersion.version := ProjectVersion.version v;
     ProjectVersion.timestamp := ProjectVersion.timestamp v;
     ProjectVersion.nodes := map (map_node f) (ProjectVersion.nodes v);
     ProjectVersion.connections := ProjectVersion.connections v;
     ProjectVersion.snapshot_name := ProjectVersion.snapshot_name v |}.

Definition map_project {A B : Type} (f : A -> B) (p : Project.t A)
  : Project.t B :=
  {| Project.id := Project.id p;
     Project.name := Project.name p;
     Project.requirements := Project.requirements p;
     Project.audience := Project.audience p;
     Project.nodes := map (map_node f) (Project.nodes p);
     Project.connections := Project.connections p;
     Project.status := Project.status p;
     Project.created_at := Project.created_at p;
     Project.updated_at := Project.updated_at p;
     Project.versions := map (map_version f) (Project.versions p) |}.

(** A project as JSON carries it, and a project with every number
    present. *)
Definition JSON_image (p : Project.t float) : Project.t (option float) :=
  map_project JSON_number p.

Definition as_read (p : Project.t float) : Project.t (option float) :=
  map_project Some p.

(** The numbers of [p] are the ones JSON carries unchanged. *)
Definition JSON_stable (p : Project.t float) : Prop :=
  JSON_image p = as_read p.

(** What [getById] returns on the stored text: the JSON image of the first
    record with the id. *)
Definition getById_read_back (id : string)
    (ls : @ProjectStorage.LocalStorage float)
  : option (Project.t (option float)) :=
  JSON_image <$> ProjectStorage.getById id ls.

(** ** Integrity of a project *)

(** Every connection is drawn: its source and its target are ids of nodes
    of the project. *)
Definition well_linked {num : Type} (p : Project.t num) : Prop :=
  Forall (fun k => Interaction.drawn p k = true) (Project.connections p).

(** No connection joins a node to itself. *)
Definition loop_free {num : Type} (p : Project.t num) : Prop :=
  Forall (fun k => NodeConnection.source k <> NodeConnection.target k)
         (Project.connections p).

(** The ids stored under the storage key. *)
Definition stored_ids {num : Type} (ls : @ProjectStorage.LocalStorage num)
  : list string :=
  map Project.id (ProjectStorage.getAll ls).

(** ** Sample data *)

(** A project with three nodes and three connections, and the canvas state
    after a click on node [a]. *)
Definition sample_connection (id source target : string) : NodeConnection.t :=
  {| NodeConnection.id := id;
     NodeConnection.source := source;
     NodeConnection.target := target;
     NodeConnection.type := sync;
     NodeConnection.label := Some "Connection";
     NodeConnection.description := None;
     NodeConnection.protocol := Some "HTTP" |}.

Definition sample_project : Project.t Q :=
  {| Project.id := "p1";
     Project.name := "Untitled Project";
     Project.requirements := "Design a chat service";
     Project.audience := technical;
     Project.nodes :=
       [node_at "a" 100%Q 100%Q; node_at "b" 500%Q 100%Q; node_at "c" 500%Q 400%Q];
     Project.connections :=
       [sample_connection "k1" "a" "b"; sample_connection "k2" "b" "c";
        sample_connection "k3" "c" "a"];
     Project.status := draft;
     Project.created_at := "2024-01-01T00:00:00.000Z";
     Project.updated_at := "2024-01-01T00:00:00.000Z";
     Project.versions := [] |}.

Definition sample_state : DesignCanvas.State Q :=
  DesignCanvas.handleNodeClick "a"
    {| DesignCanvas.project := Some sample_project;
       DesignCanvas.requirements := "Design a chat service";
       DesignCanvas.audience := technical;
       DesignCanvas.canvasState :=
         {| DesignCanvas.zoom := 1%Q;
            DesignCanvas.pan := {| Point.x := 0%Q; Point.y := 0%Q |};
            DesignCanvas.selectedNodeId := None;
            DesignCanvas.isDragging := false;
            DesignCanvas.showGrid := true;
            DesignCanvas.showMinimap := false |};
       DesignCanvas.rightPanelOpen := false;
       DesignCanvas.isGenerating := false;
       DesignCanvas.generationError := None;
       DesignCanvas.localStorage := Some [sample_project] |}.

(** A finite excerpt of [JSON.parse]: the texts of the table parse to the
    values listed with them, every other text is rejected. *)
Definition table_parse (table : list (string * value)) (s : string)
  : option value :=
  assoc s table.

(** The double quote. *)
Definition dq : string := String (ascii_of_nat 34) EmptyString.

(** The JSON text of an object whose [nodes] holds one node of id [n1], the
    value it parses to, and an agent answer that quotes it before a fenced
    block that is not JSON. *)
Definition sample_json : string :=
  ("{" ++ dq ++ "nodes" ++ dq ++ ":[{" ++ dq ++ "id" ++ dq ++ ":"
   ++ dq ++ "n1" ++ dq ++ "}]}")%string.

Definition sample_payload : value :=
  VObject [("nodes", VArray [VObject [("id", VString "n1")]])].

Definition sample_answer : string :=
  ("Plan: " ++ sample_json ++ " Details: ```json TBD ```")%string.

Definition sample_parser : string -> option value :=
  table_parse [(sample_json, sample_payload)].

Definition agent_response (text : string) : value :=
  VObject [("status", VString "success");
           ("result", VObject [("response", VString text)])].

Definition sample_env : Env :=
  {| calls := 0;
     Date_now := fun _ => "1700000000000";
     random36 := fun n => String (ascii_of_nat (97 + n)) "3j2h1g0f" |}.

(** The page over the sample project: the cells as the component mounts
    them, the canvas rectangle, and the cells in the middle of a gesture. *)
Definition sample_rect : Interaction.Rect Q :=
  {| Interaction.left := 280%Q; Interaction.top := 64%Q;
     Interaction.width := 1200%Q; Interaction.height := 800%Q |}.

Definition sample_cells : Interaction.Cells Q :=
  {| Interaction.page := sample_state;
     Interaction.projectName := "Chat service";
     Interaction.connectionMode := false;
     Interaction.connectionSource := None;
     Interaction.selectedConnection := None;
     Interaction.connectionEditOpen := false;
     Interaction.draggedNode := None;
     Interaction.dragOffset := {| Point.x := 0%Q; Point.y := 0%Q |};
     Interaction.isPanning := false;
     Interaction.panStart := {| Point.x := 0%Q; Point.y := 0%Q |} |}.

(** Node [a] grabbed 20 pixels right of and 16 below its corner. *)
Definition sample_dragging : Interaction.Cells Q :=
  Interaction.handleNodeDragStart 400%Q 180%Q
    {| Interaction.left := 380%Q; Interaction.top := 164%Q;
       Interaction.width := 300%Q; Interaction.height := 150%Q |}
    (node_at "a" 100%Q 100%Q) sample_cells.

(** Connection mode with node [a] picked as the source. *)
Definition sample_connecting : Interaction.Cells Q :=
  Interaction.setConnecting true (Some "a") sample_cells.

(** The editor open on the connection [k1]. *)
Definition sample_editing : Interaction.Cells Q :=
  Interaction.handleConnectionClick (sample_connection "k1" "a" "b") sample_cells.

Definition sample_template : ComponentTemplate.t :=
  ComponentTemplate.mk "cache" cache "Cache Layer"
    "In-memory cache for fast data access" "FaBolt" (Some 3%positive).

Definition sample_clock : string := "2025-06-01T12:00:00.000Z".

(** A random source that alternates between two draws. *)
Definition sample_draws (k : nat) : Z := if Nat.even k then 3%Z else 12%Z.

Definition fenced_answer : string :=
  ("Here it is: ```json " ++ sample_json ++ " ``` Enjoy.")%string.



(** A project with one node at [(-0, 100)] in binary64. *)
Definition negative_zero_project : Project.t float :=
  {| Project.id := "p3";
     Project.name := "Untitled Project";
     Project.requirements := "";
     Project.audience := technical;
     Project.nodes := [node_at "a" (-0)%float 100%float];
     Project.connections := [];
     Project.status := draft;
     Project.created_at := "2024-01-01T00:00:00.000Z";
     Project.updated_at := "2024-01-01T00:00:00.000Z";
     Project.versions := [] |}.

(** * Properties *)

Local Open Scope list_scope.

(** ** Coordinate transform *)

(** C1, as amended: in exact arithmetic, for every point, every pan offset
    and every strictly positive zoom, [screenToCanvas] undoes
    [canvasToScreen]. *)
Theorem screenToCanvas_canvasToScreen_exact
    (x y : Q) (pan : Point.t Q) (zoom : Q) :
  (0 < zoom)%Q ->
  let s := CanvasUtils.canvasToScreen x y pan zoom in
  point_Qeq (CanvasUtils.screenToCanvas (Point.x s) (Point.y s) pan zoom)
            {| Point.x := x; Point.y := y |}.
Proof.
  intros Hzoom. unfold point_Qeq. cbn.
  split; field; intros Hz; rewrite Hz in Hzoom; now apply Qlt_irrefl in Hzoom.
Qed.

Lemma screenToCanvas_canvasToScreen_exact_witness :
  let pan : Point.t Q := Point.mk 7%Q (-3)%Q in
  let s := CanvasUtils.canvasToScreen 100%Q 40%Q pan (1 # 2)%Q in
  (0 < 1 # 2)%Q /\
  point_Qeq (CanvasUtils.screenToCanvas (Point.x s) (Point.y s) pan (1 # 2)%Q)
            {| Point.x := 100%Q; Point.y := 40%Q |}.
Proof.
  split; [reflexivity|].
  apply (screenToCanvas_canvasToScreen_exact 100 40 (Point.mk 7 (-3)) (1 # 2))%Q.
  reflexivity.
Defined.

(** C1, as stated, fails in the binary64 arithmetic the code runs on.  The
    finite point [(2^1023, 0)] at zoom [2] (the upper end of the zoom clamp)
    comes back as [Infinity]: the product overflows.  The finite point
    [(1, 0)] with pan [(2^53, 0)] at zoom [1] comes back as [(0, 0)]: the sum
    absorbs the coordinate. *)
Lemma screenToCanvas_canvasToScreen_binary64_counterexample :
  (let pan := Point.mk 0%float 0%float in
   let s := CanvasUtils.canvasToScreen 0x1p1023%float 0%float pan 2%float in
   f64_isFinite 0x1p1023%float = true /\
   PrimFloat.ltb 0 2 = true /\
   Point.x (CanvasUtils.screenToCanvas (Point.x s) (Point.y s) pan 2%float)
   = PrimFloat.infinity) /\
  (let pan := Point.mk 0x1p53%float 0%float in
   let s := CanvasUtils.canvasToScreen 1%float 0%float pan 1%float in
   f64_isFinite 0x1p53%float = true /\
   CanvasUtils.screenToCanvas (Point.x s) (Point.y s) pan 1%float
   = Point.mk 0%float 0%float).
Proof. vm_compute. repeat split. Qed.

(** On moderate values the binary64 round trip is exact: the drag scenario of
    the specification. *)
Example screenToCanvas_canvasToScreen_binary64_drag :
  let pan := Point.mk 50%float 0%float in
  let s := CanvasUtils.canvasToScreen 100%float 100%float pan 1%float in
  CanvasUtils.screenToCanvas (Point.x s) (Point.y s) pan 1%float
  = Point.mk 100%float 100%float.
Proof. vm_compute. reflexivity. Qed.

(** ** Viewport fitter *)

Lemma Math_min_list_le (x : Q) (xs : list Q) : (Math_min_list x xs <= x)%Q.
Proof.
  unfold Math_min_list. revert x.
  induction xs as [|a xs IH]; intros x; cbn.
  - apply Qle_refl.
  - eapply Qle_trans; [apply IH|]. apply Q.le_min_l.
Qed.

Lemma Math_max_list_ge (x : Q) (xs : list Q) : (x <= Math_max_list x xs)%Q.
Proof.
  unfold Math_max_list. revert x.
  induction xs as [|a xs IH]; intros x; cbn.
  - apply Qle_refl.
  - eapply Qle_trans; [|apply IH]. apply Q.le_max_l.
Qed.

Lemma Math_min_list_le_max (x : Q) (xs : list Q) :
  (Math_min_list x xs <= Math_max_list x xs)%Q.
Proof.
  eapply Qle_trans; [apply Math_min_list_le | apply Math_max_list_ge].
Qed.

(** The content box of a non-empty node list is at least the footprint
    inflated by the padding on both sides, whatever the padding. *)
Lemma content_lower_bound (n : SystemNode.t Q) (ns : list (SystemNode.t Q))
    (padding : Q) :
  let c := CanvasUtils.content n ns padding in
  (2 * padding + 300 <= CanvasUtils.contentWidth c)%Q /\
  (2 * padding + 150 <= CanvasUtils.contentHeight c)%Q.
Proof.
  cbn -[Math_min_list Math_max_list Qplus Qminus Qmult Qle].
  pose proof (Math_min_list_le_max
    (Point.x (SystemNode.position n))
    (map (fun n => Point.x (SystemNode.position n)) ns)) as Hx.
  pose proof (Math_min_list_le_max
    (Point.y (SystemNode.position n))
    (map (fun n => Point.y (SystemNode.position n)) ns)) as Hy.
  change (inject_Z 300) with 300%Q. change (inject_Z 150) with 150%Q.
  split; lra.
Qed.

(** C8, as amended: [fitToView] has no minimum-of-1 guard; in exact
    arithmetic, for every non-empty node list and every non-negative padding
    (the default is 50), the content width and height it divides by are at
    least 1, so neither division is by zero. *)
Theorem fitToView_divisors_exact
    (n : SystemNode.t Q) (ns : list (SystemNode.t Q))
    (containerWidth containerHeight padding : Q) :
  (0 <= padding)%Q ->
  let c := CanvasUtils.content n ns padding in
  CanvasUtils.zoom
    (CanvasUtils.fitToView (n :: ns) containerWidth containerHeight padding)
  = Qmin (Qmin (containerWidth / CanvasUtils.contentWidth c)
               (containerHeight / CanvasUtils.contentHeight c)) 1 /\
  (1 <= CanvasUtils.contentWidth c)%Q /\
  (1 <= CanvasUtils.contentHeight c)%Q /\
  ~ (CanvasUtils.contentWidth c == 0)%Q /\
  ~ (CanvasUtils.contentHeight c == 0)%Q.
Proof.
  intros Hpad c.
  destruct (content_lower_bound n ns padding) as [Hw Hh].
  fold c in Hw, Hh.
  split; [reflexivity|].
  repeat split; try lra; intros Hz; rewrite Hz in *; lra.
Qed.

Lemma fitToView_divisors_exact_witness :
  let n : SystemNode.t Q := node_at "n1" 100%Q 100%Q in
  let c := CanvasUtils.content n [] 50%Q in
  (0 <= 50)%Q /\
  CanvasUtils.zoom (CanvasUtils.fitToView [n] 800%Q 600%Q 50%Q)
  = Qmin (Qmin (800 / CanvasUtils.contentWidth c)
               (600 / CanvasUtils.contentHeight c)) 1 /\
  (1 <= CanvasUtils.contentWidth c)%Q /\
  (1 <= CanvasUtils.contentHeight c)%Q /\
  ~ (CanvasUtils.contentWidth c == 0)%Q /\
  ~ (CanvasUtils.contentHeight c == 0)%Q.
Proof.
  split; [discriminate|].
  apply (fitToView_divisors_exact (node_at "n1" 100%Q 100%Q) [] 800%Q 600%Q 50%Q).
  discriminate.
Defined.

(** C8, as stated, fails: nothing guards the divisors.  In binary64 with the
    default padding, a single node at the finite position [(1e20, 1e20)] has
    content width and height [0] (the inflation by padding and footprint is
    absorbed), and both zoom ratios are divisions by zero.  In exact
    arithmetic, the padding [-150] gives a single node the content width
    [0]. *)
Lemma fitToView_divisors_counterexample :
  (let n : SystemNode.t float := node_at "n1" 1e20%float 1e20%float in
   let c := CanvasUtils.content n [] CanvasUtils.default_padding in
   f64_isFinite 1e20%float = true /\
   CanvasUtils.contentWidth c = 0%float /\
   CanvasUtils.contentHeight c = 0%float /\
   PrimFloat.div 800 (CanvasUtils.contentWidth c) = PrimFloat.infinity /\
   PrimFloat.div 600 (CanvasUtils.contentHeight c) = PrimFloat.infinity) /\
  (let n : SystemNode.t Q := node_at "n1" 0%Q 0%Q in
   (CanvasUtils.contentWidth (CanvasUtils.content n [] (-150)%Q) == 0)%Q).
Proof. vm_compute. repeat split. Qed.

(** ** Project persistence *)

Section StorageFacts.
Context {num : Type}.
Implicit Types (p q : Project.t num) (ls : @ProjectStorage.LocalStorage num).

(** The two branches of [save], with the position [findIndex] returned. *)
Lemma save_found now p ls i :
  ProjectStorage.findIndex (Project.id p) (ProjectStorage.getAll ls) = Some i ->
  ProjectStorage.getAll (ProjectStorage.save now p ls)
  = take i (ProjectStorage.getAll ls)
    ++ ProjectStorage.with_updated_at p now
    :: drop (S i) (ProjectStorage.getAll ls).
Proof.
  intros Hfind. unfold ProjectStorage.save. rewrite Hfind. cbn.
  apply insert_take_drop.
  unfold ProjectStorage.findIndex in Hfind.
  apply fmap_Some in Hfind as ([j x] & Hlf & ->).
  apply list_find_Some in Hlf as (Hl & _). cbn.
  eapply lookup_lt_Some, Hl.
Qed.

Lemma save_not_found now p ls :
  ProjectStorage.findIndex (Project.id p) (ProjectStorage.getAll ls) = None ->
  ProjectStorage.getAll (ProjectStorage.save now p ls)
  = ProjectStorage.getAll ls ++ [p].
Proof.
  intros Hfind. unfold ProjectStorage.save. now rewrite Hfind.
Qed.

Lemma findIndex_Some id (l : list (Project.t num)) i :
  ProjectStorage.findIndex id l = Some i ->
  exists q, l !! i = Some q /\ Project.id q = id /\
            Forall (fun r => Project.id r <> id) (take i l).
Proof.
  unfold ProjectStorage.findIndex. intros Hfind.
  apply fmap_Some in Hfind as ([j q] & Hlf & ->). cbn.
  apply list_find_Some in Hlf as (Hl & Hid & Hleast).
  exists q. split_and!; [done..|].
  apply Forall_lookup. intros k r Hk.
  apply lookup_take_Some in Hk as [Hk Hlt]. eauto.
Qed.

Lemma findIndex_None id (l : list (Project.t num)) :
  ProjectStorage.findIndex id l = None ->
  Forall (fun r => Project.id r <> id) l.
Proof.
  unfold ProjectStorage.findIndex. intros Hfind.
  apply fmap_None in Hfind. now apply list_find_None in Hfind.
Qed.

(** [getById] after [save]: the saved record, stamped on update only. *)
Lemma getById_save now p ls :
  ProjectStorage.getById (Project.id p) (ProjectStorage.save now p ls)
  = Some (match ProjectStorage.getById (Project.id p) ls with
          | Some _ => ProjectStorage.with_updated_at p now
          | None => p
          end).
Proof.
  unfold ProjectStorage.getById.
  destruct (ProjectStorage.findIndex (Project.id p) (ProjectStorage.getAll ls))
    as [i|] eqn:Hfind.
  - rewrite (save_found _ _ _ _ Hfind).
    destruct (findIndex_Some _ _ _ Hfind) as (q & Hq & Hid & Hbefore).
    unfold ProjectStorage.findIndex in Hfind.
    apply fmap_Some in Hfind as ([j x] & Hlf & Hj). rewrite Hlf. cbn.
    assert (Hgoal : list_find (fun r => Project.id r = Project.id p)
              (take i (ProjectStorage.getAll ls)
               ++ ProjectStorage.with_updated_at p now
               :: drop (S i) (ProjectStorage.getAll ls))
            = Some (i, ProjectStorage.with_updated_at p now)).
    { apply list_find_Some.
      assert (Hlen : length (take i (ProjectStorage.getAll ls)) = i).
      { apply length_take_le. apply lookup_lt_Some in Hq. lia. }
      split_and!.
      - rewrite lookup_app_r by lia. rewrite Hlen, Nat.sub_diag. done.
      - done.
      - intros k r Hk Hlt. rewrite lookup_app_l in Hk by lia.
        eapply Forall_lookup_1 in Hbefore; eauto. }
    now rewrite Hgoal.
  - rewrite (save_not_found _ _ _ Hfind).
    pose proof (findIndex_None _ _ Hfind) as Hall.
    unfold ProjectStorage.findIndex in Hfind. apply fmap_None in Hfind.
    rewrite Hfind. cbn.
    rewrite list_find_app_r by done. cbn.
    rewrite decide_True by done. done.
Qed.

(** C5, as amended: [save] upserts by id.  When a project with the same id is
    stored, the record found under that id afterwards is the saved project
    with [updated_at] set to the current time (and its [created_at] as the
    caller passed it); when none is stored, it is the saved project exactly
    as passed: [save] assigns no timestamp on insert. *)
Theorem save_upsert now p ls :
  match ProjectStorage.getById (Project.id p) ls with
  | Some _ =>
      exists r,
        ProjectStorage.getById (Project.id p) (ProjectStorage.save now p ls)
        = Some r /\
        r = ProjectStorage.with_updated_at p now /\
        Project.updated_at r = now /\
        Project.created_at r = Project.created_at p
  | None =>
      ProjectStorage.getById (Project.id p) (ProjectStorage.save now p ls)
      = Some p /\
      ProjectStorage.getAll (ProjectStorage.save now p ls)
      = ProjectStorage.getAll ls ++ [p]
  end.
Proof.
  pose proof (getById_save now p ls) as Hget.
  destruct (ProjectStorage.getById (Project.id p) ls) eqn:Hold.
  - eexists. split; [exact Hget|]. done.
  - split; [exact Hget|].
    apply save_not_found.
    unfold ProjectStorage.getById in Hold. apply fmap_None in Hold.
    unfold ProjectStorage.findIndex. now rewrite Hold.
Qed.

(** [create] stamps the new record itself, from two readings of the clock. *)
Lemma create_timestamps e created updated saved name ls :
  let '(project, _, _) :=
    ProjectStorage.create (num:=num) e created updated saved name ls in
  Project.created_at project = created /\
  Project.updated_at project = updated /\
  Project.status project = draft /\
  Project.nodes project = [] /\
  Project.connections project = [].
Proof. cbn. done. Qed.

(** C10: [save] leaves every stored project with another id unchanged and in
    place: the stored list is either the old one with the first record of
    that id replaced, or the old one with the project appended. *)
Theorem save_frame now p ls :
  let before := ProjectStorage.getAll ls in
  let after := ProjectStorage.getAll (ProjectStorage.save now p ls) in
  filter (fun r => Project.id r <> Project.id p) after
  = filter (fun r => Project.id r <> Project.id p) before /\
  match ProjectStorage.findIndex (Project.id p) before with
  | Some i =>
      (exists q, before !! i = Some q /\ Project.id q = Project.id p) /\
      length after = length before /\
      after !! i = Some (ProjectStorage.with_updated_at p now) /\
      (forall j, j <> i -> after !! j = before !! j)
  | None =>
      after = before ++ [p] /\
      (forall j, j < length before -> after !! j = before !! j)
  end.
Proof.
  intros before after. subst before after.
  destruct (ProjectStorage.findIndex (Project.id p) (ProjectStorage.getAll ls))
    as [i|] eqn:Hfind.
  - destruct (findIndex_Some _ _ _ Hfind) as (q & Hq & Hid & Hbefore).
    assert (Hlt : i < length (ProjectStorage.getAll ls))
      by (eapply lookup_lt_Some, Hq).
    split.
    + rewrite (save_found _ _ _ _ Hfind).
      rewrite <- (take_drop_middle (ProjectStorage.getAll ls) i q Hq) at 3.
      rewrite !filter_app, !filter_cons_False; [done| |].
      * intros Hne. now apply Hne.
      * intros Hne. now apply Hne.
    + unfold ProjectStorage.save. rewrite Hfind. cbn. split_and!.
      * eauto.
      * apply length_insert.
      * now apply list_lookup_insert_eq.
      * intros j Hj. now apply list_lookup_insert_ne.
  - rewrite (save_not_found _ _ _ Hfind). split_and!.
    + rewrite filter_app, filter_cons_False by (intros Hne; now apply Hne).
      now rewrite filter_nil, app_nil_r.
    + done.
    + intros j Hj. now apply lookup_app_l.
Qed.

End StorageFacts.

(** C5, as stated, fails on insert: a project saved into an empty store keeps
    the [created_at] and [updated_at] it came with, whatever the current
    time. *)
Lemma save_insert_counterexample :
  let p : Project.t Q :=
    {| Project.id := "p1";
       Project.name := "Untitled Project";
       Project.requirements := "";
       Project.audience := technical;
       Project.nodes := [];
       Project.connections := [];
       Project.status := draft;
       Project.created_at := "2024-01-01T00:00:00.000Z";
       Project.updated_at := "2024-01-02T00:00:00.000Z";
       Project.versions := [] |} in
  let now := "2025-06-01T12:00:00.000Z" in
  ProjectStorage.getById (num:=Q) "p1" None = None /\
  exists r,
    ProjectStorage.getById "p1" (ProjectStorage.save now p None) = Some r /\
    Project.created_at r = "2024-01-01T00:00:00.000Z" /\
    Project.updated_at r = "2024-01-02T00:00:00.000Z" /\
    Project.created_at r <> now /\
    Project.updated_at r <> now.
Proof.
  cbn. split; [reflexivity|]. eexists. split; [reflexivity|].
  cbn. repeat split; discriminate.
Qed.

(** ** Deleting the selected node *)

Section CanvasFacts.
Context {num : Type}.
Implicit Types (st : DesignCanvas.State num) (p : Project.t num).


Lemma without_node_connections sel p (c : NodeConnection.t) :
  c ∈ Project.connections (DesignCanvas.without_node sel p) <->
  (NodeConnection.source c <> sel /\ NodeConnection.target c <> sel)
  /\ c ∈ Project.connections p.
Proof.
  apply (list_elem_of_filter
           (fun c => NodeConnection.source c <> sel
                     /\ NodeConnection.target c <> sel)).
Qed.

Lemma deleteSelectedNode_run now st p sel :
  DesignCanvas.project st = Some p ->
  DesignCanvas.selectedNodeId (DesignCanvas.canvasState st) = Some sel ->
  sel <> "" ->
  DesignCanvas.deleteSelectedNode now st
  = {| DesignCanvas.project := Some (DesignCanvas.without_node sel p);
       DesignCanvas.requirements := DesignCanvas.requirements st;
       DesignCanvas.audience := DesignCanvas.audience st;
       DesignCanvas.canvasState :=
         DesignCanvas.set_selectedNodeId None (DesignCanvas.canvasState st);
       DesignCanvas.rightPanelOpen := false;
       DesignCanvas.isGenerating := DesignCanvas.isGenerating st;
       DesignCanvas.generationError := DesignCanvas.generationError st;
       DesignCanvas.localStorage :=
         ProjectStorage.save now (DesignCanvas.without_node sel p)
           (DesignCanvas.localStorage st) |}.
Proof.
  intros Hp Hsel Hne. unfold DesignCanvas.deleteSelectedNode.
  rewrite Hsel, Hp. cbn.
  destruct (String.eqb_spec sel "") as [->|_]; [done|reflexivity].
Qed.


(** The guard of [deleteSelectedNode] reads the empty string as no
    selection: a node whose id is empty stays, selected or not. *)
Lemma deleteSelectedNode_empty_id now st :
  DesignCanvas.selectedNodeId (DesignCanvas.canvasState st) = Some "" ->
  DesignCanvas.deleteSelectedNode now st = st.
Proof.
  intros Hsel. unfold DesignCanvas.deleteSelectedNode. rewrite Hsel.
  now destruct (DesignCanvas.project st).
Qed.

Lemma deleteSelectedNode_nothing_selected now st :
  DesignCanvas.selectedNodeId (DesignCanvas.canvasState st) = None ->
  DesignCanvas.deleteSelectedNode now st = st.
Proof.
  intros Hsel. unfold DesignCanvas.deleteSelectedNode. now rewrite Hsel.
Qed.

(** ** Generation and the project's status *)

(** Starting a generation never touches the project: its [status] while the
    call is in flight is the one it had. *)
Lemma handleGenerateDesign_begin_project st :
  DesignCanvas.project (fst (DesignCanvas.handleGenerateDesign_begin st))
  = DesignCanvas.project st.
Proof.
  unfold DesignCanvas.handleGenerateDesign_begin.
  now destruct (String.eqb _ _).
Qed.

Lemma handleGenerateDesign_begin_flag st :
  snd (DesignCanvas.handleGenerateDesign_begin st) = true ->
  DesignCanvas.isGenerating (fst (DesignCanvas.handleGenerateDesign_begin st))
  = true.
Proof.
  unfold DesignCanvas.handleGenerateDesign_begin.
  now destruct (String.eqb _ _).
Qed.

(** When the call settles, the project is either left alone or replaced by
    the captured project with the generated diagram and status
    [completed]. *)
Lemma handleGenerateDesign_settle_project parse now p settled st :
  let st' := DesignCanvas.handleGenerateDesign_settle parse now p settled st in
  DesignCanvas.isGenerating st' = false /\
  (DesignCanvas.project st' = DesignCanvas.project st \/
   exists nodes connections,
     0 < length nodes /\
     DesignCanvas.project st'
     = Some (DesignCanvas.with_generated p nodes connections) /\
     Project.status (DesignCanvas.with_generated p nodes connections)
     = completed).
Proof.
  cbn. split; [reflexivity|].
  unfold DesignCanvas.handleGenerateDesign_settle, try_catch.
  destruct settled as [result|e]; cbn; [|now left].
  unfold DesignCanvas.generate_body.
  destruct (DesignCanvas.agent_succeeded result) as [[|]|e]; cbn;
    try now left.
  destruct (parse (DesignCanvas.response result)) as [[nodes conns]|e];
    cbn; [|now left].
  destruct nodes as [|n nodes]; cbn; [now left|].
  right. exists (n :: nodes), conns. cbn. split_and!; [lia|done..].
Qed.

End CanvasFacts.




(** C7, evaluated: a generation started on a [draft] project with
    requirements entered is in flight with [isGenerating = true] and the
    project still [draft]; no step of [handleGenerateDesign] writes
    [generating].  When the agent's diagram is applied the status becomes
    [completed]. *)
Theorem handleGenerateDesign_status_in_flight :
  let st := sample_state in
  let in_flight := DesignCanvas.handleGenerateDesign_begin st in
  let parse := fun _ : value =>
    Returned ([node_at "g1" 100%Q 100%Q], @nil NodeConnection.t) in
  let settled :=
    Returned {| DesignCanvas.success := true;
                DesignCanvas.response := VObject [("status", VString "success")];
                DesignCanvas.error := None |} in
  let done_ :=
    DesignCanvas.handleGenerateDesign_settle parse "2025-06-01T12:00:00.000Z"
      sample_project settled (fst in_flight) in
  Project.status <$> DesignCanvas.project st = Some draft /\
  snd in_flight = true /\
  DesignCanvas.isGenerating (fst in_flight) = true /\
  Project.status <$> DesignCanvas.project (fst in_flight) = Some draft /\
  Project.status <$> DesignCanvas.project (fst in_flight) <> Some generating /\
  DesignCanvas.isGenerating done_ = false /\
  Project.status <$> DesignCanvas.project done_ = Some completed.
Proof. vm_compute. repeat split. discriminate. Qed.

(** ** Template instantiator *)

(** C6, as amended: the new node takes its id from [generateId], its
    position from the drop, its type, name, description and icon from the
    template, the fixed scaling and fault-tolerance blocks, an empty
    connection list, and as [specifications] the template's [defaultSpecs]
    object itself: the same reference, not a copy. *)
Theorem createNodeFromTemplate_fields {num : Type} (e : Env)
    (template : ComponentTemplate.t) (position : Point.t num) :
  let node := fst (createNodeFromTemplate e template position) in
  SystemNode.id node = fst (generateId e) /\
  snd (createNodeFromTemplate e template position) = snd (generateId e) /\
  SystemNode.position node = position /\
  SystemNode.type node = ComponentTemplate.type template /\
  SystemNode.name node = ComponentTemplate.name template /\
  SystemNode.description node = ComponentTemplate.description template /\
  SystemNode.icon node = Some (ComponentTemplate.icon template) /\
  SystemNode.specifications node = ComponentTemplate.defaultSpecs template /\
  SystemNode.scaling node
  = Some {| Scaling.horizontal := Some true;
            Scaling.vertical := Some false;
            Scaling.auto_scaling := Some true;
            Scaling.details := Some "Scales based on CPU/memory usage" |} /\
  SystemNode.fault_tolerance node
  = Some {| FaultTolerance.replication := Some true;
            FaultTolerance.backup := Some true;
            FaultTolerance.failover := Some true;
            FaultTolerance.details :=
              Some "Multi-region deployment with automated failover" |} /\
  SystemNode.connections node = Some [].
Proof. cbn. repeat split. Qed.

(** The id of a node is never empty. *)
Lemma generateId_nonempty (e : Env) : fst (generateId e) <> "".
Proof.
  unfold generateId. cbn. intros Heq.
  destruct (Date_now e (calls e)); discriminate.
Qed.

(** The consequence of the shared reference: in any heap that holds the
    template's [defaultSpecs], a field written through the new node is read
    back through the template. *)
Lemma createNodeFromTemplate_aliasing {num : Type} (e : Env)
    (template : ComponentTemplate.t) (position : Point.t num)
    (h : Heap) (l : loc) (o : Specs) (k v : string) :
  ComponentTemplate.defaultSpecs template = Some l ->
  heap_read h l = Some o ->
  let node := fst (createNodeFromTemplate e template position) in
  SystemNode.specifications node = Some l /\
  read_field (heap_write_field l k v h)
    (ComponentTemplate.defaultSpecs template) k = Some v.
Proof.
  intros Hspecs Hobj. cbn. split; [exact Hspecs|].
  rewrite Hspecs.
  unfold read_field, heap_read, heap_write_field, Heap, Specs, loc in *.
  rewrite lookup_alter, decide_True by done. rewrite Hobj. cbn.
  apply lookup_insert_eq.
Qed.

(** C6, as stated, fails: the specifications are shared, not copied.  For
    the API Gateway template, the node's [specifications] is the location of
    the template's [defaultSpecs], so a write through the node is read back
    through the template. *)
Lemma createNodeFromTemplate_shares_specs_counterexample :
  let e := {| calls := 0; Date_now := fun _ => "1700000000000";
              random36 := fun _ => "k3j2h1g0f" |} in
  let template :=
    ComponentTemplate.mk "api-gateway" api_gateway "API Gateway"
      "Entry point for client requests with routing and load balancing"
      "FaServer" (Some 1%positive) in
  let node : SystemNode.t Q :=
    fst (createNodeFromTemplate e template {| Point.x := 10%Q; Point.y := 20%Q |}) in
  componentTemplates !! 0 = Some template /\
  SystemNode.specifications node = Some 1%positive /\
  SystemNode.specifications node = ComponentTemplate.defaultSpecs template /\
  read_field template_heap (ComponentTemplate.defaultSpecs template) "technology"
  = Some "NGINX / Kong" /\
  let h' := heap_write_field 1%positive "technology" "Envoy" template_heap in
  read_field h' (SystemNode.specifications node) "technology" = Some "Envoy" /\
  read_field h' (ComponentTemplate.defaultSpecs template) "technology"
  = Some "Envoy".
Proof. vm_compute. repeat split. Qed.

(** ** Agent response normaliser *)

Lemma opt_member_member (k : string) (v : value) : opt_member k v = member k v.
Proof. now destruct v. Qed.

Lemma truthy_not_nullish (v : value) : truthy v = true -> nullish v = false.
Proof. now destruct v. Qed.

Lemma nth_id_nonempty (e : Env) (k : nat) : nth_id e k <> "".
Proof. apply generateId_nonempty. Qed.

Section NormalizerFacts.
Variable JSON_parse : string -> option value.

Local Abbreviation structured_data := Normalizer.structured_data.
Local Abbreviation text_payload := (Normalizer.text_payload JSON_parse).
Local Abbreviation resolved_data := (Normalizer.resolved_data JSON_parse).
Local Abbreviation default_architecture := Normalizer.default_architecture.
Local Abbreviation lacks_nodes := Normalizer.lacks_nodes.
Local Abbreviation fallback := Normalizer.fallback.
Local Abbreviation no_structured_nodes := Normalizer.no_structured_nodes.
Local Abbreviation no_parseable_text := (Normalizer.no_parseable_text JSON_parse).

Lemma structured_data_not_nullish (response : value) :
  nullish (structured_data response) = false.
Proof.
  unfold Normalizer.structured_data.
  rewrite !opt_member_member.
  destruct (truthy (member "data" (member "result" response))) eqn:Ht.
  - now apply truthy_not_nullish.
  - reflexivity.
Qed.

(** The default architecture does not depend on the data it replaces. *)
Lemma default_architecture_data (data : value) (e : Env) :
  default_architecture data e = default_architecture (VObject []) e.
Proof. reflexivity. Qed.

Lemma parseAgentResponse_fallback (e : Env) (response : value) :
  nullish (resolved_data response) = false ->
  lacks_nodes (resolved_data response) = true ->
  Normalizer.parseAgentResponse JSON_parse e response = fallback e.
Proof.
  intros Hnull Hlacks. unfold Normalizer.parseAgentResponse.
  rewrite Hnull, Hlacks, default_architecture_data.
  unfold Normalizer.fallback. now destruct (default_architecture (VObject []) e).
Qed.

Lemma parseAgentResponse_verbatim (e : Env) (response : value) :
  nullish (resolved_data response) = false ->
  lacks_nodes (resolved_data response) = false ->
  Normalizer.parseAgentResponse JSON_parse e response
  = Returned (result_of (resolved_data response), e).
Proof.
  intros Hnull Hlacks. unfold Normalizer.parseAgentResponse.
  now rewrite Hnull, Hlacks.
Qed.

(** What step 4 returns: four nodes of the fixed types, carrying the first
    four ids generated by this call, and three connections wired to them. *)
Lemma fallback_shape (e : Env) :
  exists r e',
    fallback e = Returned (r, e') /\
    calls e' = 10 + calls e /\
    types_of (nodes r)
    = [VString "api-gateway"; VString "service"; VString "database";
       VString "cache"] /\
    ids_of (nodes r)
    = [VString (nth_id e 0); VString (nth_id e 1); VString (nth_id e 2);
       VString (nth_id e 3)] /\
    endpoints_of (connections r)
    = [(VString (nth_id e 0), VString (nth_id e 1));
       (VString (nth_id e 1), VString (nth_id e 2));
       (VString (nth_id e 1), VString (nth_id e 3))] /\
    ids_of (connections r)
    = [VString (nth_id e 7); VString (nth_id e 8); VString (nth_id e 9)].
Proof.
  eexists _, _. split; [reflexivity|]. cbn. repeat split.
Qed.

Lemma resolved_data_without_text (response : value) :
  no_parseable_text response ->
  resolved_data response = structured_data response.
Proof.
  intros Htext. unfold Normalizer.resolved_data.
  destruct (negb (truthy (member "nodes" (structured_data response)))); cbn;
    [|reflexivity].
  destruct Htext as [Hno | [[err Herr] | (text & Htext & Hfence & Hbrace)]].
  - now rewrite Hno.
  - destruct (truthy _); [|reflexivity]. now rewrite Herr.
  - destruct (truthy _); [|reflexivity].
    unfold Normalizer.text_payload. now rewrite Htext, Hfence, Hbrace.
Qed.

(** C3: for a response with neither structured data nor parseable text, the
    normaliser returns four nodes (api-gateway, service, database, cache, in
    this order) whose ids are the first four ids generated by this call, none
    of them empty, and three connections whose sources and targets are ids
    of the returned nodes: gateway to service, service to database, service
    to cache. *)
Theorem parseAgentResponse_default_architecture (e : Env) (response : value) :
  no_structured_nodes response ->
  no_parseable_text response ->
  exists r e',
    Normalizer.parseAgentResponse JSON_parse e response = Returned (r, e') /\
    length (ids_of (nodes r)) = 4 /\
    types_of (nodes r)
    = [VString "api-gateway"; VString "service"; VString "database";
       VString "cache"] /\
    ids_of (nodes r)
    = [VString (nth_id e 0); VString (nth_id e 1); VString (nth_id e 2);
       VString (nth_id e 3)] /\
    (forall k, nth_id e k <> "") /\
    endpoints_of (connections r)
    = [(VString (nth_id e 0), VString (nth_id e 1));
       (VString (nth_id e 1), VString (nth_id e 2));
       (VString (nth_id e 1), VString (nth_id e 3))] /\
    Forall (fun st => fst st ∈ ids_of (nodes r) /\ snd st ∈ ids_of (nodes r))
           (endpoints_of (connections r)).
Proof.
  intros Hdata Htext.
  pose proof (resolved_data_without_text response Htext) as Hres.
  destruct (fallback_shape e) as (r & e' & Hfb & _ & Htypes & Hids & Hends & _).
  exists r, e'. split.
  - rewrite parseAgentResponse_fallback; [exact Hfb| |].
    + rewrite Hres. apply structured_data_not_nullish.
    + now rewrite Hres.
  - split_and!; [now rewrite Hids | exact Htypes | exact Hids
                 | apply nth_id_nonempty | exact Hends |].
    rewrite Hends, Hids.
    repeat constructor; cbn; set_solver.
Qed.

(** A parse exception at step 2 or 3 leaves [data] as path 1 set it. *)
Lemma text_payload_throws (response : value) (text : string) :
  member "response" (member "result" response) = VString text ->
  (exists inner, fence_match text = Some inner /\ JSON_parse inner = None)
  \/ (fence_match text = None /\
      exists candidate,
        brace_candidate text = Some candidate /\ JSON_parse candidate = None) ->
  text_payload (structured_data response) response = Thrown SyntaxError.
Proof.
  intros Htext Hthrow. unfold Normalizer.text_payload, Normalizer.js_parse.
  rewrite Htext.
  destruct Hthrow as [(inner & Hfence & Hparse) | (Hfence & cand & Hbrace & Hparse)].
  - now rewrite Hfence, Hparse.
  - now rewrite Hfence, Hbrace, Hparse.
Qed.

(** C4, as amended: when the text's fenced block (step 2) or, with no fenced
    block, its brace substring (step 3) is rejected by [JSON.parse], the
    exception is raised inside the [try] block and caught there, [data] stays
    as path 1 left it (no data found), and the normaliser goes straight to
    step 4 and returns the default architecture: after a rejected fenced
    block the brace substring is not tried, and nothing is thrown to the
    caller. *)
Theorem parseAgentResponse_parse_exception (e : Env) (response : value)
    (text : string) :
  truthy (member "nodes" (structured_data response)) = false ->
  member "response" (member "result" response) = VString text ->
  (exists inner, fence_match text = Some inner /\ JSON_parse inner = None)
  \/ (fence_match text = None /\
      exists candidate,
        brace_candidate text = Some candidate /\ JSON_parse candidate = None) ->
  text_payload (structured_data response) response = Thrown SyntaxError /\
  resolved_data response = structured_data response /\
  Normalizer.parseAgentResponse JSON_parse e response = fallback e /\
  (forall err, Normalizer.parseAgentResponse JSON_parse e response <> Thrown err).
Proof.
  intros Hnodes Htext Hthrow.
  pose proof (text_payload_throws response text Htext Hthrow) as Hpayload.
  assert (Hres : resolved_data response = structured_data response).
  { apply resolved_data_without_text. right. left. eauto. }
  assert (Hfb : Normalizer.parseAgentResponse JSON_parse e response = fallback e).
  { apply parseAgentResponse_fallback.
    - rewrite Hres. apply structured_data_not_nullish.
    - rewrite Hres. unfold Normalizer.lacks_nodes. now rewrite Hnodes. }
  split_and!; [done..|].
  intros err. rewrite Hfb. discriminate.
Qed.

(** The shorter revision returns what path 1 of the longer one holds. *)
Lemma short_parseAgentResponse_structured (response : value) :
  LibUtils.parseAgentResponse response = result_of (structured_data response).
Proof.
  unfold LibUtils.parseAgentResponse, Normalizer.structured_data, js_or.
  rewrite !opt_member_member.
  now destruct (truthy (member "data" (member "result" response))).
Qed.

(** With no structured data the shorter revision returns empty arrays. *)
Lemma short_parseAgentResponse_no_data (response : value) :
  truthy (opt_member "data" (opt_member "result" response)) = false ->
  LibUtils.parseAgentResponse response
  = {| nodes := VArray []; connections := VArray [] |}.
Proof.
  intros Hdata. unfold LibUtils.parseAgentResponse, js_or. now rewrite Hdata.
Qed.

(** Where the revisions agree: on a response whose structured data carries
    a truthy [nodes] of non-zero length the longer revision returns what the
    shorter one returns, and generates no id. *)
Theorem parseAgentResponse_revisions_agree (e : Env) (response : value) :
  truthy (member "nodes" (structured_data response)) = true ->
  length_is_0 (member "nodes" (structured_data response)) = false ->
  Normalizer.parseAgentResponse JSON_parse e response
  = Returned (LibUtils.parseAgentResponse response, e).
Proof.
  intros Htruthy Hlen.
  assert (Hres : resolved_data response = structured_data response).
  { unfold Normalizer.resolved_data. now rewrite Htruthy. }
  rewrite parseAgentResponse_verbatim.
  - now rewrite Hres, short_parseAgentResponse_structured.
  - rewrite Hres. apply structured_data_not_nullish.
  - rewrite Hres. unfold Normalizer.lacks_nodes. now rewrite Htruthy, Hlen.
Qed.

End NormalizerFacts.

(** *** Instances on sample responses *)

Lemma parseAgentResponse_default_architecture_witness :
  let response := agent_response "I could not produce a diagram." in
  Normalizer.no_structured_nodes response /\
  Normalizer.no_parseable_text sample_parser response /\
  exists r e',
    Normalizer.parseAgentResponse sample_parser sample_env response
    = Returned (r, e') /\
    ids_of (nodes r)
    = [VString "1700000000000-a3j2h1g0f"; VString "1700000000000-b3j2h1g0f";
       VString "1700000000000-c3j2h1g0f"; VString "1700000000000-d3j2h1g0f"] /\
    endpoints_of (connections r)
    = [(VString "1700000000000-a3j2h1g0f", VString "1700000000000-b3j2h1g0f");
       (VString "1700000000000-b3j2h1g0f", VString "1700000000000-c3j2h1g0f");
       (VString "1700000000000-b3j2h1g0f", VString "1700000000000-d3j2h1g0f")].
Proof.
  assert (Htext : Normalizer.no_parseable_text sample_parser
                    (agent_response "I could not produce a diagram.")).
  { right. right. eexists. repeat split. }
  split; [reflexivity|]. split; [exact Htext|].
  destruct (parseAgentResponse_default_architecture sample_parser sample_env
              (agent_response "I could not produce a diagram."))
    as (r & e' & Hrun & _ & _ & Hids & _ & Hends & _); [reflexivity | exact Htext |].
  exists r, e'. split; [exact Hrun|]. split.
  - rewrite Hids. reflexivity.
  - rewrite Hends. reflexivity.
Defined.

Lemma parseAgentResponse_parse_exception_witness :
  let response := agent_response sample_answer in
  truthy (member "nodes" (Normalizer.structured_data response)) = false /\
  member "response" (member "result" response) = VString sample_answer /\
  fence_match sample_answer = Some "TBD" /\
  sample_parser "TBD" = None /\
  Normalizer.parseAgentResponse sample_parser sample_env response
  = Normalizer.fallback sample_env.
Proof.
  split_and!; [reflexivity..|].
  apply (parseAgentResponse_parse_exception sample_parser sample_env
           (agent_response sample_answer) sample_answer);
    [reflexivity | reflexivity |].
  left. exists "TBD". split; reflexivity.
Defined.

(** C4, as stated, fails for step 2: on an answer that quotes a JSON object
    and then holds a fenced block that is not JSON, [JSON.parse] rejects the
    fenced block, and the normaliser returns the default architecture; the
    next step of the resolution order, the brace substring, would have
    yielded the node [n1], and is not tried. *)
Lemma parseAgentResponse_parse_exception_counterexample :
  let response := agent_response sample_answer in
  fence_match sample_answer = Some "TBD" /\
  sample_parser "TBD" = None /\
  brace_candidate sample_answer = Some sample_json /\
  sample_parser sample_json = Some sample_payload /\
  Normalizer.lacks_nodes sample_payload = false /\
  Normalizer.resolution_order_spec sample_parser sample_env response
  = Returned (result_of sample_payload, sample_env) /\
  Normalizer.parseAgentResponse sample_parser sample_env response
  = Normalizer.fallback sample_env /\
  Normalizer.parseAgentResponse sample_parser sample_env response
  <> Normalizer.resolution_order_spec sample_parser sample_env response.
Proof.
  split_and!; [reflexivity..|].
  vm_compute. intros Heq. discriminate Heq.
Qed.

(** With a fenced block that parses, and with no fenced block, the code does
    what the resolution order says. *)
Example parseAgentResponse_fenced_block :
  let text := ("Here it is: ```json " ++ sample_json ++ " ``` Enjoy.")%string in
  fence_match text = Some sample_json /\
  Normalizer.parseAgentResponse sample_parser sample_env (agent_response text)
  = Returned (result_of sample_payload, sample_env).
Proof. split; reflexivity. Qed.

Example parseAgentResponse_brace_substring :
  let text := ("Plan: " ++ sample_json ++ " as requested.")%string in
  fence_match text = None /\
  brace_candidate text = Some sample_json /\
  Normalizer.parseAgentResponse sample_parser sample_env (agent_response text)
  = Returned (result_of sample_payload, sample_env).
Proof. repeat split; reflexivity. Qed.

(** A fenced block that holds the JSON literal [null] parses, and the read of
    [data.nodes] that follows the [try] block throws. *)
Example parseAgentResponse_null_payload :
  Normalizer.parseAgentResponse (table_parse [("null", VNull)]) sample_env
    (agent_response "```json null ```")
  = Thrown TypeError.
Proof. reflexivity. Qed.

Lemma parseAgentResponse_revisions_agree_witness :
  let response :=
    VObject [("status", VString "success");
             ("result", VObject [("response", VString "Done.");
                                 ("data", sample_payload)])] in
  truthy (member "nodes" (Normalizer.structured_data response)) = true /\
  length_is_0 (member "nodes" (Normalizer.structured_data response)) = false /\
  Normalizer.parseAgentResponse sample_parser sample_env response
  = Returned (LibUtils.parseAgentResponse response, sample_env) /\
  LibUtils.parseAgentResponse response
  = {| nodes := VArray [VObject [("id", VString "n1")]];
       connections := VArray [] |}.
Proof.
  split_and!; [reflexivity | reflexivity | | reflexivity].
  apply (parseAgentResponse_revisions_agree sample_parser sample_env);
    reflexivity.
Defined.

(** C9, as stated, fails: the revisions differ wherever the structured data
    carries no non-empty [nodes].  On an answer in prose the shorter one
    returns empty arrays and the longer one the four-node default
    architecture; on an answer that quotes a JSON object the shorter one
    returns empty arrays and the longer one the quoted nodes. *)
Lemma parseAgentResponse_revisions_counterexample :
  (let response := agent_response "I could not produce a diagram." in
   LibUtils.parseAgentResponse response
   = {| nodes := VArray []; connections := VArray [] |} /\
   Normalizer.parseAgentResponse sample_parser sample_env response
   = Normalizer.fallback sample_env /\
   (exists r e',
       Normalizer.fallback sample_env = Returned (r, e') /\
       length (ids_of (nodes r)) = 4) /\
   Normalizer.parseAgentResponse sample_parser sample_env response
   <> Returned (LibUtils.parseAgentResponse response, sample_env)) /\
  (let response := agent_response ("Plan: " ++ sample_json)%string in
   LibUtils.parseAgentResponse response
   = {| nodes := VArray []; connections := VArray [] |} /\
   Normalizer.parseAgentResponse sample_parser sample_env response
   = Returned ({| nodes := VArray [VObject [("id", VString "n1")]];
                  connections := VArray [] |}, sample_env)).
Proof.
  split.
  - split_and!; [reflexivity | reflexivity | |].
    + eexists _, _. split; reflexivity.
    + vm_compute. intros Heq. discriminate Heq.
  - split; reflexivity.
Qed.

Section RevisionsCompared.
Variable JSON_parse : string -> option value.

Local Abbreviation structured_data := Normalizer.structured_data.
Local Abbreviation resolved_data := (Normalizer.resolved_data JSON_parse).
Local Abbreviation lacks_nodes := Normalizer.lacks_nodes.

Lemma fallback_generates (e : Env) (r : Parsed) :
  Normalizer.fallback e <> Returned (r, e).
Proof.
  unfold Normalizer.fallback. intros Heq.
  injection Heq as _ Henv. apply (f_equal calls) in Henv.
  cbn in Henv. lia.
Qed.

Lemma result_of_nodes (data : value) :
  lacks_nodes data = false ->
  length_is_0 (nodes (result_of data)) = false.
Proof.
  unfold Normalizer.lacks_nodes, result_of, js_or. cbn [nodes].
  destruct (truthy (member "nodes" data)); cbn; [tauto|discriminate].
Qed.

(** C9, as amended: the shorter revision returns the nodes and connections
    of the structured data (or empty arrays in their place); the longer
    revision returns what the shorter one returns,
    with no id generated, exactly when the structured data carries a truthy
    [nodes] of non-zero length.  With a truthy [nodes] of length 0 the
    shorter one returns that [nodes] and the longer one the default
    architecture.  With no truthy [nodes] the shorter one returns the empty
    array, and the longer one throws a [TypeError] when the text step left
    [null], returns the resolved data's nodes and connections when that data
    has a non-empty [nodes], and returns the default architecture
    otherwise. *)
Theorem parseAgentResponse_revisions_compared (e : Env) (response : value) :
  let n := member "nodes" (structured_data response) in
  let long := Normalizer.parseAgentResponse JSON_parse e response in
  let short := LibUtils.parseAgentResponse response in
  short = result_of (structured_data response) /\
  (long = Returned (short, e) <-> truthy n = true /\ length_is_0 n = false) /\
  (truthy n = true -> length_is_0 n = true ->
   nodes short = n /\ long = Normalizer.fallback e) /\
  (truthy n = false ->
   nodes short = VArray [] /\
   ((nullish (resolved_data response) = true /\ long = Thrown TypeError) \/
    (nullish (resolved_data response) = false /\
     lacks_nodes (resolved_data response) = false /\
     long = Returned (result_of (resolved_data response), e)) \/
    (nullish (resolved_data response) = false /\
     lacks_nodes (resolved_data response) = true /\
     long = Normalizer.fallback e))).
Proof.
  intros n long short.
  assert (Hshort : nodes short = js_or n (VArray [])).
  { subst short. now rewrite short_parseAgentResponse_structured. }
  assert (Hempty : truthy n = true -> length_is_0 n = true ->
                   nodes short = n /\ long = Normalizer.fallback e).
  { intros Htruthy Hlength. split.
    - rewrite Hshort. unfold js_or. now rewrite Htruthy.
    - assert (Hres : resolved_data response = structured_data response).
      { unfold Normalizer.resolved_data. fold n. now rewrite Htruthy. }
      apply parseAgentResponse_fallback.
      + rewrite Hres. apply structured_data_not_nullish.
      + rewrite Hres. unfold Normalizer.lacks_nodes. fold n.
        now rewrite Htruthy, Hlength. }
  assert (Hnone : truthy n = false ->
                  nodes short = VArray [] /\
                  ((nullish (resolved_data response) = true
                    /\ long = Thrown TypeError) \/
                   (nullish (resolved_data response) = false /\
                    lacks_nodes (resolved_data response) = false /\
                    long = Returned (result_of (resolved_data response), e)) \/
                   (nullish (resolved_data response) = false /\
                    lacks_nodes (resolved_data response) = true /\
                    long = Normalizer.fallback e))).
  { intros Hfalsy. split.
    - rewrite Hshort. unfold js_or. now rewrite Hfalsy.
    - destruct (nullish (resolved_data response)) eqn:Hnull.
      + left. split; [reflexivity|]. subst long.
        unfold Normalizer.parseAgentResponse. now rewrite Hnull.
      + right.
        destruct (lacks_nodes (resolved_data response)) eqn:Hlacks.
        * right. split_and!; [reflexivity..|].
          now apply parseAgentResponse_fallback.
        * left. split_and!; [reflexivity..|].
          now apply parseAgentResponse_verbatim. }
  split_and!;
    [apply short_parseAgentResponse_structured| |exact Hempty|exact Hnone].
  split.
  - intros Hsame.
    destruct (truthy n) eqn:Htruthy.
    + destruct (length_is_0 n) eqn:Hlength; [|now split].
      destruct (Hempty eq_refl eq_refl) as [_ Hfall].
      rewrite Hfall in Hsame. now apply fallback_generates in Hsame.
    + destruct (Hnone eq_refl)
        as [Hnodes [[_ Hthrow] | [(_ & Hlacks & Hret) | (_ & _ & Hfall)]]].
      * rewrite Hthrow in Hsame. discriminate.
      * rewrite Hret in Hsame.
        assert (Hresult : result_of (resolved_data response) = short)
          by congruence.
        apply result_of_nodes in Hlacks.
        rewrite Hresult, Hnodes in Hlacks. discriminate.
      * rewrite Hfall in Hsame. now apply fallback_generates in Hsame.
  - intros [Htruthy Hlength].
    now apply parseAgentResponse_revisions_agree.
Qed.

End RevisionsCompared.

(** * Further properties of the code *)

(** ** Storage: lookup after [save] and [delete], unique ids, [create] *)

Lemma list_find_filter_keep {A : Type} (P Q : A -> Prop)
    `{!forall x, Decision (P x)} `{!forall x, Decision (Q x)} (l : list A) :
  (forall x, P x -> Q x) ->
  snd <$> list_find P (filter Q l) = snd <$> list_find P l.
Proof.
  intros HPQ. induction l as [|a l IH]; [done|].
  rewrite filter_cons. destruct (decide (Q a)) as [HQ|HQ]; cbn.
  - destruct (decide (P a)); [done|].
    rewrite <- !option_fmap_compose. cbn.
    destruct (list_find P (filter Q l)) as [[]|],
             (list_find P l) as [[]|]; cbn in *; congruence.
  - rewrite decide_False by (intros HP; now apply HQ, HPQ).
    rewrite <- !option_fmap_compose. cbn.
    destruct (list_find P (filter Q l)) as [[]|],
             (list_find P l) as [[]|]; cbn in *; congruence.
Qed.

Section StorageMore.
Context {num : Type}.
Implicit Types (p q : Project.t num) (ls : @ProjectStorage.LocalStorage num).
Implicit Types (l : list (Project.t num)).

Lemma list_find_insert_neither (P : Project.t num -> Prop)
    `{!forall x, Decision (P x)} l i x y :
  l !! i = Some y -> ~ P x -> ~ P y ->
  list_find P (<[i:=x]> l) = list_find P l.
Proof.
  revert i. induction l as [|a l IH]; intros i Hi Hx Hy; [done|].
  destruct i as [|i]; csimpl in *.
  - injection Hi as ->. now rewrite !decide_False by done.
  - destruct (decide (P a)); [done|]. now rewrite (IH i).
Qed.

Lemma list_find_snoc_not (P : Project.t num -> Prop)
    `{!forall x, Decision (P x)} l x :
  ~ P x -> snd <$> list_find P (l ++ [x]) = snd <$> list_find P l.
Proof.
  intros Hx. destruct (list_find P l) as [[i y]|] eqn:Hfind.
  - now rewrite (list_find_app_l _ _ _ _ _ Hfind).
  - rewrite list_find_app_r by done. cbn. now rewrite decide_False by done.
Qed.

Lemma getById_save_other now p ls id' :
  id' <> Project.id p ->
  ProjectStorage.getById id' (ProjectStorage.save now p ls)
  = ProjectStorage.getById id' ls.
Proof.
  intros Hne. unfold ProjectStorage.getById.
  destruct (ProjectStorage.findIndex (Project.id p) (ProjectStorage.getAll ls))
    as [i|] eqn:Hfind.
  - destruct (findIndex_Some _ _ _ Hfind) as (q & Hq & Hid & _).
    unfold ProjectStorage.save. rewrite Hfind. cbn.
    rewrite (list_find_insert_neither _ _ i _ q); [done|done| |].
    + cbn. congruence.
    + congruence.
  - rewrite (save_not_found _ _ _ Hfind).
    apply list_find_snoc_not. congruence.
Qed.

(** What [getById] finds after [delete], for every id; and deleting twice is
    deleting once, so deleting an id that is not stored changes no record. *)
Theorem getById_after_delete id ls id' :
  ProjectStorage.getById id' (ProjectStorage.delete id ls)
  = (if decide (id' = id) then None else ProjectStorage.getById id' ls) /\
  ProjectStorage.delete id (ProjectStorage.delete id ls)
  = ProjectStorage.delete id ls /\
  (ProjectStorage.getById id ls = None ->
   ProjectStorage.getAll (ProjectStorage.delete id ls) = ProjectStorage.getAll ls).
Proof.
  split_and!.
  - unfold ProjectStorage.getById, ProjectStorage.delete. cbn.
    destruct (decide (id' = id)) as [->|Hne].
    + apply fmap_None, list_find_None, Forall_forall.
      intros x Hx Hid. apply list_elem_of_filter in Hx as [Hx _]. now apply Hx.
    + apply list_find_filter_keep. intros x Hx. congruence.
  - unfold ProjectStorage.delete. cbn. f_equal.
    induction (ProjectStorage.getAll ls) as [|a l IH]; [done|].
    rewrite filter_cons. destruct (decide (Project.id a <> id)); [|done].
    rewrite filter_cons_True by done. now rewrite IH.
  - unfold ProjectStorage.getById, ProjectStorage.delete. cbn.
    intros Hnone. apply fmap_None, list_find_None in Hnone.
    induction Hnone as [|a l Ha _ IH]; [done|].
    rewrite filter_cons_True by done. now rewrite IH.
Qed.

(** [save] and [delete] keep the stored ids pairwise distinct. *)
Theorem storage_keeps_ids_unique now p id ls :
  NoDup (stored_ids ls) ->
  NoDup (stored_ids (ProjectStorage.save now p ls)) /\
  NoDup (stored_ids (ProjectStorage.delete id ls)).
Proof.
  unfold stored_ids. intros Hnodup. split.
  - destruct (ProjectStorage.findIndex (Project.id p) (ProjectStorage.getAll ls))
      as [i|] eqn:Hfind.
    + destruct (findIndex_Some _ _ _ Hfind) as (q & Hq & Hid & _).
      unfold ProjectStorage.save. rewrite Hfind. cbn.
      change (map Project.id (<[i:=ProjectStorage.with_updated_at p now]>
                                (ProjectStorage.getAll ls)))
        with (Project.id <$> <[i:=ProjectStorage.with_updated_at p now]>
                                (ProjectStorage.getAll ls)).
      rewrite list_fmap_insert. cbn.
      rewrite list_insert_id; [exact Hnodup|].
      rewrite list_lookup_fmap, Hq. cbn. now rewrite Hid.
    + rewrite (save_not_found _ _ _ Hfind).
      pose proof (findIndex_None _ _ Hfind) as Hall.
      rewrite map_app. apply NoDup_app. split_and!.
      * exact Hnodup.
      * intros x Hx Hin. cbn in Hin. apply list_elem_of_singleton in Hin as ->.
        apply list_elem_of_In, in_map_iff in Hx as (q & Hq & Hin).
        apply list_elem_of_In in Hin.
        eapply Forall_forall in Hall; eauto.
      * cbn. apply NoDup_singleton.
  - unfold ProjectStorage.delete. cbn.
    refine (sublist_NoDup _ _ Hnodup _).
    change (sublist
      (Project.id <$> filter (fun r => Project.id r <> id) (ProjectStorage.getAll ls))
      (Project.id <$> ProjectStorage.getAll ls)).
    apply fmap_sublist, sublist_filter.
Qed.

(** A project created under an id that is not stored yet is appended as
    built, and is what [getById] then finds under its id. *)
Theorem create_fresh_id e created updated saved name ls :
  ProjectStorage.getById (fst (generateId e)) ls = None ->
  let project := fst (fst (ProjectStorage.create e created updated saved name ls)) in
  let ls' := snd (ProjectStorage.create e created updated saved name ls) in
  Project.id project = fst (generateId e) /\
  Project.id project <> "" /\
  ProjectStorage.getAll ls' = ProjectStorage.getAll ls ++ [project] /\
  ProjectStorage.getById (Project.id project) ls' = Some project /\
  Project.created_at project = created /\
  Project.updated_at project = updated /\
  Project.status project = draft.
Proof.
  intros Hfresh.
  set (project :=
    {| Project.id := fst (generateId e);
       Project.name := name;
       Project.requirements := "";
       Project.audience := technical;
       Project.nodes := [];
       Project.connections := [];
       Project.status := draft;
       Project.created_at := created;
       Project.updated_at := updated;
       Project.versions := @nil (ProjectVersion.t num) |}).
  change (ProjectStorage.create e created updated saved name ls)
    with (project, tick e, ProjectStorage.save saved project ls).
  cbn [fst snd].
  assert (Hnone : ProjectStorage.getById (Project.id project) ls = None)
    by exact Hfresh.
  split_and!; try reflexivity.
  - apply generateId_nonempty.
  - apply save_not_found.
    unfold ProjectStorage.getById in Hnone. apply fmap_None in Hnone.
    unfold ProjectStorage.findIndex. now rewrite Hnone.
  - rewrite getById_save. now rewrite Hnone.
Qed.

End StorageMore.

(** ** What is read back from the stored text *)

Lemma JSON_stable_with_updated_at (p : Project.t float) (now : string) :
  JSON_stable p -> JSON_stable (ProjectStorage.with_updated_at p now).
Proof.
  unfold JSON_stable, JSON_image, as_read, map_project. cbn.
  intros Hstable. injection Hstable as Hnodes Hversions.
  now rewrite Hnodes, Hversions.
Qed.

(** The code reads [-0] back as [0]: the record found after saving a
    project with a node at [(-0, 100)] has the node at [(0, 100)].  With
    the node at [(100, 250.5)] the project is one JSON carries unchanged. *)
Example getById_read_back_negative_zero :
  Point.x (SystemNode.position (node_at "a" (-0)%float 100%float))
  <> 0%float /\
  (Project.nodes
   <$> getById_read_back "p3"
         (ProjectStorage.save "2025-06-01T12:00:00.000Z" negative_zero_project
            None))
  = Some [node_at "a" (Some 0%float) (Some 100%float)] /\
  ~ JSON_stable negative_zero_project /\
  JSON_stable
    (Interaction.with_nodes negative_zero_project
       [node_at "a" 100%float 250.5%float]).
Proof.
  split_and!; [| | |reflexivity].
  - cbn. intros Heq.
    apply (f_equal (fun x => PrimFloat.classify x)) in Heq.
    vm_compute in Heq. discriminate.
  - vm_compute. reflexivity.
  - unfold JSON_stable. intros Heq.
    apply (f_equal
             (fun q : Project.t (option float) =>
                match Project.nodes q with
                | n :: _ =>
                    PrimFloat.classify
                    <$> Point.x (SystemNode.position n)
                | [] => None
                end)) in Heq.
    vm_compute in Heq. discriminate.
Qed.

(** What [getById] reads back after [save], the JSON text in between
    included: under the saved id the JSON image of the saved project
    (stamped when it replaced a record), under any other id what was read
    before; and the image is the saved project itself, every number
    present, when its numbers are the ones JSON carries unchanged. *)
Theorem getById_after_save (now : string) (p : Project.t float)
    (ls : @ProjectStorage.LocalStorage float) (id' : string) :
  let written :=
    match ProjectStorage.getById (Project.id p) ls with
    | Some _ => ProjectStorage.with_updated_at p now
    | None => p
    end in
  getById_read_back id' (ProjectStorage.save now p ls)
  = (if decide (id' = Project.id p) then Some (JSON_image written)
     else getById_read_back id' ls) /\
  (JSON_stable p ->
   getById_read_back (Project.id p) (ProjectStorage.save now p ls)
   = Some (as_read written)).
Proof.
  intros written. unfold getById_read_back. split.
  - destruct (decide (id' = Project.id p)) as [->|Hother].
    + now rewrite getById_save.
    + now rewrite getById_save_other.
  - intros Hstable. rewrite getById_save. cbn. f_equal. subst written.
    destruct (ProjectStorage.getById (Project.id p) ls); [|exact Hstable].
    now apply JSON_stable_with_updated_at.
Qed.


Lemma storage_keeps_ids_unique_witness :
  let ls : ProjectStorage.LocalStorage := Some [sample_project] in
  NoDup (stored_ids ls) /\
  NoDup (stored_ids (ProjectStorage.save sample_clock sample_project ls)) /\
  NoDup (stored_ids (ProjectStorage.delete "p1" ls)).
Proof.
  assert (Hids : NoDup (stored_ids (Some [sample_project])))
    by apply NoDup_singleton.
  split; [exact Hids|].
  exact (storage_keeps_ids_unique sample_clock sample_project "p1" _ Hids).
Defined.

Lemma create_fresh_id_witness :
  let ls : ProjectStorage.LocalStorage := Some [sample_project] in
  let run :=
    ProjectStorage.create sample_env sample_clock sample_clock sample_clock
      "Chat service" ls in
  ProjectStorage.getById (fst (generateId sample_env)) ls = None /\
  Project.id (fst (fst run)) = "1700000000000-a3j2h1g0f" /\
  ProjectStorage.getAll (snd run) = [sample_project; fst (fst run)].
Proof.
  pose proof (create_fresh_id sample_env sample_clock sample_clock sample_clock
                "Chat service" (Some [sample_project]) eq_refl) as Hrun.
  cbv zeta in Hrun. destruct Hrun as (Hid & _ & Hall & _).
  split_and!; [reflexivity | rewrite Hid; reflexivity | exact Hall].
Defined.


(** ** Normaliser: when it throws, what it returns, the text steps *)

Section NormalizerMore.
Variable JSON_parse : string -> option value.

Local Abbreviation structured_data := Normalizer.structured_data.
Local Abbreviation text_payload := (Normalizer.text_payload JSON_parse).
Local Abbreviation resolved_data := (Normalizer.resolved_data JSON_parse).
Local Abbreviation lacks_nodes := Normalizer.lacks_nodes.

Lemma resolved_data_nullish (response : value) :
  nullish (resolved_data response) = true <->
  truthy (member "nodes" (structured_data response)) = false /\
  truthy (opt_member "response" (opt_member "result" response)) = true /\
  exists v, text_payload (structured_data response) response = Returned v
            /\ nullish v = true.
Proof.
  unfold Normalizer.resolved_data.
  pose proof (structured_data_not_nullish response) as Hdata.
  destruct (truthy (member "nodes" (structured_data response))); cbn.
  - rewrite Hdata. split; [discriminate|]. now intros [? _].
  - destruct (truthy (opt_member "response" (opt_member "result" response))).
    + destruct (text_payload (structured_data response) response) as [v|err]; cbn.
      * split; [eauto|]. intros (_ & _ & v' & [= <-] & Hv). exact Hv.
      * rewrite Hdata. split; [discriminate|]. now intros (_ & _ & v & ? & _).
    + rewrite Hdata. split; [discriminate|]. now intros (_ & ? & _).
Qed.

(** The normaliser throws in one case only: the structured data has no
    [nodes], the response has text, and the fenced block or brace substring
    of the text parses to [null]; the read of [data.nodes] after the [try]
    block then raises a [TypeError].  (A [SyntaxError] never leaves it.) *)
Theorem parseAgentResponse_throws_iff (e : Env) (response : value)
    (err : JsError) :
  Normalizer.parseAgentResponse JSON_parse e response = Thrown err <->
  err = TypeError /\
  truthy (member "nodes" (structured_data response)) = false /\
  truthy (opt_member "response" (opt_member "result" response)) = true /\
  exists v, text_payload (structured_data response) response = Returned v
            /\ nullish v = true.
Proof.
  rewrite <- resolved_data_nullish.
  unfold Normalizer.parseAgentResponse.
  destruct (nullish (resolved_data response)).
  - split; [intros [= <-]; done | intros [-> _]; done].
  - destruct (lacks_nodes (resolved_data response)).
    + destruct (Normalizer.default_architecture _ _). split; [discriminate|].
      now intros [_ ?].
    + split; [discriminate|]. now intros [_ ?].
Qed.

(** Whatever the response, a result the normaliser returns has a truthy,
    non-empty [nodes]; either no id was generated and the result is read off
    the resolved data, or ten ids were generated and the result is the
    default architecture. *)
Theorem parseAgentResponse_returns_nodes (e e' : Env) (response : value)
    (r : Parsed) :
  Normalizer.parseAgentResponse JSON_parse e response = Returned (r, e') ->
  truthy (nodes r) = true /\
  length_is_0 (nodes r) = false /\
  ((e' = e /\ r = result_of (resolved_data response)
    /\ lacks_nodes (resolved_data response) = false)
   \/ (calls e' = 10 + calls e
       /\ Returned (r, e') = Normalizer.fallback e
       /\ lacks_nodes (resolved_data response) = true)).
Proof.
  unfold Normalizer.parseAgentResponse.
  destruct (nullish (resolved_data response)); [discriminate|].
  destruct (lacks_nodes (resolved_data response)) eqn:Hlacks.
  - rewrite default_architecture_data.
    destruct (fallback_shape e) as (r0 & e0 & Hfb & Hcalls & _).
    unfold Normalizer.fallback in *.
    destruct (Normalizer.default_architecture (VObject []) e) as [d e1] eqn:Hd.
    cbn [fst snd] in Hfb. intros [= <- <-].
    injection Hfb as <- <-.
    split_and!; [| |right; split_and!; [exact Hcalls|reflexivity|reflexivity]].
    + unfold Normalizer.default_architecture in Hd. cbn in Hd.
      injection Hd as <- _. reflexivity.
    + unfold Normalizer.default_architecture in Hd. cbn in Hd.
      injection Hd as <- _. reflexivity.
  - intros [= <- <-].
    unfold Normalizer.lacks_nodes in Hlacks.
    apply orb_false_iff in Hlacks as [Htruthy Hlen].
    apply negb_false_iff in Htruthy.
    assert (Hn : nodes (result_of (resolved_data response))
                 = member "nodes" (resolved_data response)).
    { unfold result_of, js_or. cbn. now rewrite Htruthy. }
    rewrite Hn.
    split_and!; [exact Htruthy | exact Hlen |].
    left. split_and!; reflexivity.
Qed.

(** Steps 2 and 3 when they succeed: with no [nodes] in the structured data,
    a fenced block that parses, or with no fenced block a brace substring
    that parses, to data with a non-empty [nodes] is returned as the result,
    and no id is generated.  A fenced block takes precedence over braces. *)
Theorem parseAgentResponse_text_payload (e : Env) (response : value)
    (text : string) (data : value) :
  truthy (member "nodes" (structured_data response)) = false ->
  member "response" (member "result" response) = VString text ->
  (exists inner, fence_match text = Some inner /\ JSON_parse inner = Some data)
  \/ (fence_match text = None /\
      exists candidate,
        brace_candidate text = Some candidate
        /\ JSON_parse candidate = Some data) ->
  nullish data = false ->
  lacks_nodes data = false ->
  Normalizer.parseAgentResponse JSON_parse e response
  = Returned (result_of data, e).
Proof.
  intros Hnodes Htext Hfound Hnull Hlacks.
  assert (Hpayload : text_payload (structured_data response) response
                     = Returned data).
  { unfold Normalizer.text_payload, Normalizer.js_parse. rewrite Htext.
    destruct Hfound as [(inner & Hf & Hp) | (Hf & cand & Hb & Hp)].
    - now rewrite Hf, Hp.
    - now rewrite Hf, Hb, Hp. }
  assert (Htruthy : truthy (opt_member "response" (opt_member "result" response))
                    = true).
  { rewrite !opt_member_member, Htext.
    destruct Hfound as [(inner & Hf & _) | (_ & cand & Hb & _)];
      destruct text; try discriminate; reflexivity. }
  assert (Hres : resolved_data response = data).
  { unfold Normalizer.resolved_data. now rewrite Hnodes, Htruthy, Hpayload. }
  rewrite parseAgentResponse_verbatim; rewrite Hres; done.
Qed.

End NormalizerMore.

Lemma parseAgentResponse_returns_nodes_witness :
  let response := agent_response ("Plan: " ++ sample_json)%string in
  Normalizer.parseAgentResponse sample_parser sample_env response
  = Returned (result_of sample_payload, sample_env) /\
  truthy (nodes (result_of sample_payload)) = true /\
  length_is_0 (nodes (result_of sample_payload)) = false.
Proof.
  assert (Hrun : Normalizer.parseAgentResponse sample_parser sample_env
                   (agent_response ("Plan: " ++ sample_json)%string)
                 = Returned (result_of sample_payload, sample_env))
    by reflexivity.
  destruct (parseAgentResponse_returns_nodes sample_parser _ _ _ _ Hrun)
    as (Htruthy & Hlength & _).
  split_and!; [exact Hrun | exact Htruthy | exact Hlength].
Defined.

Lemma parseAgentResponse_text_payload_witness :
  let response := agent_response fenced_answer in
  truthy (member "nodes" (Normalizer.structured_data response)) = false /\
  member "response" (member "result" response) = VString fenced_answer /\
  fence_match fenced_answer = Some sample_json /\
  sample_parser sample_json = Some sample_payload /\
  nullish sample_payload = false /\
  Normalizer.lacks_nodes sample_payload = false /\
  Normalizer.parseAgentResponse sample_parser sample_env response
  = Returned (result_of sample_payload, sample_env).
Proof.
  split_and!; [reflexivity..|].
  apply (parseAgentResponse_text_payload sample_parser sample_env
           (agent_response fenced_answer) fenced_answer sample_payload);
    [reflexivity | reflexivity | | reflexivity | reflexivity].
  left. exists sample_json. split; reflexivity.
Defined.


(** ** Viewport fitter and zoom clamp, in exact arithmetic *)

Lemma Math_min_list_lower (x : Q) (xs : list Q) (y : Q) :
  y ∈ x :: xs -> (Math_min_list x xs <= y)%Q.
Proof.
  unfold Math_min_list. revert x.
  induction xs as [|a xs IH]; intros x Hy; cbn.
  - apply list_elem_of_singleton in Hy as ->. apply Qle_refl.
  - apply elem_of_cons in Hy as [->|Hy].
    + eapply Qle_trans; [apply (Math_min_list_le (Qmin x a) xs)|].
      apply Q.le_min_l.
    + apply elem_of_cons in Hy as [->|Hy].
      * eapply Qle_trans; [apply (Math_min_list_le (Qmin x a) xs)|].
        apply Q.le_min_r.
      * apply IH. now right.
Qed.

Lemma Math_max_list_upper (x : Q) (xs : list Q) (y : Q) :
  y ∈ x :: xs -> (y <= Math_max_list x xs)%Q.
Proof.
  unfold Math_max_list. revert x.
  induction xs as [|a xs IH]; intros x Hy; cbn.
  - apply list_elem_of_singleton in Hy as ->. apply Qle_refl.
  - apply elem_of_cons in Hy as [->|Hy].
    + eapply Qle_trans; [|apply (Math_max_list_ge (Qmax x a) xs)].
      apply Q.le_max_l.
    + apply elem_of_cons in Hy as [->|Hy].
      * eapply Qle_trans; [|apply (Math_max_list_ge (Qmax x a) xs)].
        apply Q.le_max_r.
      * apply IH. now right.
Qed.

Lemma fitToView_zoom_positive (nodes : list (SystemNode.t Q))
    (containerWidth containerHeight padding : Q) :
  (0 < containerWidth)%Q -> (0 < containerHeight)%Q -> (0 <= padding)%Q ->
  (0 < CanvasUtils.zoom
         (CanvasUtils.fitToView nodes containerWidth containerHeight padding))%Q.
Proof.
  intros HW HH Hpad. destruct nodes as [|n ns]; [reflexivity|].
  set (c := CanvasUtils.content n ns padding).
  destruct (content_lower_bound n ns padding) as [Hw Hh]. fold c in Hw, Hh.
  change (CanvasUtils.zoom
            (CanvasUtils.fitToView (n :: ns) containerWidth containerHeight
               padding))
    with (Qmin (Qmin (containerWidth / CanvasUtils.contentWidth c)
                     (containerHeight / CanvasUtils.contentHeight c)) 1).
  subst c.
  apply Q.min_glb_lt; [apply Q.min_glb_lt|reflexivity].
  - apply Qlt_shift_div_l; lra.
  - apply Qlt_shift_div_l; lra.
Qed.

(** The zoom [fitToView] returns never exceeds 1, and is positive for a
    viewport of positive size and a non-negative padding. *)
Theorem fitToView_zoom_range (nodes : list (SystemNode.t Q))
    (containerWidth containerHeight padding : Q) :
  (0 < containerWidth)%Q -> (0 < containerHeight)%Q -> (0 <= padding)%Q ->
  let v := CanvasUtils.fitToView nodes containerWidth containerHeight padding in
  (0 < CanvasUtils.zoom v)%Q /\ (CanvasUtils.zoom v <= 1)%Q.
Proof.
  intros HW HH Hpad. split.
  - now apply fitToView_zoom_positive.
  - destruct nodes as [|n ns]; [discriminate|].
    change (CanvasUtils.zoom
              (CanvasUtils.fitToView (n :: ns) containerWidth containerHeight
                 padding))
      with (Qmin (Qmin (containerWidth
                        / CanvasUtils.contentWidth
                            (CanvasUtils.content n ns padding))
                       (containerHeight
                        / CanvasUtils.contentHeight
                            (CanvasUtils.content n ns padding))) 1).
    apply Q.le_min_r.
Qed.

Lemma fitToView_zoom_range_witness :
  let v := CanvasUtils.fitToView (Project.nodes sample_project)
             1200%Q 800%Q 50%Q in
  (0 < 1200)%Q /\ (0 < 800)%Q /\ (0 <= 50)%Q /\
  (0 < CanvasUtils.zoom v)%Q /\ (CanvasUtils.zoom v <= 1)%Q.
Proof.
  split_and!; [reflexivity | reflexivity | discriminate | |];
    apply (fitToView_zoom_range (Project.nodes sample_project) 1200%Q 800%Q 50%Q);
    first [reflexivity | discriminate].
Defined.

(** One axis of the framing: a box of extent [foot] at [x], inside the
    content box from [mn - pad] to [mx + pad + foot], scaled by [z] and
    centred in a viewport of extent [W] that the scaled content fits. *)
Lemma frame_axis (W pad foot mn mx x z : Q) :
  (0 <= pad)%Q -> (0 <= foot)%Q -> (mn <= x)%Q -> (x <= mx)%Q -> (0 < z)%Q ->
  (z * ((mx + pad + foot) - (mn - pad)) <= W)%Q ->
  (0 <= x * z + ((W - ((mx + pad + foot) - (mn - pad)) * z) / 2 - (mn - pad) * z)
   /\ x * z + ((W - ((mx + pad + foot) - (mn - pad)) * z) / 2 - (mn - pad) * z)
      + foot * z <= W)%Q.
Proof.
  intros Hpad Hfoot Hmn Hmx Hz Hfit.
  assert (H1 : (0 <= (x - mn + pad) * z)%Q)
    by (apply Qmult_le_0_compat; lra).
  assert (H2 : (0 <= (mx - x + pad) * z)%Q)
    by (apply Qmult_le_0_compat; lra).
  assert (H3 : (0 <= (W - z * ((mx + pad + foot) - (mn - pad))) / 2)%Q)
    by (apply Qle_shift_div_l; lra).
  assert (E1 :
    (x * z + ((W - ((mx + pad + foot) - (mn - pad)) * z) / 2 - (mn - pad) * z)
     == (x - mn + pad) * z
        + (W - z * ((mx + pad + foot) - (mn - pad))) / 2)%Q) by field.
  assert (E2 :
    (x * z + ((W - ((mx + pad + foot) - (mn - pad)) * z) / 2 - (mn - pad) * z)
     + foot * z
     == W - ((mx - x + pad) * z
             + (W - z * ((mx + pad + foot) - (mn - pad))) / 2))%Q) by field.
  split.
  - rewrite E1.
    generalize dependent ((x - mn + pad) * z)%Q.
    generalize dependent ((W - z * (mx + pad + foot - (mn - pad))) / 2)%Q.
    intros. lra.
  - rewrite E2.
    generalize dependent ((mx - x + pad) * z)%Q.
    generalize dependent ((W - z * (mx + pad + foot - (mn - pad))) / 2)%Q.
    intros. lra.
Qed.

Lemma zoom_times_content (W c z : Q) :
  (0 < c)%Q -> (z <= W / c)%Q -> (z * c <= W)%Q.
Proof.
  intros Hc Hz.
  assert (Heq : (W / c * c == W)%Q) by (field; lra).
  rewrite <- Heq. apply Qmult_le_compat_r; lra.
Qed.

(** Fit-to-view frames every node: in the view [fitToView] returns, for a
    viewport of positive size and a non-negative padding, the 300 by 150 box
    of each node, placed by [canvasToScreen] and scaled by the zoom, lies
    inside the viewport. *)
Theorem fitToView_frames_nodes (nodes : list (SystemNode.t Q))
    (containerWidth containerHeight padding : Q) (m : SystemNode.t Q) :
  (0 < containerWidth)%Q -> (0 < containerHeight)%Q -> (0 <= padding)%Q ->
  m ∈ nodes ->
  let v := CanvasUtils.fitToView nodes containerWidth containerHeight padding in
  let s := CanvasUtils.canvasToScreen
             (Point.x (SystemNode.position m)) (Point.y (SystemNode.position m))
             (CanvasUtils.pan v) (CanvasUtils.zoom v) in
  (0 <= Point.x s)%Q /\
  (Point.x s + 300 * CanvasUtils.zoom v <= containerWidth)%Q /\
  (0 <= Point.y s)%Q /\
  (Point.y s + 150 * CanvasUtils.zoom v <= containerHeight)%Q.
Proof.
  intros HW HH Hpad Hm.
  destruct nodes as [|n ns]; [now apply elem_of_nil in Hm|].
  pose proof (fitToView_zoom_positive (n :: ns) containerWidth containerHeight
                padding HW HH Hpad) as Hz.
  destruct (content_lower_bound n ns padding) as [Hw Hh].
  set (xs := map (fun n => Point.x (SystemNode.position n)) ns).
  set (ys := map (fun n => Point.y (SystemNode.position n)) ns).
  assert (Hx : Point.x (SystemNode.position m)
               ∈ Point.x (SystemNode.position n) :: xs).
  { apply elem_of_cons in Hm as [->|Hm]; [left|right].
    apply list_elem_of_In.
    apply (in_map (fun n => Point.x (SystemNode.position n))).
    now apply list_elem_of_In. }
  assert (Hy : Point.y (SystemNode.position m)
               ∈ Point.y (SystemNode.position n) :: ys).
  { apply elem_of_cons in Hm as [->|Hm]; [left|right].
    apply list_elem_of_In.
    apply (in_map (fun n => Point.y (SystemNode.position n))).
    now apply list_elem_of_In. }
  pose proof (Math_min_list_lower _ _ _ Hx) as Hxmin.
  pose proof (Math_max_list_upper _ _ _ Hx) as Hxmax.
  pose proof (Math_min_list_lower _ _ _ Hy) as Hymin.
  pose proof (Math_max_list_upper _ _ _ Hy) as Hymax.
  set (z := CanvasUtils.zoom
              (CanvasUtils.fitToView (n :: ns) containerWidth containerHeight
                 padding)) in *.
  assert (Hzw : (z <= containerWidth
                      / CanvasUtils.contentWidth (CanvasUtils.content n ns padding))%Q).
  { subst z. cbn -[CanvasUtils.content Qmin Qdiv].
    eapply Qle_trans; [apply Q.le_min_l|apply Q.le_min_l]. }
  assert (Hzh : (z <= containerHeight
                      / CanvasUtils.contentHeight (CanvasUtils.content n ns padding))%Q).
  { subst z. cbn -[CanvasUtils.content Qmin Qdiv].
    eapply Qle_trans; [apply Q.le_min_l|apply Q.le_min_r]. }
  apply zoom_times_content in Hzw; [|lra].
  apply zoom_times_content in Hzh; [|lra].
  destruct (frame_axis containerWidth padding 300
              (Math_min_list (Point.x (SystemNode.position n)) xs)
              (Math_max_list (Point.x (SystemNode.position n)) xs)
              (Point.x (SystemNode.position m)) z) as [Hx0 Hx1];
    [lra | lra | exact Hxmin | exact Hxmax | exact Hz | exact Hzw |].
  destruct (frame_axis containerHeight padding 150
              (Math_min_list (Point.y (SystemNode.position n)) ys)
              (Math_max_list (Point.y (SystemNode.position n)) ys)
              (Point.y (SystemNode.position m)) z) as [Hy0 Hy1];
    [lra | lra | exact Hymin | exact Hymax | exact Hz | exact Hzh |].
  split_and!; [exact Hx0 | exact Hx1 | exact Hy0 | exact Hy1].
Qed.

Lemma fitToView_frames_nodes_witness :
  let m : SystemNode.t Q := node_at "c" 500%Q 400%Q in
  let v := CanvasUtils.fitToView (Project.nodes sample_project)
             1200%Q 800%Q 50%Q in
  let s := CanvasUtils.canvasToScreen 500%Q 400%Q
             (CanvasUtils.pan v) (CanvasUtils.zoom v) in
  m ∈ Project.nodes sample_project /\
  (0 <= Point.x s)%Q /\
  (Point.x s + 300 * CanvasUtils.zoom v <= 1200)%Q /\
  (0 <= Point.y s)%Q /\
  (Point.y s + 150 * CanvasUtils.zoom v <= 800)%Q.
Proof.
  assert (Hin : node_at "c" 500%Q 400%Q ∈ Project.nodes sample_project)
    by (do 2 right; left).
  split; [exact Hin|].
  apply (fitToView_frames_nodes (Project.nodes sample_project) 1200%Q 800%Q 50%Q
           (node_at "c" 500%Q 400%Q));
    [reflexivity | reflexivity | discriminate | exact Hin].
Defined.

(** The clamp keeps the zoom between one tenth and two, whatever the zoom
    and the step were, leaves a sum inside that range as it is, and touches
    neither the pan nor the project. *)
Theorem handleZoom_clamps (delta : Q) (c : Interaction.Cells Q) :
  let c' := Interaction.handleZoom delta c in
  (1 # 10 <= Interaction.view_zoom c')%Q /\
  (Interaction.view_zoom c' <= 2)%Q /\
  ((1 # 10 <= Interaction.view_zoom c + delta)%Q ->
   (Interaction.view_zoom c + delta <= 2)%Q ->
   (Interaction.view_zoom c' == Interaction.view_zoom c + delta)%Q) /\
  Interaction.view_pan c' = Interaction.view_pan c /\
  Interaction.project_of c' = Interaction.project_of c /\
  DesignCanvas.localStorage (Interaction.page c')
  = DesignCanvas.localStorage (Interaction.page c).
Proof.
  cbn -[Qmax Qmin Qplus Qle Qdiv].
  change (inject_Z 1 / inject_Z 10)%Q with (1 / 10)%Q.
  set (z := DesignCanvas.zoom (DesignCanvas.canvasState (Interaction.page c))).
  split_and!; try reflexivity.
  - eapply Qle_trans; [|apply Q.le_max_l]. discriminate.
  - apply Q.max_lub; [discriminate | apply Q.le_min_l].
  - intros Hlo Hhi.
    transitivity (Qmin 2 (z + delta)); [apply Q.max_r | now apply Q.min_r].
    apply Q.min_glb; [discriminate | exact Hlo].
Qed.

(** Panning is a pure translation: after a primary-button press on the
    background at [(x0, y0)] with no node being dragged, a move to
    [(x1, y1)] shifts the pan by the pointer's displacement and changes
    neither the zoom, nor the project, nor the storage. *)
Theorem panning_translates (x0 y0 x1 y1 : Q)
    (canvas : option (Interaction.Rect Q)) (c : Interaction.Cells Q) :
  Interaction.draggedNode c = None ->
  let c1 := Interaction.handleCanvasMouseDown 0 x0 y0 c in
  exists c2,
    Interaction.handleCanvasMouseMove x1 y1 canvas c1 = Returned c2 /\
    point_Qeq (Interaction.view_pan c2)
      {| Point.x := (Point.x (Interaction.view_pan c) + (x1 - x0))%Q;
         Point.y := (Point.y (Interaction.view_pan c) + (y1 - y0))%Q |} /\
    Interaction.view_zoom c2 = Interaction.view_zoom c /\
    Interaction.project_of c2 = Interaction.project_of c /\
    DesignCanvas.localStorage (Interaction.page c2)
    = DesignCanvas.localStorage (Interaction.page c).
Proof.
  intros Hdrag. unfold Interaction.handleCanvasMouseDown. rewrite Hdrag.
  cbn -[Qplus Qminus]. eexists. split; [reflexivity|].
  unfold point_Qeq. cbn -[Qplus Qminus].
  split_and!; try reflexivity; ring.
Qed.

Lemma panning_translates_witness :
  let c1 := Interaction.handleCanvasMouseDown 0 300%Q 200%Q sample_cells in
  Interaction.draggedNode sample_cells = None /\
  exists c2,
    Interaction.handleCanvasMouseMove 340%Q 260%Q (Some sample_rect) c1
    = Returned c2 /\
    point_Qeq (Interaction.view_pan c2)
      {| Point.x := (0 + (340 - 300))%Q; Point.y := (0 + (260 - 200))%Q |}.
Proof.
  split; [reflexivity|].
  destruct (panning_translates 300%Q 200%Q 340%Q 260%Q (Some sample_rect)
              sample_cells eq_refl) as (c2 & Hmove & Hpan & _).
  exists c2. split; [exact Hmove | exact Hpan].
Defined.

Lemma canvasToScreen_screenToCanvas_exact (sx sy : Q) (pan : Point.t Q) (zoom : Q) :
  (0 < zoom)%Q ->
  let p := CanvasUtils.screenToCanvas sx sy pan zoom in
  point_Qeq (CanvasUtils.canvasToScreen (Point.x p) (Point.y p) pan zoom)
            {| Point.x := sx; Point.y := sy |}.
Proof.
  intros Hzoom. unfold point_Qeq. cbn.
  split; field; intros Hz; rewrite Hz in Hzoom; now apply Qlt_irrefl in Hzoom.
Qed.

(** A dragged node follows the pointer: after a move, every node with the
    dragged node's id is drawn at the pointer's position in the canvas
    element, less the grab offset. *)
Theorem handleNodeDragMove_follows_pointer (clientX clientY : Q)
    (rect : Interaction.Rect Q) (c : Interaction.Cells Q)
    (dragged : SystemNode.t Q) (p : Project.t Q) :
  Interaction.draggedNode c = Some dragged ->
  Interaction.project_of c = Some p ->
  (0 < Interaction.view_zoom c)%Q ->
  exists c' p',
    Interaction.handleNodeDragMove clientX clientY (Some rect) c = Returned c' /\
    Interaction.project_of c' = Some p' /\
    forall n',
      n' ∈ Project.nodes p' -> SystemNode.id n' = SystemNode.id dragged ->
      point_Qeq
        (CanvasUtils.canvasToScreen
           (Point.x (SystemNode.position n')) (Point.y (SystemNode.position n'))
           (Interaction.view_pan c') (Interaction.view_zoom c'))
        {| Point.x := (clientX - Interaction.left rect
                       - Point.x (Interaction.dragOffset c))%Q;
           Point.y := (clientY - Interaction.top rect
                       - Point.y (Interaction.dragOffset c))%Q |}.
Proof.
  intros Hdrag Hp Hzoom. unfold Interaction.handleNodeDragMove.
  rewrite Hdrag, Hp. eexists _, _. split; [reflexivity|]. split; [reflexivity|].
  intros n' Hn' Hid.
  cbn [Interaction.project_of Interaction.page Interaction.setPage
       Interaction.setProject DesignCanvas.project Project.nodes
       Interaction.with_nodes] in Hn'.
  apply list_elem_of_In, in_map_iff in Hn' as (n & Hn & _).
  destruct (bool_decide (SystemNode.id n = SystemNode.id dragged)) eqn:Hdec.
  - subst n'.
    apply (canvasToScreen_screenToCanvas_exact
             (clientX - Interaction.left rect - Point.x (Interaction.dragOffset c))%Q
             (clientY - Interaction.top rect - Point.y (Interaction.dragOffset c))%Q
             (Interaction.view_pan c) (Interaction.view_zoom c) Hzoom).
  - subst n'. apply bool_decide_eq_false in Hdec. contradiction.
Qed.

Lemma handleNodeDragMove_follows_pointer_witness :
  Interaction.draggedNode sample_dragging = Some (node_at "a" 100%Q 100%Q) /\
  Interaction.project_of sample_dragging = Some sample_project /\
  (0 < Interaction.view_zoom sample_dragging)%Q /\
  exists c' p',
    Interaction.handleNodeDragMove 700%Q 500%Q (Some sample_rect) sample_dragging
    = Returned c' /\
    Interaction.project_of c' = Some p' /\
    forall n',
      n' ∈ Project.nodes p' -> SystemNode.id n' = "a" ->
      point_Qeq
        (CanvasUtils.canvasToScreen
           (Point.x (SystemNode.position n')) (Point.y (SystemNode.position n'))
           (Interaction.view_pan c') (Interaction.view_zoom c'))
        {| Point.x := (700 - 280 - 20)%Q; Point.y := (500 - 64 - 16)%Q |}.
Proof.
  split_and!; [reflexivity..|].
  destruct (handleNodeDragMove_follows_pointer 700%Q 500%Q sample_rect
              sample_dragging (node_at "a" 100%Q 100%Q) sample_project
              eq_refl eq_refl eq_refl) as (c' & p' & Hmove & Hp' & Hat).
  exists c', p'. split_and!; [exact Hmove | exact Hp' |].
  intros n' Hin Hid. destruct (Hat n' Hin Hid) as [Hx Hy].
  split; [rewrite Hx | rewrite Hy]; reflexivity.
Defined.

(** ** The page's handlers: what they change and what they keep *)

Section InteractionFacts.
Context {num : Type} `{Number num}.
Implicit Types (c : Interaction.Cells num) (p : Project.t num).

Lemma find_node_without sel p (id : string) :
  id <> sel ->
  Interaction.find_node id (DesignCanvas.without_node sel p)
  = Interaction.find_node id p.
Proof.
  intros Hne. unfold Interaction.find_node.
  apply (list_find_filter_keep (fun n => SystemNode.id n = id)
           (fun n => SystemNode.id n <> sel)).
  intros n Hn. congruence.
Qed.

Lemma drawn_iff p (k : NodeConnection.t) :
  Interaction.drawn p k = true <->
  is_Some (Interaction.find_node (NodeConnection.source k) p) /\
  is_Some (Interaction.find_node (NodeConnection.target k) p).
Proof.
  unfold Interaction.drawn.
  destruct (Interaction.find_node (NodeConnection.source k) p),
           (Interaction.find_node (NodeConnection.target k) p);
    split; try done; intros [[? ?] [? ?]]; done.
Qed.

(** Deleting the selected node keeps the diagram well linked: when every
    connection had both its ends among the nodes, so has every connection
    that is left, and none of them is left undrawn. *)
Theorem deleteSelectedNode_keeps_links now (st : DesignCanvas.State num) p :
  DesignCanvas.project st = Some p ->
  well_linked p ->
  exists p',
    DesignCanvas.project (DesignCanvas.deleteSelectedNode now st) = Some p' /\
    well_linked p'.
Proof.
  intros Hp Hlinked.
  destruct (DesignCanvas.selectedNodeId (DesignCanvas.canvasState st))
    as [sel|] eqn:Hsel.
  - destruct (decide (sel = "")) as [->|Hne].
    + rewrite deleteSelectedNode_empty_id by done. eauto.
    + rewrite (deleteSelectedNode_run now st p sel Hp Hsel Hne).
      exists (DesignCanvas.without_node sel p). split; [reflexivity|].
      unfold well_linked in *. apply Forall_forall. intros k Hk.
      apply without_node_connections in Hk as [[Hs Ht] Hk].
      eapply Forall_forall in Hlinked; [|exact Hk].
      apply drawn_iff in Hlinked. apply drawn_iff.
      now rewrite !find_node_without by done.
  - rewrite deleteSelectedNode_nothing_selected by done. eauto.
Qed.

(** A click on a node never creates a self-loop and never touches the
    nodes: it leaves the connections as they are or appends one, and a
    diagram with no connection from a node to itself stays so.  A click on
    the node already chosen as source changes nothing at all. *)
Theorem handleNodeClick_keeps_loop_free e e' now nodeId c c' p :
  Interaction.handleNodeClick e now nodeId c = Returned (c', e') ->
  Interaction.project_of c = Some p ->
  loop_free p ->
  (Interaction.connectionMode c = true ->
   Interaction.connectionSource c = Some nodeId -> nodeId <> "" ->
   c' = c /\ e' = e) /\
  exists p',
    Interaction.project_of c' = Some p' /\
    loop_free p' /\
    Project.nodes p' = Project.nodes p /\
    (Project.connections p' = Project.connections p \/
     exists k, Project.connections p' = Project.connections p ++ [k]
               /\ NodeConnection.target k = nodeId
               /\ Interaction.connectionSource c = Some (NodeConnection.source k)).
Proof.
  intros Hrun Hp Hfree. unfold Interaction.handleNodeClick in Hrun.
  destruct (Interaction.connectionMode c) eqn:Hmode.
  - destruct (DesignCanvas.no_selection (Interaction.connectionSource c)) eqn:Hsrc.
    + injection Hrun as <- <-. split.
      * intros _ Hsame Hne. rewrite Hsame in Hsrc. cbn in Hsrc.
        now destruct (String.eqb_spec nodeId "").
      * exists p. split_and!; [exact Hp | exact Hfree | reflexivity | now left].
    + destruct (bool_decide (Interaction.connectionSource c = Some nodeId)) eqn:Hsame.
      * injection Hrun as <- <-. split; [done|].
        exists p. split_and!; [exact Hp | exact Hfree | reflexivity | now left].
      * apply bool_decide_eq_false in Hsame.
        destruct (Interaction.connectionSource c) as [source|] eqn:Hsource;
          [|discriminate].
        rewrite Hp in Hrun. cbn in Hrun. injection Hrun as <- <-.
        split; [intros _ Heq; congruence|].
        eexists. split; [reflexivity|]. cbn. split_and!.
        -- unfold loop_free in *. cbn. apply Forall_app. split; [exact Hfree|].
           constructor; [|constructor]. cbn. congruence.
        -- reflexivity.
        -- right. eexists. split_and!; reflexivity.
  - injection Hrun as <- <-. split; [intros; discriminate|].
    exists p. split_and!; [exact Hp | exact Hfree | reflexivity | now left].
Qed.

(** Drawing a connection takes two clicks: in connection mode with no
    source chosen, a click on [a] and then a click on another node [b]
    append the connection from [a] to [b] with a fresh id, type [sync],
    label [Connection] and protocol [HTTP], write the project to storage,
    and leave connection mode. *)
Theorem connection_by_two_clicks e now (a b : string) c p :
  Interaction.connectionMode c = true ->
  Interaction.connectionSource c = None ->
  a <> "" -> a <> b ->
  Interaction.project_of c = Some p ->
  exists c1 c2 p2 q,
    Interaction.handleNodeClick e now a c = Returned (c1, e) /\
    Interaction.project_of c1 = Some p /\
    Interaction.connectionSource c1 = Some a /\
    Interaction.handleNodeClick e now b c1 = Returned (c2, snd (generateId e)) /\
    Interaction.project_of c2 = Some p2 /\
    Project.nodes p2 = Project.nodes p /\
    Project.connections p2
    = Project.connections p
      ++ [Interaction.new_connection (fst (generateId e)) a b] /\
    Interaction.connectionMode c2 = false /\
    Interaction.connectionSource c2 = None /\
    ProjectStorage.getById (Project.id p)
      (DesignCanvas.localStorage (Interaction.page c2)) = Some q /\
    Project.connections q = Project.connections p2.
Proof.
  intros Hmode Hsource Ha Hab Hp.
  set (p2 := Interaction.with_connections p
               (Project.connections p
                ++ [Interaction.new_connection (fst (generateId e)) a b])).
  set (ls2 := ProjectStorage.save now p2
                (DesignCanvas.localStorage (Interaction.page c))).
  set (c1 := Interaction.setConnecting true (Some a) c).
  exists c1,
    (Interaction.setConnecting false None
       (Interaction.setPage
          (Interaction.setProject (Some p2)
             (Interaction.setLocalStorage ls2 (Interaction.page c1)))
          c1)),
    p2,
    (match ProjectStorage.getById (Project.id p)
             (DesignCanvas.localStorage (Interaction.page c)) with
     | Some _ => ProjectStorage.with_updated_at p2 now
     | None => p2
     end).
  split_and!; try reflexivity.
  - unfold Interaction.handleNodeClick. now rewrite Hmode, Hsource.
  - exact Hp.
  - unfold Interaction.handleNodeClick. cbn.
    destruct (String.eqb_spec a "") as [->|_]; [done|].
    rewrite bool_decide_eq_false_2 by congruence.
    change (Interaction.project_of c1) with (Interaction.project_of c).
    now rewrite Hp.
  - apply (getById_save now p2).
  - now destruct (ProjectStorage.getById _ _).
Qed.

End InteractionFacts.

Lemma sample_project_well_linked : well_linked sample_project.
Proof. repeat constructor. Qed.

Lemma sample_project_loop_free : loop_free sample_project.
Proof. repeat constructor; discriminate. Qed.

Lemma deleteSelectedNode_keeps_links_witness :
  DesignCanvas.project sample_state = Some sample_project /\
  well_linked sample_project /\
  exists p',
    DesignCanvas.project (DesignCanvas.deleteSelectedNode sample_clock sample_state)
    = Some p' /\
    well_linked p'.
Proof.
  split_and!; [reflexivity | exact sample_project_well_linked |].
  exact (deleteSelectedNode_keeps_links sample_clock sample_state sample_project
           eq_refl sample_project_well_linked).
Defined.

Lemma handleNodeClick_keeps_loop_free_witness :
  exists c' e',
    Interaction.handleNodeClick sample_env sample_clock "c" sample_connecting
    = Returned (c', e') /\
    Interaction.project_of sample_connecting = Some sample_project /\
    loop_free sample_project /\
    exists p',
      Interaction.project_of c' = Some p' /\
      loop_free p' /\
      Project.nodes p' = Project.nodes sample_project.
Proof.
  eexists _, _. split; [reflexivity|].
  split; [reflexivity|]. split; [exact sample_project_loop_free|].
  destruct (handleNodeClick_keeps_loop_free sample_env _ sample_clock "c"
              sample_connecting _ sample_project eq_refl eq_refl
              sample_project_loop_free) as [_ (p' & Hp' & Hfree & Hnodes & _)].
  exists p'. split_and!; [exact Hp' | exact Hfree | exact Hnodes].
Defined.

Lemma connection_by_two_clicks_witness :
  let c := Interaction.toggleConnectionMode sample_cells in
  Interaction.connectionMode c = true /\
  Interaction.connectionSource c = None /\
  "a" <> "" /\ "a" <> "c" /\
  Interaction.project_of c = Some sample_project /\
  exists c1 c2 p2,
    Interaction.handleNodeClick sample_env sample_clock "a" c
    = Returned (c1, sample_env) /\
    Interaction.handleNodeClick sample_env sample_clock "c" c1
    = Returned (c2, snd (generateId sample_env)) /\
    Interaction.project_of c2 = Some p2 /\
    Project.connections p2
    = Project.connections sample_project
      ++ [Interaction.new_connection "1700000000000-a3j2h1g0f" "a" "c"].
Proof.
  split_and!; [reflexivity | reflexivity | discriminate | discriminate
               | reflexivity |].
  destruct (connection_by_two_clicks sample_env sample_clock "a" "c"
              (Interaction.toggleConnectionMode sample_cells) sample_project)
    as (c1 & c2 & p2 & q & Hfirst & _ & _ & Hsecond & Hp2 & _ & Hconns & _);
    [reflexivity | reflexivity | discriminate | discriminate | reflexivity |].
  exists c1, c2, p2. split_and!; [exact Hfirst | exact Hsecond | exact Hp2 |].
  rewrite Hconns. reflexivity.
Defined.


Section InteractionEffects.
Context {num : Type} `{Number num}.
Implicit Types (c : Interaction.Cells num) (p : Project.t num).

Lemma with_position_same (n : SystemNode.t num) :
  Interaction.with_position n (SystemNode.position n) = n.
Proof. now destruct n. Qed.

(** A drag move changes positions only, of the nodes with the dragged id
    only, and persists nothing: the ids and their order, every other node,
    the connections, the view and the storage are as before. *)
Theorem handleNodeDragMove_frame (clientX clientY : num)
    (canvas : option (Interaction.Rect num)) c c' p :
  Interaction.handleNodeDragMove clientX clientY canvas c = Returned c' ->
  Interaction.project_of c = Some p ->
  exists p',
    Interaction.project_of c' = Some p' /\
    map SystemNode.id (Project.nodes p') = map SystemNode.id (Project.nodes p) /\
    Forall2 (fun n n' => n' = Interaction.with_position n (SystemNode.position n'))
            (Project.nodes p) (Project.nodes p') /\
    (forall i n,
        Project.nodes p !! i = Some n ->
        (forall d, Interaction.draggedNode c = Some d ->
                   SystemNode.id n <> SystemNode.id d) ->
        Project.nodes p' !! i = Some n) /\
    Project.connections p' = Project.connections p /\
    DesignCanvas.canvasState (Interaction.page c')
    = DesignCanvas.canvasState (Interaction.page c) /\
    DesignCanvas.localStorage (Interaction.page c')
    = DesignCanvas.localStorage (Interaction.page c).
Proof.
  intros Hrun Hp. unfold Interaction.handleNodeDragMove in Hrun.
  destruct (Interaction.draggedNode c) as [d|] eqn:Hdrag;
    [destruct canvas as [rect|]|].
  - rewrite Hp in Hrun. injection Hrun as <-.
    eexists. split; [reflexivity|].
    cbn [Interaction.with_nodes Project.nodes Project.connections
         Interaction.page Interaction.setPage Interaction.setProject
         DesignCanvas.canvasState DesignCanvas.localStorage].
    split_and!; try reflexivity.
    + rewrite map_map. apply map_ext. intros n. now destruct (bool_decide _).
    + induction (Project.nodes p) as [|n l IH]; cbn; constructor; [|exact IH].
      destruct (bool_decide _); cbn; [reflexivity|].
      symmetry. apply with_position_same.
    + intros i n Hi Hother.
      change (map ?f ?l) with (f <$> l). rewrite list_lookup_fmap, Hi. cbn.
      rewrite bool_decide_eq_false_2; [reflexivity|]. now apply Hother.
  - injection Hrun as <-. exists p. split_and!; try done.
    + apply Forall2_same_length_lookup. split; [done|].
      intros i n n' Hn Hn'. rewrite Hn in Hn'. injection Hn' as <-.
      symmetry. apply with_position_same.
  - injection Hrun as <-. exists p. split_and!; try done.
    + apply Forall2_same_length_lookup. split; [done|].
      intros i n n' Hn Hn'. rewrite Hn in Hn'. injection Hn' as <-.
      symmetry. apply with_position_same.
Qed.

(** Releasing the pointer after a drag persists the drag: the record stored
    under the project's id has the nodes the component shows, together with
    the form's name, requirements and audience, and the drag and the
    panning are over. *)
Theorem handleCanvasMouseUp_persists_drag now c (d : SystemNode.t num) p :
  Interaction.draggedNode c = Some d ->
  Interaction.project_of c = Some p ->
  let c' := Interaction.handleCanvasMouseUp now c in
  exists p' q,
    Interaction.project_of c' = Some p' /\
    Project.nodes p' = Project.nodes p /\
    Project.connections p' = Project.connections p /\
    ProjectStorage.getById (Project.id p)
      (DesignCanvas.localStorage (Interaction.page c')) = Some q /\
    Project.nodes q = Project.nodes p /\
    Project.connections q = Project.connections p /\
    Project.name q = Interaction.projectName c /\
    Interaction.draggedNode c' = None /\
    Interaction.isPanning c' = false.
Proof.
  intros Hdrag Hp.
  set (p' := Interaction.with_form p (Interaction.projectName c)
               (DesignCanvas.requirements (Interaction.page c))
               (DesignCanvas.audience (Interaction.page c))).
  exists p',
    (match ProjectStorage.getById (Project.id p)
             (DesignCanvas.localStorage (Interaction.page c)) with
     | Some _ => ProjectStorage.with_updated_at p' now
     | None => p'
     end).
  unfold Interaction.handleCanvasMouseUp, Interaction.handleNodeDragEnd.
  cbn [Interaction.draggedNode Interaction.setPanning]. rewrite Hdrag.
  unfold Interaction.saveProject.
  change (Interaction.project_of
            (Interaction.setPanning false (Interaction.panStart c) c))
    with (Interaction.project_of c).
  rewrite Hp.
  cbn -[ProjectStorage.getById ProjectStorage.save].
  split_and!; try reflexivity.
  - apply (getById_save now p').
  - now destruct (ProjectStorage.getById _ _).
  - now destruct (ProjectStorage.getById _ _).
  - now destruct (ProjectStorage.getById _ _).
Qed.

(** [saveProject] writes the form into the project: the component's
    project and the stored record carry the form's name, requirements and
    audience and the project's nodes and connections; the stored record is
    stamped when it replaced one, the component's copy keeps its
    [updated_at]. *)
Theorem saveProject_writes_form now c p :
  Interaction.project_of c = Some p ->
  let c' := Interaction.saveProject now c in
  let p' := Interaction.with_form p (Interaction.projectName c)
              (DesignCanvas.requirements (Interaction.page c))
              (DesignCanvas.audience (Interaction.page c)) in
  Interaction.project_of c' = Some p' /\
  Project.id p' = Project.id p /\
  Project.updated_at p' = Project.updated_at p /\
  ProjectStorage.getById (Project.id p)
    (DesignCanvas.localStorage (Interaction.page c'))
  = Some (match ProjectStorage.getById (Project.id p)
                  (DesignCanvas.localStorage (Interaction.page c)) with
          | Some _ => ProjectStorage.with_updated_at p' now
          | None => p'
          end) /\
  (forall id', id' <> Project.id p ->
     ProjectStorage.getById id' (DesignCanvas.localStorage (Interaction.page c'))
     = ProjectStorage.getById id' (DesignCanvas.localStorage (Interaction.page c))).
Proof.
  intros Hp. unfold Interaction.saveProject. rewrite Hp.
  cbn -[ProjectStorage.getById ProjectStorage.save].
  split_and!; try reflexivity.
  - apply (getById_save now
             (Interaction.with_form p (Interaction.projectName c)
                (DesignCanvas.requirements (Interaction.page c))
                (DesignCanvas.audience (Interaction.page c)))).
  - intros id' Hne. now apply getById_save_other.
Qed.

Lemma find_node_app p (extra : list (SystemNode.t num)) (id : string) :
  is_Some (Interaction.find_node id p) ->
  is_Some (Interaction.find_node id
             (Interaction.with_nodes p (Project.nodes p ++ extra))).
Proof.
  unfold Interaction.find_node. cbn. intros [n Hn].
  apply fmap_Some in Hn as ([i n'] & Hfind & ->).
  rewrite (list_find_app_l _ _ _ _ _ Hfind). eauto.
Qed.

(** Dropping a template appends one node and nothing else: the node is the
    template's instance at the canvas position of the drop, the existing
    nodes and the connections are untouched, a well-linked diagram stays
    well linked, and the stored record has the new node list. *)
Theorem handleTemplateDrop_appends e now (template : ComponentTemplate.t)
    (clientX clientY : num) (rect : Interaction.Rect num) c p :
  Interaction.project_of c = Some p ->
  let position :=
    CanvasUtils.screenToCanvas
      (nsub clientX (Interaction.left rect)) (nsub clientY (Interaction.top rect))
      (Interaction.view_pan c) (Interaction.view_zoom c) in
  let node := fst (createNodeFromTemplate e template position) in
  let c' := fst (Interaction.handleTemplateDrop e now template clientX clientY
                   (Some rect) c) in
  exists p' q,
    Interaction.project_of c' = Some p' /\
    Project.nodes p' = Project.nodes p ++ [node] /\
    Project.connections p' = Project.connections p /\
    SystemNode.id node = fst (generateId e) /\
    SystemNode.position node = position /\
    snd (Interaction.handleTemplateDrop e now template clientX clientY
           (Some rect) c) = snd (generateId e) /\
    (well_linked p -> well_linked p') /\
    ProjectStorage.getById (Project.id p)
      (DesignCanvas.localStorage (Interaction.page c')) = Some q /\
    Project.nodes q = Project.nodes p'.
Proof.
  intros Hp position node c'.
  set (p' := Interaction.with_nodes p (Project.nodes p ++ [node])).
  exists p',
    (match ProjectStorage.getById (Project.id p)
             (DesignCanvas.localStorage (Interaction.page c)) with
     | Some _ => ProjectStorage.with_updated_at p' now
     | None => p'
     end).
  subst c'. unfold Interaction.handleTemplateDrop. rewrite Hp.
  cbn -[ProjectStorage.getById ProjectStorage.save CanvasUtils.screenToCanvas].
  split_and!; try reflexivity.
  - unfold well_linked. intros Hlinked. apply Forall_forall. intros k Hk.
    eapply Forall_forall in Hlinked; [|exact Hk].
    apply drawn_iff in Hlinked as [Hs Ht]. apply drawn_iff.
    split; now apply find_node_app.
  - apply (getById_save now p').
  - now destruct (ProjectStorage.getById _ _).
Qed.

(** Deleting the selected connection removes the connections with its id
    and nothing else: the nodes stay, the other connections stay in order,
    the stored record has the same connections, and the editor closes. *)
Theorem deleteConnection_removes now c (selected : NodeConnection.t) p :
  Interaction.selectedConnection c = Some selected ->
  Interaction.project_of c = Some p ->
  let c' := Interaction.deleteConnection now c in
  exists p' q,
    Interaction.project_of c' = Some p' /\
    Project.nodes p' = Project.nodes p /\
    Project.connections p'
    = filter (fun k => NodeConnection.id k <> NodeConnection.id selected)
             (Project.connections p) /\
    (forall k, k ∈ Project.connections p' <->
               k ∈ Project.connections p
               /\ NodeConnection.id k <> NodeConnection.id selected) /\
    (well_linked p -> well_linked p') /\
    ProjectStorage.getById (Project.id p)
      (DesignCanvas.localStorage (Interaction.page c')) = Some q /\
    Project.connections q = Project.connections p' /\
    Interaction.selectedConnection c' = None /\
    Interaction.connectionEditOpen c' = false.
Proof.
  intros Hsel Hp.
  set (p' := Interaction.with_connections p
               (filter (fun k => NodeConnection.id k <> NodeConnection.id selected)
                       (Project.connections p))).
  exists p',
    (match ProjectStorage.getById (Project.id p)
             (DesignCanvas.localStorage (Interaction.page c)) with
     | Some _ => ProjectStorage.with_updated_at p' now
     | None => p'
     end).
  unfold Interaction.deleteConnection. rewrite Hsel, Hp.
  cbn -[ProjectStorage.getById ProjectStorage.save].
  split_and!; try reflexivity.
  - intros k. rewrite (list_elem_of_filter
      (fun k => NodeConnection.id k <> NodeConnection.id selected)). tauto.
  - unfold well_linked. intros Hlinked. apply Forall_forall. intros k Hk.
    apply (list_elem_of_filter
      (fun k => NodeConnection.id k <> NodeConnection.id selected)) in Hk
      as [_ Hk].
    eapply Forall_forall in Hlinked; [|exact Hk]. exact Hlinked.
  - apply (getById_save now p').
  - now destruct (ProjectStorage.getById _ _).
Qed.

End InteractionEffects.

Lemma handleNodeDragMove_frame_witness :
  exists c',
    Interaction.handleNodeDragMove 700%Q 500%Q (Some sample_rect) sample_dragging
    = Returned c' /\
    Interaction.project_of sample_dragging = Some sample_project /\
    exists p',
      Interaction.project_of c' = Some p' /\
      map SystemNode.id (Project.nodes p') = ["a"; "b"; "c"] /\
      Project.connections p' = Project.connections sample_project.
Proof.
  eexists. split; [reflexivity|]. split; [reflexivity|].
  destruct (handleNodeDragMove_frame 700%Q 500%Q (Some sample_rect)
              sample_dragging _ sample_project eq_refl eq_refl)
    as (p' & Hp' & Hids & _ & _ & Hconns & _).
  exists p'. split_and!; [exact Hp' | rewrite Hids; reflexivity | exact Hconns].
Defined.

Lemma handleCanvasMouseUp_persists_drag_witness :
  let c' := Interaction.handleCanvasMouseUp sample_clock sample_dragging in
  Interaction.draggedNode sample_dragging = Some (node_at "a" 100%Q 100%Q) /\
  Interaction.project_of sample_dragging = Some sample_project /\
  exists q,
    ProjectStorage.getById "p1" (DesignCanvas.localStorage (Interaction.page c'))
    = Some q /\
    Project.nodes q = Project.nodes sample_project /\
    Project.name q = "Chat service" /\
    Interaction.draggedNode c' = None.
Proof.
  split_and!; [reflexivity | reflexivity |].
  destruct (handleCanvasMouseUp_persists_drag sample_clock sample_dragging
              (node_at "a" 100%Q 100%Q) sample_project eq_refl eq_refl)
    as (p' & q & _ & _ & _ & Hq & Hnodes & _ & Hname & Hdrag & _).
  exists q. split_and!; [exact Hq | exact Hnodes | exact Hname | exact Hdrag].
Defined.

Lemma saveProject_writes_form_witness :
  let c' := Interaction.saveProject sample_clock sample_cells in
  Interaction.project_of sample_cells = Some sample_project /\
  (exists p', Interaction.project_of c' = Some p'
              /\ Project.name p' = "Chat service"
              /\ Project.updated_at p' = Project.updated_at sample_project) /\
  exists q,
    ProjectStorage.getById "p1" (DesignCanvas.localStorage (Interaction.page c'))
    = Some q /\
    Project.name q = "Chat service" /\
    Project.updated_at q = sample_clock.
Proof.
  split; [reflexivity|].
  pose proof (saveProject_writes_form sample_clock sample_cells sample_project
                eq_refl) as Hsave.
  cbv zeta in Hsave. destruct Hsave as (Hp' & _ & Hupdated & Hstored & _).
  split.
  - eexists. split_and!; [exact Hp' | reflexivity | exact Hupdated].
  - eexists. split_and!; [exact Hstored | reflexivity | reflexivity].
Defined.

Lemma handleTemplateDrop_appends_witness :
  let c' := fst (Interaction.handleTemplateDrop sample_env sample_clock
                   sample_template 880%Q 364%Q (Some sample_rect) sample_cells) in
  Interaction.project_of sample_cells = Some sample_project /\
  exists p',
    Interaction.project_of c' = Some p' /\
    map SystemNode.id (Project.nodes p')
    = ["a"; "b"; "c"; "1700000000000-a3j2h1g0f"] /\
    well_linked p'.
Proof.
  split; [reflexivity|].
  pose proof (handleTemplateDrop_appends sample_env sample_clock sample_template
                880%Q 364%Q sample_rect sample_cells sample_project eq_refl)
    as Hdrop.
  cbv zeta in Hdrop.
  destruct Hdrop as (p' & q & Hp' & Hnodes & _ & Hid & _ & _ & Hlinked & _).
  exists p'. split_and!; [exact Hp' | | exact (Hlinked sample_project_well_linked)].
  rewrite Hnodes, map_app. cbn [map]. rewrite Hid. reflexivity.
Defined.

Lemma deleteConnection_removes_witness :
  let c' := Interaction.deleteConnection sample_clock sample_editing in
  Interaction.selectedConnection sample_editing
  = Some (sample_connection "k1" "a" "b") /\
  Interaction.project_of sample_editing = Some sample_project /\
  exists p',
    Interaction.project_of c' = Some p' /\
    Project.connections p'
    = [sample_connection "k2" "b" "c"; sample_connection "k3" "c" "a"] /\
    well_linked p' /\
    Interaction.selectedConnection c' = None.
Proof.
  split_and!; [reflexivity | reflexivity |].
  destruct (deleteConnection_removes sample_clock sample_editing
              (sample_connection "k1" "a" "b") sample_project eq_refl eq_refl)
    as (p' & q & Hp' & _ & Hconns & _ & Hlinked & _ & _ & Hselected & _).
  exists p'.
  split_and!; [exact Hp' | | exact (Hlinked sample_project_well_linked)
               | exact Hselected].
  rewrite Hconns. vm_compute. reflexivity.
Defined.


(** ** What a settled generation applies *)

Section GenerationFacts.
Context {num : Type}.
Variable parseAgentResponse :
  value -> outcome (list (SystemNode.t num) * list NodeConnection.t).

Lemma error_message_nonempty (err : option string) :
  DesignCanvas.error_message err <> "".
Proof.
  unfold DesignCanvas.error_message. destruct err as [s|]; [|discriminate].
  destruct (String.eqb_spec s ""); [discriminate|assumption].
Qed.

(** When the agent call settles, [isGenerating] is false and the canvas
    state is untouched.  If the call succeeded with status [success] and
    [parseAgentResponse] returned at least one node, the project becomes the
    captured project with exactly the returned nodes and connections and
    status [completed], that project is saved, and no error is set.  In
    every other case (a rejected call, a failure, an exception of the
    parser, no node) the project and the storage are as they were and a
    non-empty error message is set. *)
Theorem handleGenerateDesign_applies_result (now : string) (p : Project.t num)
    (settled : outcome DesignCanvas.AgentResult) (st : DesignCanvas.State num) :
  let st' :=
    DesignCanvas.handleGenerateDesign_settle parseAgentResponse now p settled st in
  DesignCanvas.isGenerating st' = false /\
  DesignCanvas.canvasState st' = DesignCanvas.canvasState st /\
  (forall result nodes connections,
      settled = Returned result ->
      DesignCanvas.agent_succeeded result = Returned true ->
      parseAgentResponse (DesignCanvas.response result)
      = Returned (nodes, connections) ->
      0 < length nodes ->
      DesignCanvas.project st'
      = Some (DesignCanvas.with_generated p nodes connections) /\
      Project.status (DesignCanvas.with_generated p nodes connections)
      = completed /\
      DesignCanvas.localStorage st'
      = ProjectStorage.save now (DesignCanvas.with_generated p nodes connections)
          (DesignCanvas.localStorage st) /\
      DesignCanvas.generationError st' = DesignCanvas.generationError st) /\
  ((forall result nodes connections,
       settled = Returned result ->
       DesignCanvas.agent_succeeded result = Returned true ->
       parseAgentResponse (DesignCanvas.response result)
       = Returned (nodes, connections) ->
       length nodes = 0) ->
   DesignCanvas.project st' = DesignCanvas.project st /\
   DesignCanvas.localStorage st' = DesignCanvas.localStorage st /\
   exists message,
     DesignCanvas.generationError st' = Some message /\ message <> "").
Proof.
  intros st'. subst st'.
  unfold DesignCanvas.handleGenerateDesign_settle, try_catch.
  destruct settled as [result|err]; cbn.
  2:{ split_and!; [reflexivity | reflexivity | discriminate |].
      intros _. split_and!; [reflexivity..|]. eexists. split; [reflexivity|].
      discriminate. }
  unfold DesignCanvas.generate_body.
  destruct (DesignCanvas.agent_succeeded result) as [[|]|err] eqn:Hok; cbn.
  - destruct (parseAgentResponse (DesignCanvas.response result))
      as [[nodes connections]|err] eqn:Hparse; cbn.
    + destruct nodes as [|n nodes]; cbn.
      * split_and!; [reflexivity | reflexivity | |].
        -- intros result' nodes' connections' [= <-] _ Hparse' Hlen.
           rewrite Hparse in Hparse'. injection Hparse' as <- <-.
           cbn in Hlen. lia.
        -- intros _. split_and!; [reflexivity..|]. eexists.
           split; [reflexivity|]. discriminate.
      * split_and!; [reflexivity | reflexivity | |].
        -- intros result' nodes' connections' [= <-] _ Hparse' _.
           rewrite Hparse in Hparse'. injection Hparse' as <- <-.
           split_and!; reflexivity.
        -- intros Hnone.
           specialize (Hnone result (n :: nodes) connections eq_refl Hok Hparse).
           discriminate.
    + split_and!; [reflexivity | reflexivity | |].
      * intros result' nodes' connections' [= <-] _ Hparse' _.
        rewrite Hparse in Hparse'. discriminate.
      * intros _. split_and!; [reflexivity..|]. eexists.
        split; [reflexivity|]. discriminate.
  - split_and!; [reflexivity | reflexivity | |].
    + intros result' nodes' connections' [= <-] Hok' _ _.
      rewrite Hok in Hok'. discriminate.
    + intros _. split_and!; [reflexivity..|]. eexists.
      split; [reflexivity|]. apply error_message_nonempty.
  - split_and!; [reflexivity | reflexivity | |].
    + intros result' nodes' connections' [= <-] Hok' _ _.
      rewrite Hok in Hok'. discriminate.
    + intros _. split_and!; [reflexivity..|]. eexists.
      split; [reflexivity|]. discriminate.
Qed.

End GenerationFacts.

(** ** Identifiers, dates and file names *)

Lemma small_cases (v : Z) :
  (0 <= v < 16)%Z ->
  v = 0%Z \/ v = 1%Z \/ v = 2%Z \/ v = 3%Z \/ v = 4%Z \/ v = 5%Z \/ v = 6%Z
  \/ v = 7%Z \/ v = 8%Z \/ v = 9%Z \/ v = 10%Z \/ v = 11%Z \/ v = 12%Z
  \/ v = 13%Z \/ v = 14%Z \/ v = 15%Z.
Proof. lia. Qed.

Lemma hex_digit_is_hex (v : Z) : (0 <= v < 16)%Z -> is_hex (hex_digit v) = true.
Proof.
  intros Hv. apply small_cases in Hv.
  repeat (destruct Hv as [->|Hv]; [reflexivity|]). now subst.
Qed.

Lemma variant_digit (r : Z) :
  (0 <= r < 16)%Z ->
  hex_digit (Z.lor (Z.land r 3) 8) ∈ ["8"; "9"; "a"; "b"]%char.
Proof.
  intros Hr. apply small_cases in Hr.
  repeat (destruct Hr as [->|Hr]; [vm_compute; set_solver|]).
  subst. vm_compute. set_solver.
Qed.

Lemma variant_is_hex (r : Z) :
  (0 <= r < 16)%Z -> is_hex (hex_digit (Z.lor (Z.land r 3) 8)) = true.
Proof.
  intros Hr. apply small_cases in Hr.
  repeat (destruct Hr as [->|Hr]; [reflexivity|]). now subst.
Qed.

(** [generateUUID] returns a version-4 UUID whatever the random source
    draws: 36 characters, dashes at positions 8, 13, 18 and 23, the version
    digit [4] at position 14, a variant digit from [8] to [b] at position
    19, and lower-case hexadecimal digits everywhere else. *)
Theorem generateUUID_format (rnd : nat -> Z) :
  (forall k, (0 <= rnd k < 16)%Z) ->
  let u := generateUUID rnd in
  String.length u = 36 /\
  String.get 8 u = Some "-"%char /\
  String.get 13 u = Some "-"%char /\
  String.get 18 u = Some "-"%char /\
  String.get 23 u = Some "-"%char /\
  String.get 14 u = Some "4"%char /\
  (exists v, String.get 19 u = Some v /\ v ∈ ["8"; "9"; "a"; "b"]%char) /\
  (forall i c, String.get i u = Some c ->
               i <> 8 -> i <> 13 -> i <> 18 -> i <> 23 -> is_hex c = true).
Proof.
  intros Hrnd. cbn. split_and!; try reflexivity.
  - eexists. split; [reflexivity|]. apply variant_digit, Hrnd.
  - intros i c Hget Hi8 Hi13 Hi18 Hi23.
    do 36 (destruct i as [|i];
           [first [ congruence
                  | injection Hget as <-;
                    first [ reflexivity
                          | apply hex_digit_is_hex, Hrnd
                          | apply variant_is_hex, Hrnd ] ]
           |]).
    discriminate.
Qed.

Lemma generateUUID_format_witness :
  (forall k, (0 <= sample_draws k < 16)%Z) /\
  generateUUID sample_draws = "3c3c3c3c-3c3c-43c3-83c3-c3c3c3c3c3c3" /\
  String.length (generateUUID sample_draws) = 36.
Proof.
  assert (Hdraws : forall k, (0 <= sample_draws k < 16)%Z).
  { intros k. unfold sample_draws. destruct (Nat.even k); lia. }
  split; [exact Hdraws|]. split; [reflexivity|].
  exact (proj1 (generateUUID_format sample_draws Hdraws)).
Defined.

Lemma floor_bounds (a b : Z) :
  (0 < b)%Z -> (b * (a / b) <= a < b * (a / b + 1))%Z.
Proof.
  intros Hb. pose proof (Z.div_mod a b) as Hdiv.
  pose proof (Z.mod_pos_bound a b Hb) as Hmod. lia.
Qed.

(** [formatDate] on a date that parses: with [diff] the milliseconds from
    the date to now, the answer is [Just now] exactly when [diff] is under
    one minute (a date in the future included); otherwise it shows the
    whole minutes under an hour, the whole hours under a day, the whole days
    under a week, each count at least 1 and rounded down, and from seven
    days on the locale date. *)
Theorem formatDate_buckets (toLocaleDateString : Z -> string) (t now : Z) :
  let diff := (now - t)%Z in
  let shown := formatDate toLocaleDateString (Some t) now in
  ((diff < 60000)%Z /\ shown = "Just now") \/
  (exists n, (1 <= n < 60)%Z /\ (60000 * n <= diff < 60000 * (n + 1))%Z /\
             shown = (pretty n ++ " min" ++ plural n ++ " ago")%string) \/
  (exists n, (1 <= n < 24)%Z /\ (3600000 * n <= diff < 3600000 * (n + 1))%Z /\
             shown = (pretty n ++ " hour" ++ plural n ++ " ago")%string) \/
  (exists n, (1 <= n < 7)%Z /\ (86400000 * n <= diff < 86400000 * (n + 1))%Z /\
             shown = (pretty n ++ " day" ++ plural n ++ " ago")%string) \/
  ((604800000 <= diff)%Z /\ shown = toLocaleDateString t).
Proof.
  intros diff shown. subst shown. unfold formatDate. fold diff.
  pose proof (floor_bounds diff 60000 ltac:(lia)) as Hmins.
  pose proof (floor_bounds diff 3600000 ltac:(lia)) as Hhours.
  pose proof (floor_bounds diff 86400000 ltac:(lia)) as Hdays.
  cbv zeta.
  destruct (Z.ltb_spec (diff / 60000) 1) as [H1|H1]; [left; split; [lia|reflexivity]|].
  right.
  destruct (Z.ltb_spec (diff / 60000) 60) as [H2|H2].
  { left. exists (diff / 60000)%Z. split_and!; try lia. reflexivity. }
  right.
  destruct (Z.ltb_spec (diff / 3600000) 24) as [H3|H3].
  { left. exists (diff / 3600000)%Z. split_and!; try lia. reflexivity. }
  right.
  destruct (Z.ltb_spec (diff / 86400000) 7) as [H4|H4].
  { left. exists (diff / 86400000)%Z. split_and!; try lia. reflexivity. }
  right. split; [lia|reflexivity].
Qed.

Lemma lower_char_not_space (c : ascii) :
  is_space c = false -> is_space (lower_char c) = false.
Proof.
  destruct c as [[] [] [] [] [] [] [] []]; vm_compute; congruence.
Qed.

Lemma dash_runs_no_space (s : string) (in_run : bool) :
  no_space (toLowerCase (dash_runs in_run s)) = true.
Proof.
  revert in_run. induction s as [|c s IH]; intros in_run; [reflexivity|].
  cbn [dash_runs]. destruct (is_space c) eqn:Hc.
  - destruct in_run; [apply IH|].
    cbn [toLowerCase]. unfold no_space, chars in *. cbn [list_ascii_of_string forallb].
    rewrite IH. reflexivity.
  - cbn [toLowerCase]. unfold no_space, chars in *. cbn [list_ascii_of_string forallb].
    rewrite IH, (lower_char_not_space c Hc). reflexivity.
Qed.

Lemma dash_runs_clean (s : string) (in_run : bool) :
  no_space s = true -> dash_runs in_run s = s.
Proof.
  revert in_run. induction s as [|c s IH]; intros in_run Hs; [reflexivity|].
  unfold no_space, chars in *. cbn [list_ascii_of_string forallb] in Hs.
  apply andb_true_iff in Hs as [Hc Hs]. apply negb_true_iff in Hc.
  cbn [dash_runs]. rewrite Hc, (IH false Hs). reflexivity.
Qed.

Lemma toLowerCase_append (a b : string) :
  toLowerCase (a ++ b) = (toLowerCase a ++ toLowerCase b)%string.
Proof.
  induction a as [|c a IH]; [reflexivity|].
  change (String c a ++ b)%string with (String c (a ++ b)%string).
  cbn [toLowerCase]. now rewrite IH.
Qed.

Lemma dash_runs_append (a s : string) (in_run : bool) :
  a <> EmptyString -> ends_with_space a = false ->
  dash_runs in_run (a ++ s) = (dash_runs in_run a ++ dash_runs false s)%string.
Proof.
  revert in_run. induction a as [|c a IH]; intros in_run Hne Hend;
    [contradiction|].
  change (String c a ++ s)%string with (String c (a ++ s)%string).
  destruct a as [|d a].
  - cbn in Hend. cbn [dash_runs]. rewrite Hend. reflexivity.
  - assert (Hrest : forall r,
               dash_runs r (String d a ++ s)
               = (dash_runs r (String d a) ++ dash_runs false s)%string)
      by (intros r; apply IH; [discriminate|exact Hend]).
    cbn [dash_runs]. destruct (is_space c).
    + destruct in_run; now rewrite Hrest.
    + now rewrite Hrest.
Qed.

Lemma dash_runs_in_run (ws s : string) :
  all_space ws = true -> dash_runs true (ws ++ s) = dash_runs true s.
Proof.
  unfold all_space, chars. induction ws as [|c ws IH]; intros Hws;
    [reflexivity|].
  cbn [list_ascii_of_string forallb] in Hws.
  apply andb_true_iff in Hws as [Hc Hws].
  change (String c ws ++ s)%string with (String c (ws ++ s)%string).
  cbn [dash_runs]. rewrite Hc. exact (IH Hws).
Qed.

Lemma dash_runs_fresh (s : string) :
  starts_with_space s = false -> dash_runs true s = dash_runs false s.
Proof.
  destruct s as [|c s]; [reflexivity|]. cbn. now intros ->.
Qed.

Lemma dash_runs_gap (ws s : string) :
  ws <> EmptyString -> all_space ws = true -> starts_with_space s = false ->
  dash_runs false (ws ++ s) = String "-" (dash_runs false s).
Proof.
  intros Hne Hws Hstart. destruct ws as [|c ws]; [contradiction|].
  unfold all_space, chars in Hws. cbn [list_ascii_of_string forallb] in Hws.
  apply andb_true_iff in Hws as [Hc Hws].
  change (String c ws ++ s)%string with (String c (ws ++ s)%string).
  cbn [dash_runs]. rewrite Hc.
  now rewrite (dash_runs_in_run ws s Hws), (dash_runs_fresh s Hstart).
Qed.

(** The file name [exportProjectJSON] offers for download is the stem
    followed by [.json].  The stem holds no white space whatever the project
    name is; it is the lower-cased name when the name holds no white space;
    and a run of white space between two parts of the name, the first not
    ending and the second not starting with white space, becomes exactly one
    dash between the stems of the parts. *)
Theorem download_name_stem (name : string) :
  download_name name = (download_stem name ++ ".json")%string /\
  no_space (download_stem name) = true /\
  (no_space name = true -> download_stem name = toLowerCase name) /\
  (forall a ws b,
      name = (a ++ ws ++ b)%string ->
      ends_with_space a = false ->
      ws <> EmptyString -> all_space ws = true ->
      starts_with_space b = false ->
      download_stem name
      = (download_stem a ++ "-" ++ download_stem b)%string).
Proof.
  unfold download_stem. split_and!.
  - reflexivity.
  - apply dash_runs_no_space.
  - intros Hclean. now rewrite dash_runs_clean.
  - intros a ws b -> Hend Hne Hws Hstart.
    destruct a as [|c a].
    + change (EmptyString ++ ws ++ b)%string with (ws ++ b)%string.
      now rewrite (dash_runs_gap ws b Hne Hws Hstart).
    + rewrite dash_runs_append by (discriminate || exact Hend).
      rewrite (dash_runs_gap ws b Hne Hws Hstart).
      now rewrite toLowerCase_append.
Qed.

(** ** The fenced block of an answer *)

Lemma append_cons (c : ascii) (a b : string) :
  (String c a ++ b)%string = String c (a ++ b)%string.
Proof. reflexivity. Qed.

Lemma backtick_not_space : is_space "`" = false.
Proof. reflexivity. Qed.

Lemma prefix_fence_head (c : ascii) (s : string) :
  String.prefix "```" (String c s) = true -> c = "`"%char.
Proof.
  cbn [String.prefix]. destruct (ascii_dec "`" c) as [Heq|Hne]; intros Hrest;
    [now symmetry|discriminate].
Qed.

Lemma closing_fence (s : string) :
  String.prefix "```" (skip_space ("```" ++ s)) = true.
Proof. destruct s; reflexivity. Qed.

Lemma prefix_cons_inv (a : ascii) (p s : string) :
  String.prefix (String a p) s = true ->
  exists s', s = String a s' /\ String.prefix p s' = true.
Proof.
  destruct s as [|b s']; cbn [String.prefix]; [discriminate|].
  destruct (ascii_dec a b) as [<-|]; [|discriminate].
  intros Hrest. now exists s'.
Qed.

Lemma lazy_until_close_stop (s : string) :
  String.prefix "```" (skip_space s) = true ->
  lazy_until_close s = Some EmptyString.
Proof. intros Hclose. destruct s; cbn [lazy_until_close]; now rewrite Hclose. Qed.

Lemma lazy_until_close_step (c : ascii) (s : string) :
  String.prefix "```" (skip_space (String c s)) = false ->
  lazy_until_close (String c s) = option_map (String c) (lazy_until_close s).
Proof. intros Hopen. cbn [lazy_until_close]. now rewrite Hopen. Qed.

Lemma lazy_until_close_inv (s u : string) :
  lazy_until_close s = Some u ->
  (u = EmptyString /\ String.prefix "```" (skip_space s) = true) \/
  (exists c s' u',
      s = String c s' /\ u = String c u' /\
      String.prefix "```" (skip_space s) = false /\
      lazy_until_close s' = Some u').
Proof.
  intros Hlazy.
  destruct (String.prefix "```" (skip_space s)) eqn:Hclose.
  - left. rewrite (lazy_until_close_stop s Hclose) in Hlazy.
    split; congruence.
  - right. destruct s as [|c s'].
    + cbn in Hlazy. discriminate.
    + rewrite (lazy_until_close_step c s' Hclose) in Hlazy.
      destruct (lazy_until_close s') as [u'|] eqn:Hrest; [|discriminate].
      injection Hlazy as <-. now exists c, s', u'.
Qed.

Lemma lazy_until_close_ends (s u : string) :
  lazy_until_close s = Some u -> ends_with_space u = false.
Proof.
  revert u. induction s as [|c s IH]; intros u Hlazy.
  - apply lazy_until_close_inv in Hlazy
      as [[-> _]|(c & s' & u' & Hs & _)]; [reflexivity|discriminate].
  - apply lazy_until_close_inv in Hlazy
      as [[-> _]|(c' & s' & u' & Hs & -> & Hopen & Hrest)]; [reflexivity|].
    injection Hs as <- <-. specialize (IH u' Hrest).
    destruct u' as [|d u']; [|exact IH].
    cbn [ends_with_space].
    apply lazy_until_close_inv in Hrest
      as [[_ Hclose]|(? & ? & ? & _ & Hu & _)]; [|discriminate].
    destruct (is_space c) eqn:Hc; [|reflexivity].
    cbn [skip_space] in Hopen. rewrite Hc in Hopen. congruence.
Qed.

Lemma lazy_until_close_no_fence (s u : string) :
  lazy_until_close s = Some u -> after_first "```" u = None.
Proof.
  revert u. induction s as [|c s IH]; intros u Hlazy.
  - apply lazy_until_close_inv in Hlazy
      as [[-> _]|(c & s' & u' & Hs & _)]; [reflexivity|discriminate].
  - apply lazy_until_close_inv in Hlazy
      as [[-> _]|(c' & s' & u' & Hs & -> & Hopen & Hrest)]; [reflexivity|].
    injection Hs as <- <-. specialize (IH u' Hrest).
    cbn [after_first]. rewrite IH.
    destruct (String.prefix "```" (String c u')) eqn:Hfence; [|reflexivity].
    exfalso.
    pose proof (prefix_fence_head _ _ Hfence) as ->.
    cbn [skip_space] in Hopen. rewrite backtick_not_space in Hopen.
    apply prefix_cons_inv in Hfence as (u0 & Hu0 & Hfence).
    injection Hu0 as ->.
    apply prefix_cons_inv in Hfence as (u1 & -> & Hfence).
    apply prefix_cons_inv in Hfence as (u2 & -> & _).
    apply lazy_until_close_inv in Hrest
      as [[? _]|(? & s1 & ? & -> & Hu & _ & Hrest)]; [discriminate|].
    injection Hu as <- <-.
    apply lazy_until_close_inv in Hrest
      as [[? _]|(? & s2 & ? & -> & Hu & _ & _)]; [discriminate|].
    injection Hu as <- <-.
    pose proof (closing_fence s2) as Hclose.
    change (skip_space ("```" ++ s2))
      with (String "`" (String "`" (String "`" s2))) in Hclose.
    congruence.
Qed.

Lemma skip_space_starts (s : string) : starts_with_space (skip_space s) = false.
Proof.
  induction s as [|c s IH]; [reflexivity|].
  cbn [skip_space]. destruct (is_space c) eqn:Hc; [exact IH|].
  cbn. exact Hc.
Qed.

(** The block [fence_match] finds is trimmed and holds no fence: it
    neither starts nor ends with white space, and three back-ticks in a row
    do not occur in it. *)
Theorem fence_match_trimmed (text inner : string) :
  fence_match text = Some inner ->
  starts_with_space inner = false /\
  ends_with_space inner = false /\
  after_first "```" inner = None.
Proof.
  unfold fence_match. intros Hmatch.
  destruct (after_first "```json" text) as [rest|]; [|discriminate].
  split_and!.
  - pose proof (skip_space_starts rest) as Hstart.
    apply lazy_until_close_inv in Hmatch
      as [[-> _]|(c & s' & u' & Hs & -> & _)]; [reflexivity|].
    rewrite Hs in Hstart. exact Hstart.
  - exact (lazy_until_close_ends _ _ Hmatch).
  - exact (lazy_until_close_no_fence _ _ Hmatch).
Qed.

Lemma fence_match_trimmed_witness :
  fence_match fenced_answer = Some sample_json /\
  starts_with_space sample_json = false /\
  ends_with_space sample_json = false /\
  after_first "```" sample_json = None.
Proof.
  split; [reflexivity|].
  exact (fence_match_trimmed fenced_answer sample_json eq_refl).
Defined.

Lemma skip_space_all_space (ws s : string) :
  all_space ws = true -> skip_space (ws ++ s) = skip_space s.
Proof.
  unfold all_space, chars. induction ws as [|c ws IH]; intros Hws; [reflexivity|].
  cbn [list_ascii_of_string forallb] in Hws.
  apply andb_true_iff in Hws as [Hc Hws].
  rewrite append_cons; cbn [skip_space]. rewrite Hc. exact (IH Hws).
Qed.

Lemma after_first_opening (before s : string) :
  no_char "`" before = true ->
  after_first "```json" (before ++ "```json" ++ s) = Some s.
Proof.
  unfold no_char, chars. induction before as [|c before IH]; intros Hclean.
  - destruct s; reflexivity.
  - cbn [list_ascii_of_string forallb] in Hclean.
    apply andb_true_iff in Hclean as [Hc Hclean].
    apply negb_true_iff, Ascii.eqb_neq in Hc.
    rewrite append_cons; cbn [after_first String.prefix].
    destruct (ascii_dec "`" c) as [Heq|_]; [contradiction|].
    exact (IH Hclean).
Qed.

Lemma open_inside (u rest : string) :
  u <> EmptyString -> ends_with_space u = false -> no_char "`" u = true ->
  String.prefix "```" (skip_space (u ++ rest)) = false.
Proof.
  unfold no_char, chars. induction u as [|c u IH]; intros Hne Hend Hclean;
    [contradiction|].
  cbn [list_ascii_of_string forallb] in Hclean.
  apply andb_true_iff in Hclean as [Hc Hclean].
  apply negb_true_iff, Ascii.eqb_neq in Hc.
  rewrite append_cons; cbn [skip_space]. destruct (is_space c) eqn:Hsp.
  - destruct u as [|d u]; [cbn in Hend; congruence|].
    apply IH; [discriminate|exact Hend|exact Hclean].
  - cbn [String.prefix]. destruct (ascii_dec "`" c); [contradiction|reflexivity].
Qed.

Lemma lazy_until_close_exact (inner rest : string) :
  ends_with_space inner = false -> no_char "`" inner = true ->
  String.prefix "```" (skip_space rest) = true ->
  lazy_until_close (inner ++ rest) = Some inner.
Proof.
  intros Hend Hclean Hclose. induction inner as [|c inner IH].
  - exact (lazy_until_close_stop rest Hclose).
  - rewrite append_cons.
    rewrite lazy_until_close_step
      by (apply (open_inside (String c inner) rest); [discriminate|assumption..]).
    rewrite IH; [reflexivity| |].
    + destruct inner; [reflexivity|exact Hend].
    + unfold no_char, chars in *. cbn [list_ascii_of_string forallb] in Hclean.
      now apply andb_true_iff in Hclean as [_ Hclean].
Qed.

(** Round trip of the fenced block: a trimmed text without back-ticks,
    written between an opening [```json] fence and a closing fence with any
    white space around it, after a preamble without back-ticks and before
    any tail, is what [fence_match] returns. *)
Theorem fence_match_round_trip (before ws1 inner ws2 tail : string) :
  no_char "`" before = true ->
  all_space ws1 = true -> all_space ws2 = true ->
  no_char "`" inner = true ->
  starts_with_space inner = false -> ends_with_space inner = false ->
  fence_match (before ++ "```json" ++ ws1 ++ inner ++ ws2 ++ "```" ++ tail)
  = Some inner.
Proof.
  intros Hbefore Hws1 Hws2 Hclean Hstart Hend.
  unfold fence_match. rewrite (after_first_opening before _ Hbefore).
  rewrite (skip_space_all_space ws1 _ Hws1).
  assert (Hclose : String.prefix "```" (skip_space (ws2 ++ "```" ++ tail)) = true).
  { rewrite (skip_space_all_space ws2 _ Hws2). apply closing_fence. }
  destruct inner as [|c inner].
  - change (EmptyString ++ ws2 ++ "```" ++ tail)%string
      with (ws2 ++ "```" ++ tail)%string.
    rewrite (skip_space_all_space ws2 _ Hws2).
    apply lazy_until_close_stop. exact (closing_fence tail).
  - rewrite append_cons; cbn [skip_space]. cbn in Hstart. rewrite Hstart.
    exact (lazy_until_close_exact (String c inner) _ Hend Hclean Hclose).
Qed.

Lemma fence_match_round_trip_witness :
  no_char "`" "Here it is: " = true /\
  all_space " " = true /\
  no_char "`" sample_json = true /\
  starts_with_space sample_json = false /\
  ends_with_space sample_json = false /\
  fence_match ("Here it is: " ++ "```json" ++ " " ++ sample_json ++ " "
               ++ "```" ++ " Enjoy.")%string
  = Some sample_json.
Proof.
  split_and!; [reflexivity..|].
  apply (fence_match_round_trip "Here it is: " " " sample_json " " " Enjoy.");
    reflexivity.
Defined.

(** ** The brace substring of an answer *)

Lemma append_length (a b : string) :
  String.length (a ++ b) = String.length a + String.length b.
Proof. induction a as [|c a IH]; [reflexivity|]. rewrite append_cons. cbn. now rewrite IH. Qed.

Lemma indexOf_append (c : ascii) (a b : string) :
  no_char c a = true -> indexOf c (a ++ String c b) = Some (String.length a).
Proof.
  unfold no_char, chars. induction a as [|d a IH]; intros Hclean.
  - change (EmptyString ++ String c b)%string with (String c b).
    cbn [indexOf]. now rewrite Ascii.eqb_refl.
  - cbn [list_ascii_of_string forallb] in Hclean.
    apply andb_true_iff in Hclean as [Hd Hclean]. apply negb_true_iff in Hd.
    rewrite append_cons. cbn [indexOf]. rewrite Hd, (IH Hclean). reflexivity.
Qed.

Lemma lastIndexOf_absent (c : ascii) (s : string) :
  no_char c s = true -> lastIndexOf c s = None.
Proof.
  unfold no_char, chars. induction s as [|d s IH]; intros Hclean; [reflexivity|].
  cbn [list_ascii_of_string forallb] in Hclean.
  apply andb_true_iff in Hclean as [Hd Hclean]. apply negb_true_iff in Hd.
  cbn [lastIndexOf]. now rewrite (IH Hclean), Hd.
Qed.

Lemma lastIndexOf_append (c : ascii) (a b : string) :
  no_char c b = true -> lastIndexOf c (a ++ String c b) = Some (String.length a).
Proof.
  intros Hclean. induction a as [|d a IH].
  - change (EmptyString ++ String c b)%string with (String c b).
    cbn [lastIndexOf]. now rewrite (lastIndexOf_absent c b Hclean), Ascii.eqb_refl.
  - rewrite append_cons. cbn [lastIndexOf]. now rewrite IH.
Qed.

Lemma substring_append_skip (a b : string) (m : nat) :
  String.substring (String.length a) m (a ++ b) = String.substring 0 m b.
Proof. induction a as [|c a IH]; [reflexivity|]. rewrite append_cons. exact IH. Qed.

Lemma substring_append_take (a b : string) :
  String.substring 0 (String.length a) (a ++ b) = a.
Proof.
  induction a as [|c a IH]; [destruct b; reflexivity|].
  rewrite append_cons. cbn. now rewrite IH.
Qed.

Lemma append_assoc (a b c : string) : ((a ++ b) ++ c = a ++ (b ++ c))%string.
Proof. induction a as [|d a IH]; [reflexivity|]. rewrite !append_cons. now rewrite IH. Qed.

(** Round trip of the brace substring: when the answer is a preamble
    without an opening brace, then a braced text, then a tail without a
    closing brace, step 3 hands exactly the braced text to [JSON.parse],
    whatever braces the text itself holds inside. *)
Theorem brace_candidate_round_trip (before body tail : string) :
  no_char "{" before = true ->
  no_char "}" tail = true ->
  brace_candidate (before ++ "{" ++ body ++ "}" ++ tail)
  = Some ("{" ++ body ++ "}")%string.
Proof.
  intros Hbefore Htail. unfold brace_candidate.
  change ("{" ++ body ++ "}" ++ tail)%string
    with (String "{" (body ++ String "}" tail)).
  rewrite (indexOf_append "{" before _ Hbefore).
  replace (before ++ String "{" (body ++ String "}" tail))%string
    with ((before ++ String "{" body) ++ String "}" tail)%string
    by (now rewrite append_assoc, append_cons).
  rewrite (lastIndexOf_append "}" _ tail Htail).
  unfold js_substring. rewrite append_length. cbn [String.length].
  rewrite Nat.min_l, Nat.max_r by lia.
  replace ((before ++ String "{" body) ++ String "}" tail)%string
    with (before ++ (String "{" (body ++ "}") ++ tail))%string.
  2:{ rewrite !append_assoc, !append_cons. f_equal. f_equal.
      now rewrite append_assoc. }
  rewrite substring_append_skip.
  replace (String.length before + S (String.length body) + 1
           - String.length before)
    with (String.length (String "{" (body ++ "}"))).
  2:{ cbn [String.length]. rewrite append_length. cbn. lia. }
  rewrite substring_append_take. reflexivity.
Qed.

Lemma brace_candidate_round_trip_witness :
  no_char "{" "Plan: " = true /\
  no_char "}" " as requested." = true /\
  brace_candidate ("Plan: " ++ "{" ++ "x{y}z" ++ "}" ++ " as requested.")%string
  = Some ("{" ++ "x{y}z" ++ "}")%string.
Proof.
  split_and!; [reflexivity | reflexivity |].
  apply (brace_candidate_round_trip "Plan: " "x{y}z" " as requested.");
    reflexivity.
Defined.

(** ** Loading a project, and the dashboard's search *)

Lemma getById_id {num : Type} (id : string)
    (ls : @ProjectStorage.LocalStorage num) (p : Project.t num) :
  ProjectStorage.getById id ls = Some p -> Project.id p = id.
Proof.
  unfold ProjectStorage.getById. intros Hfind.
  apply fmap_Some in Hfind as ([i q] & Hfind & ->).
  apply list_find_Some in Hfind as (_ & Hid & _). exact Hid.
Qed.

Lemma with_form_same {num : Type} (p : Project.t num) :
  Interaction.with_form p (Project.name p) (Project.requirements p)
    (Project.audience p) = p.
Proof. now destruct p. Qed.

(** Loading a project and saving it at once changes nothing but the time
    stamp of its stored record: the form is filled from the project, so
    [saveProject] writes the project back as it was loaded, and the other
    stored projects are untouched.  When no project has the id of the
    route, nothing is loaded. *)
Theorem loadProject_then_save {num : Type} (now projectId : string)
    (c : Interaction.Cells num) :
  match loadProject projectId c with
  | None =>
      ProjectStorage.getById projectId
        (DesignCanvas.localStorage (Interaction.page c)) = None
  | Some c1 =>
      exists p,
        ProjectStorage.getById projectId
          (DesignCanvas.localStorage (Interaction.page c)) = Some p /\
        Project.id p = projectId /\
        Interaction.project_of c1 = Some p /\
        Interaction.project_of (Interaction.saveProject now c1) = Some p /\
        ProjectStorage.getById projectId
          (DesignCanvas.localStorage
             (Interaction.page (Interaction.saveProject now c1)))
        = Some (ProjectStorage.with_updated_at p now) /\
        forall id', id' <> projectId ->
          ProjectStorage.getById id'
            (DesignCanvas.localStorage
               (Interaction.page (Interaction.saveProject now c1)))
          = ProjectStorage.getById id'
              (DesignCanvas.localStorage (Interaction.page c))
  end.
Proof.
  unfold loadProject.
  destruct (ProjectStorage.getById projectId
              (DesignCanvas.localStorage (Interaction.page c)))
    as [p|] eqn:Hfound; [|reflexivity].
  pose proof (getById_id _ _ _ Hfound) as Hid.
  exists p. split; [reflexivity|]. split; [exact Hid|]. split; [reflexivity|].
  unfold Interaction.saveProject, Interaction.project_of.
  cbn [Interaction.page DesignCanvas.project Interaction.projectName
       DesignCanvas.requirements DesignCanvas.audience
       DesignCanvas.localStorage Interaction.setPage Interaction.setProject
       Interaction.setLocalStorage].
  rewrite with_form_same. split; [reflexivity|]. split.
  - rewrite <- Hid at 1. rewrite getById_save, Hid, Hfound. reflexivity.
  - intros id' Hother. apply getById_save_other. now rewrite Hid.
Qed.

Lemma is_space_lower_char (c : ascii) : is_space (lower_char c) = is_space c.
Proof. destruct c as [[] [] [] [] [] [] [] []]; reflexivity. Qed.

Lemma all_space_toLowerCase (s : string) :
  all_space (toLowerCase s) = all_space s.
Proof.
  unfold all_space, chars. induction s as [|c s IH]; [reflexivity|].
  cbn [toLowerCase list_ascii_of_string forallb].
  now rewrite is_space_lower_char, IH.
Qed.

Lemma skip_space_blank (s : string) :
  all_space s = true -> skip_space s = EmptyString.
Proof.
  unfold all_space, chars. induction s as [|c s IH]; [reflexivity|].
  cbn [list_ascii_of_string forallb skip_space]. intros Hs.
  apply andb_true_iff in Hs as [-> Hs]. exact (IH Hs).
Qed.

Lemma skip_space_not_blank (s : string) :
  all_space s = false -> all_space (skip_space s) = false.
Proof.
  unfold all_space, chars. induction s as [|c s IH]; [discriminate|].
  cbn [list_ascii_of_string forallb skip_space].
  destruct (is_space c) eqn:Hc; [exact IH|].
  intros _. cbn [list_ascii_of_string forallb]. now rewrite Hc.
Qed.

Lemma all_space_rev_app (s acc : string) :
  all_space (String.rev_app s acc) = all_space s && all_space acc.
Proof.
  unfold all_space, chars. revert acc.
  induction s as [|c s IH]; intros acc; [reflexivity|].
  cbn [String.rev_app list_ascii_of_string forallb]. rewrite IH.
  cbn [list_ascii_of_string forallb].
  destruct (is_space c), (forallb is_space (list_ascii_of_string s));
    reflexivity.
Qed.

Lemma blank_query (s : string) : String.eqb (trim s) "" = all_space s.
Proof.
  unfold trim. destruct (all_space s) eqn:Hs.
  - now rewrite (skip_space_blank s Hs).
  - apply skip_space_not_blank in Hs.
    assert (Hrev : all_space (String.rev (skip_space s)) = false).
    { unfold String.rev. rewrite all_space_rev_app, Hs. reflexivity. }
    apply skip_space_not_blank in Hrev.
    assert (Hout : all_space
                     (String.rev (skip_space (String.rev (skip_space s))))
                   = false).
    { unfold String.rev at 1. rewrite all_space_rev_app, Hrev. reflexivity. }
    destruct (String.rev (skip_space (String.rev (skip_space s))));
      [discriminate|reflexivity].
Qed.

Lemma prefix_same (s : string) : String.prefix s s = true.
Proof.
  induction s as [|c s IH]; [reflexivity|].
  cbn [String.prefix]. destruct (ascii_dec c c); [exact IH|contradiction].
Qed.

Lemma includes_same (s : string) : includes s s = true.
Proof. destruct s; cbn [includes]; now rewrite prefix_same. Qed.

(** The dashboard's search: the projects listed are a sub-list of the
    projects, in their order; a query of white space lists them all; the
    result does not depend on the case of the query; and a project whose
    name is the query, up to case, is listed. *)
Theorem filteredProjects_search {num : Type} (searchQuery : string)
    (projects : list (Project.t num)) :
  filteredProjects searchQuery projects `sublist_of` projects /\
  (all_space searchQuery = true ->
   filteredProjects searchQuery projects = projects) /\
  (forall other,
      toLowerCase other = toLowerCase searchQuery ->
      filteredProjects other projects = filteredProjects searchQuery projects) /\
  (forall p,
      p ∈ projects ->
      toLowerCase (Project.name p) = toLowerCase searchQuery ->
      p ∈ filteredProjects searchQuery projects).
Proof.
  unfold filteredProjects. split_and!.
  - destruct (String.eqb (trim searchQuery) ""); [reflexivity|].
    apply sublist_filter.
  - intros Hblank. now rewrite blank_query, Hblank.
  - intros other Hcase. rewrite !blank_query.
    rewrite <- (all_space_toLowerCase other), Hcase, all_space_toLowerCase.
    unfold search_hit. rewrite Hcase. reflexivity.
  - intros p Hin Hname.
    destruct (String.eqb (trim searchQuery) ""); [exact Hin|].
    apply list_elem_of_filter. split; [|exact Hin].
    unfold search_hit. rewrite Hname, includes_same. reflexivity.
Qed.
